(** * Offline immunization tracker: record store and status engine

    A shallow embedding of the tracker's script (the single-facility
    application script and the multi-facility [App.js] add-on) together with
    the properties of its natural-language specification.

    Conventions of the embedding:
    - a JavaScript string is a [string]; the empty string is the only falsy one;
    - a [Date] is its time value, an integer number of milliseconds since the
      epoch, or [None] for an Invalid Date (time value NaN);
    - a number obtained from dates ([a - b], [Math.floor], [Math.ceil]) is an
      integer or [None] for NaN; every comparison with NaN is false;
    - the device clock is read by [new Date()]; every function that reads it
      takes the reading as an explicit argument;
    - the local time zone is UTC (the facilities of the source are in Ghana),
      so [getFullYear] is the UTC calendar year; [formatDate] takes what
      local time is ahead of UTC as an argument;
    - the Dexie database is a record of tables threaded through a small
      state-and-error monad, with an explicit list of injected storage
      faults. *)

From Stdlib Require Import ZArith List String Ascii Bool Lia Arith.
From Stdlib Require Import DecimalString DecimalNat DecimalZ.
From Stdlib Require DecimalFacts.
Import ListNotations.

Local Open Scope string_scope.
Local Open Scope Z_scope.

(* ================================================================== *)
(** ** JavaScript primitives used by the script *)
(* ================================================================== *)

(** Truthiness of a string: [if (s)] holds exactly for non-empty strings. *)
Definition truthy (s : string) : bool :=
  match s with
  | EmptyString => false
  | String _ _ => true
  end.

(** [1000 * 60 * 60 * 24], the divisor of every day computation. *)
Definition msPerDay : Z := 1000 * 60 * 60 * 24.

(** Time value of a [Date]; [None] is the Invalid Date. *)
Definition JSDate := option Z.

(** A number produced from dates; [None] is NaN. *)
Definition JSNum := option Z.

(** [a < b] on dates (both are converted to their time values). *)
Definition date_lt (a b : JSDate) : bool :=
  match a, b with
  | Some x, Some y => x <? y
  | _, _ => false
  end.

(** [a > b] on dates. *)
Definition date_gt (a b : JSDate) : bool := date_lt b a.

(** [Math.floor((a - b) / (1000 * 60 * 60 * 24))]. *)
Definition floorDays (a b : JSDate) : JSNum :=
  match a, b with
  | Some x, Some y => Some ((x - y) / msPerDay)
  | _, _ => None
  end.

(** [Math.ceil((a - b) / (1000 * 60 * 60 * 24))]. *)
Definition ceilDays (a b : JSDate) : JSNum :=
  match a, b with
  | Some x, Some y => Some (- ((y - x) / msPerDay))
  | _, _ => None
  end.

Definition num_gt (n : JSNum) (k : Z) : bool :=
  match n with Some v => k <? v | None => false end.

Definition num_le (n : JSNum) (k : Z) : bool :=
  match n with Some v => v <=? k | None => false end.

(** *** Calendar *)

Definition isLeap (y : Z) : bool :=
  ((y mod 4 =? 0) && negb (y mod 100 =? 0)) || (y mod 400 =? 0).

Definition daysInMonth (y m : Z) : Z :=
  if m =? 2 then (if isLeap y then 29 else 28)
  else if (m =? 4) || (m =? 6) || (m =? 9) || (m =? 11) then 30
  else 31.

(** Days since 1970-01-01 of a proleptic Gregorian date. *)
Definition daysFromCivil (y m d : Z) : Z :=
  let y' := if m <=? 2 then y - 1 else y in
  let era := y' / 400 in
  let yoe := y' - era * 400 in
  let mp := if 2 <? m then m - 3 else m + 9 in
  let doy := (153 * mp + 2) / 5 + d - 1 in
  let doe := yoe * 365 + yoe / 4 - yoe / 100 + doy in
  era * 146097 + doe - 719468.

(** [date.getFullYear()] of a valid time value. *)
Definition getFullYear (t : Z) : Z :=
  let z := t / msPerDay + 719468 in
  let era := z / 146097 in
  let doe := z - era * 146097 in
  let yoe := (doe - doe / 1460 + doe / 36524 - doe / 146096) / 365 in
  let doy := doe - (365 * yoe + yoe / 4 - yoe / 100) in
  let mp := (5 * doy + 2) / 153 in
  let m := if mp <? 10 then mp + 3 else mp - 9 in
  yoe + era * 400 + (if m <=? 2 then 1 else 0).

(** *** Strings *)

Definition isDigit (c : ascii) : bool :=
  let n := nat_of_ascii c in (48 <=? n)%nat && (n <=? 57)%nat.

Definition digitVal (c : ascii) : Z := Z.of_nat (nat_of_ascii c) - 48.

Fixpoint allDigits (s : string) : bool :=
  match s with
  | EmptyString => true
  | String c r => isDigit c && allDigits r
  end.

Fixpoint digitsVal (acc : Z) (s : string) : Z :=
  match s with
  | EmptyString => acc
  | String c r => digitsVal (10 * acc + digitVal c) r
  end.

(** [new Date(s)] for the strings a date input yields: [YYYY-MM-DD] is
    midnight UTC of that day, anything else is an Invalid Date. *)
Definition Date_parse (s : string) : JSDate :=
  if (String.length s =? 10)%nat then
    let ys := substring 0 4 s in
    let ms := substring 5 2 s in
    let ds := substring 8 2 s in
    if allDigits ys && allDigits ms && allDigits ds
       && (substring 4 1 s =? "-")%string && (substring 7 1 s =? "-")%string
    then
      let y := digitsVal 0 ys in
      let m := digitsVal 0 ms in
      let d := digitsVal 0 ds in
      if (1 <=? m) && (m <=? 12) && (1 <=? d) && (d <=? daysInMonth y m)
      then Some (daysFromCivil y m d * msPerDay)
      else None
    else None
  else None.

(** [String(n)] for a non-negative integer count. *)
Definition String_of_nat (n : nat) : string :=
  NilZero.string_of_uint (Nat.to_uint n).

(** [String(z)] for an integer. *)
Definition String_of_Z (z : Z) : string :=
  NilZero.string_of_int (Z.to_int z).

Fixpoint repeatChar (c : ascii) (n : nat) : string :=
  match n with
  | O => EmptyString
  | S k => String c (repeatChar c k)
  end.

(** [s.padStart(n, c)] with a one-character filler. *)
Definition padStart (s : string) (n : nat) (c : ascii) : string :=
  repeatChar c (n - String.length s) ++ s.

Definition lowerChar (c : ascii) : ascii :=
  let n := nat_of_ascii c in
  if (65 <=? n)%nat && (n <=? 90)%nat then ascii_of_nat (n + 32) else c.

(** [s.toLowerCase()] on ASCII text. *)
Fixpoint toLowerCase (s : string) : string :=
  match s with
  | EmptyString => EmptyString
  | String c r => String (lowerChar c) (toLowerCase r)
  end.

(** White space removed by [trim]: space, tab, line feed, vertical tab,
    form feed, carriage return. *)
Definition isSpace (c : ascii) : bool :=
  let n := nat_of_ascii c in
  (n =? 32)%nat || ((9 <=? n)%nat && (n <=? 13)%nat).

Fixpoint trimStart (s : string) : string :=
  match s with
  | EmptyString => EmptyString
  | String c r => if isSpace c then trimStart r else s
  end.

(** Drops trailing white space: a character is kept when it is not a space
    or something non-blank follows it. *)
Fixpoint trimEnd (s : string) : string :=
  match s with
  | EmptyString => EmptyString
  | String c r =>
      match trimEnd r with
      | EmptyString => if isSpace c then EmptyString else String c EmptyString
      | r' => String c r'
      end
  end.

(** [s.trim()]. *)
Definition trim (s : string) : string := trimEnd (trimStart s).

(* ================================================================== *)
(** ** Data model *)
(* ================================================================== *)

(** [status] of a vaccination record. *)
Inductive Status := pending | completed | scheduled.

(** A row of the [vaccinations] table. *)
Record Vaccination := mkVaccination {
  v_id : Z;
  childId : Z;
  vaccine : string;
  dateGiven : string;
  batchNumber : string;
  placeGiven : string;
  remarks : string;
  nextVisit : string;
  status : Status
}.

(** A row of the [children] table; [createdAt] is [None] when the property
    is absent. *)
Record ChildRow := mkChildRow {
  c_id : Z;
  regNo : string;
  name : string;
  dob : string;
  sex : string;
  address : string;
  contact : string;
  isDefaulter : bool;
  createdAt : option Z
}.

(** An element of the in-memory [children] array: the row with its
    [vaccinations] attached. *)
Record Child := mkChild {
  row : ChildRow;
  vaccinations : list Vaccination
}.

(** A row of the [facility] table. *)
Record Facility := mkFacility {
  f_id : Z;
  f_name : string;
  updatedAt : Z
}.

Definition setVaccinations (c : Child) (vs : list Vaccination) : Child :=
  {| row := row c; vaccinations := vs |}.

Definition setRowDefaulter (r : ChildRow) (b : bool) : ChildRow :=
  {| c_id := c_id r; regNo := regNo r; name := name r; dob := dob r;
     sex := sex r; address := address r; contact := contact r;
     isDefaulter := b; createdAt := createdAt r |}.

Definition setDefaulter (c : Child) (b : bool) : Child :=
  {| row := setRowDefaulter (row c) b; vaccinations := vaccinations c |}.

(* ================================================================== *)
(** ** Vaccination schedule *)
(* ================================================================== *)

Definition vaccinationSchedule : list string := [
  "BCG at Birth";
  "OPV0 at Birth";
  "Hepatitis B at Birth";
  "OPV1 at 6 weeks";
  "Penta1 at 6 weeks";
  "PCV1 at 6 weeks";
  "Rotavirus1 at 6 weeks";
  "OPV2 at 10 weeks";
  "Penta2 at 10 weeks";
  "PCV2 at 10 weeks";
  "Rotavirus2 at 10 weeks";
  "OPV3 at 14 weeks";
  "Penta3 at 14 weeks";
  "PCV3 at 14 weeks";
  "Rotavirus3 at 14 weeks";
  "IPV1 at 14 weeks";
  "Malaria1 at 6 months";
  "Malaria2 at 7 months";
  "IPV2 at 7 months";
  "Malaria3 at 9 months";
  "Measles Rubella1 at 9 months";
  "Malaria4 at 18 months";
  "Measles Rubella2 at 18 months";
  "Men A at 18 months";
  "Vitamin A at 6 months";
  "Vitamin A at 12 months";
  "Vitamin A at 18 months";
  "Vitamin A at 24 months";
  "Vitamin A at 30 months";
  "Vitamin A at 36 months";
  "Vitamin A at 42 months";
  "Vitamin A at 48 months";
  "Vitamin A at 54 months";
  "Vitamin A at 60 months"
].

(** [arr.includes(v)] on an array of strings. *)
Definition includes (arr : list string) (v : string) : bool :=
  existsb (String.eqb v) arr.

(** The vaccines offered by [openBookingModal]: not given, not booked and
    without an unsaved date.  [unsavedDates] is the child's entry of the
    unsaved-edit buffer as key/value pairs. *)
Definition availableVaccines (child : Child)
    (unsavedDates : list (string * string)) : list string :=
  let givenVaccines :=
    map vaccine (filter (fun v => truthy (dateGiven v)) (vaccinations child)) in
  let vaccinesWithUnsavedDates :=
    map fst (filter (fun kv => truthy (snd kv)) unsavedDates) in
  let bookedVaccines :=
    map vaccine
      (filter (fun v => truthy (nextVisit v) && negb (truthy (dateGiven v)))
              (vaccinations child)) in
  filter (fun v => negb (includes givenVaccines v)
                   && negb (includes bookedVaccines v)
                   && negb (includes vaccinesWithUnsavedDates v))
         vaccinationSchedule.

(* ================================================================== *)
(** ** Identifier generator *)
(* ================================================================== *)

(** [`${String(count).padStart(3, '0')}/${year}`] *)
Definition formatRegNo (count : nat) (year : Z) : string :=
  padStart (String_of_nat count) 3 "0" ++ "/" ++ String_of_Z year.

(** The filter of [generateRegNo]: the child was created in [year]; a child
    without [createdAt] counts as created now. *)
Definition createdInYear (now year : Z) (child : Child) : bool :=
  let childYear :=
    getFullYear (match createdAt (row child) with
                 | Some t => t
                 | None => now
                 end) in
  childYear =? year.

Definition regNoTaken (children : list Child) (r : string) : bool :=
  existsb (fun child => (regNo (row child) =? r)%string) children.

(** The [while] loop of [generateRegNo], run for at most [fuel] tests of
    its condition. *)
Fixpoint regNoLoop (fuel : nat) (children : list Child) (year : Z)
    (count : nat) : option string :=
  match fuel with
  | O => None
  | S fuel' =>
      let r := formatRegNo count year in
      if regNoTaken children r
      then regNoLoop fuel' children year (S count)
      else Some r
  end.

(** Initial value of [count]. *)
Definition initialCount (children : list Child) (now : Z) : nat :=
  (List.length (filter (createdInYear now (getFullYear now)) children) + 1)%nat.

(** [generateRegNo()], reading the array [children] and the clock; every
    [new Date()] of one call is the reading [now].  One more test than there
    are children always ends the loop (see [regNoLoop_total]). *)
Definition generateRegNo (children : list Child) (now : Z) : option string :=
  regNoLoop (S (List.length children)) children (getFullYear now)
            (initialCount children now).

(** [^\d{3}/\d{4}$] *)
Definition matchesRegNoPattern (s : string) : bool :=
  match s with
  | String a (String b (String c (String sl
      (String d (String e (String f (String g EmptyString))))))) =>
      isDigit a && isDigit b && isDigit c && (sl =? "/")%char
      && isDigit d && isDigit e && isDigit f && isDigit g
  | _ => false
  end.

(* ================================================================== *)
(** ** Status engine *)
(* ================================================================== *)

(** The guard [v.nextVisit && !v.dateGiven]. *)
Definition booked (v : Vaccination) : bool :=
  truthy (nextVisit v) && negb (truthy (dateGiven v)).

(** *** updateStats *)

Record Flags := mkFlags {
  isDefaulterFlag : bool;
  isDueSoonFlag : bool;
  isUpcomingFlag : bool
}.

Definition noFlags : Flags := mkFlags false false false.

(** Body of the inner [forEach] of [updateStats]. *)
Definition statsVisit (today : Z) (f : Flags) (vaccination : Vaccination) : Flags :=
  if booked vaccination then
    let nextVisitDate := Date_parse (nextVisit vaccination) in
    if date_lt nextVisitDate (Some today) then
      mkFlags true (isDueSoonFlag f) (isUpcomingFlag f)
    else
      let daysUntil := ceilDays nextVisitDate (Some today) in
      if num_le daysUntil 7 then
        mkFlags (isDefaulterFlag f) true (isUpcomingFlag f)
      else if num_le daysUntil 30 then
        mkFlags (isDefaulterFlag f) (isDueSoonFlag f) true
      else f
  else f.

Definition childFlags (today : Z) (child : Child) : Flags :=
  fold_left (statsVisit today) (vaccinations child) noFlags.

Record Stats := mkStats {
  totalChildren : nat;
  totalDefaulters : nat;
  totalDueSoon : nat;
  totalUpcoming : nat
}.

Definition bump (b : bool) (n : nat) : nat := if b then S n else n.

(** Body of the outer [forEach] of [updateStats]; the accumulator holds the
    three counters. *)
Definition statsChild (today : Z) (acc : nat * nat * nat) (child : Child)
    : nat * nat * nat :=
  let '(defaulterCount, dueSoonCount, upcomingCount) := acc in
  let f := childFlags today child in
  (bump (isDefaulterFlag f) defaulterCount,
   bump (isDueSoonFlag f) dueSoonCount,
   bump (isUpcomingFlag f) upcomingCount).

Definition updateStats (children : list Child) (today : Z) : Stats :=
  let '(defaulterCount, dueSoonCount, upcomingCount) :=
    fold_left (statsChild today) children (O, O, O) in
  mkStats (List.length children) defaulterCount dueSoonCount upcomingCount.

(** *** The three summary tables *)

(** Filter of [updateDefaultersTable]. *)
Definition isMissed (today : Z) (v : Vaccination) : bool :=
  if booked v then date_lt (Date_parse (nextVisit v)) (Some today) else false.

(** Filter of [updateDueSoonTable]. *)
Definition isDueSoon (today : Z) (v : Vaccination) : bool :=
  if booked v then
    let daysUntil := ceilDays (Date_parse (nextVisit v)) (Some today) in
    num_gt daysUntil 0 && num_le daysUntil 7
  else false.

(** Filter of [updateUpcomingTable]. *)
Definition isUpcoming (today : Z) (v : Vaccination) : bool :=
  if booked v then
    let daysUntil := ceilDays (Date_parse (nextVisit v)) (Some today) in
    num_gt daysUntil 7 && num_le daysUntil 30
  else false.

(** The callback of the three [reduce] calls:
    [prevDate < currentDate ? prev : current]. *)
Definition earlier (prev current : Vaccination) : Vaccination :=
  if date_lt (Date_parse (nextVisit prev)) (Date_parse (nextVisit current))
  then prev else current.

(** [arr.reduce(f)] without an initial value, on a non-empty array. *)
Definition reduce1 {A} (f : A -> A -> A) (first : A) (rest : list A) : A :=
  fold_left f rest first.

(** The featured dose of a list of qualifying doses; [None] for the empty
    list, on which the tables do not call [reduce]. *)
Definition featured (qualifying : list Vaccination) : option Vaccination :=
  match qualifying with
  | [] => None
  | first :: rest => Some (reduce1 earlier first rest)
  end.

(** An entry of [defaultersList], [dueSoonList] or [upcomingList]; [days]
    is [daysOverdue] or [daysUntil]. *)
Record Entry := mkEntry {
  child : Child;
  vaccination : Vaccination;
  days : JSNum
}.

(** Body of the [children.forEach] shared by the three tables; the
    accumulator holds [countedChildren] and the list built so far. *)
Definition tableVisit (qualifies : Vaccination -> bool)
    (daysOf : Vaccination -> JSNum)
    (acc : list string * list Entry) (c : Child) : list string * list Entry :=
  let '(countedChildren, entries) := acc in
  if includes countedChildren (regNo (row c)) then acc
  else
    match filter qualifies (vaccinations c) with
    | [] => acc
    | first :: rest =>
        let pick := reduce1 earlier first rest in
        (regNo (row c) :: countedChildren,
         (entries ++ [mkEntry c pick (daysOf pick)])%list)
    end.

Definition buildTable (qualifies : Vaccination -> bool)
    (daysOf : Vaccination -> JSNum) (children : list Child) : list Entry :=
  snd (fold_left (tableVisit qualifies daysOf) children ([], [])).

Definition daysOverdueOf (today : Z) (v : Vaccination) : JSNum :=
  floorDays (Some today) (Date_parse (nextVisit v)).

Definition daysUntilOf (today : Z) (v : Vaccination) : JSNum :=
  ceilDays (Date_parse (nextVisit v)) (Some today).

(** [defaultersList] of [updateDefaultersTable]. *)
Definition updateDefaultersTable (children : list Child) (today : Z) : list Entry :=
  buildTable (isMissed today) (daysOverdueOf today) children.

(** [dueSoonList] of [updateDueSoonTable]. *)
Definition updateDueSoonTable (children : list Child) (today : Z) : list Entry :=
  buildTable (isDueSoon today) (daysUntilOf today) children.

(** [upcomingList] of [updateUpcomingTable]. *)
Definition updateUpcomingTable (children : list Child) (today : Z) : list Entry :=
  buildTable (isUpcoming today) (daysUntilOf today) children.

(** [updateDefaulterStatus(child)]. *)
Definition updateDefaulterStatus (c : Child) (today : Z) : Child :=
  setDefaulter c
    (existsb (fun vaccination =>
                if negb (truthy (nextVisit vaccination)) then false
                else date_lt (Date_parse (nextVisit vaccination)) (Some today))
             (vaccinations c)).

(* ================================================================== *)
(** ** Record store *)
(* ================================================================== *)

(** A Dexie table: its rows in key order and the key generator of the
    auto-incremented primary key. *)
Record Table (A : Type) := mkTable {
  rows : list A;
  keygen : Z
}.
Arguments mkTable {A} _ _.
Arguments rows {A} _.
Arguments keygen {A} _.

Record Db := mkDb {
  t_children : Table ChildRow;
  t_vaccinations : Table Vaccination;
  t_facility : Table Facility
}.

(** The state the handlers act on: the database, the global array
    [children], and the storage faults still to come.  The n-th element of
    [faults] tells whether the n-th storage request from now on is rejected;
    past its end every request is served. *)
Record App := mkApp {
  db : Db;
  children : list Child;
  faults : list bool
}.

(** Settlement of a promise. *)
Inductive Result (A : Type) :=
| Fulfilled (a : A)
| Rejected.
Arguments Fulfilled {A} _.
Arguments Rejected {A}.

(** Asynchronous code run to completion on the application state. *)
Definition Async (A : Type) := App -> Result A * App.

Definition ret {A} (a : A) : Async A := fun app => (Fulfilled a, app).

(** [await m] followed by [k]: a rejection skips [k] (control goes to the
    enclosing [catch]). *)
Definition bind {A B} (m : Async A) (k : A -> Async B) : Async B :=
  fun app =>
    match m app with
    | (Fulfilled a, app') => k a app'
    | (Rejected, app') => (Rejected, app')
    end.

Declare Scope async_scope.
Delimit Scope async_scope with async.
Notation "x <- m ;; k" := (bind m (fun x => k))
  (at level 61, m at next level, right associativity) : async_scope.
Notation "m ;;; k" := (bind m (fun _ => k))
  (at level 61, right associativity) : async_scope.

(** One storage request outside a transaction scope: it is its own
    transaction, so a rejected request leaves the database as it was and a
    served one is durable at once.  [op] returns [None] when the request
    itself fails (a key constraint). *)
Definition request {A} (op : Db -> option (A * Db)) : Async A :=
  fun app =>
    let served rest :=
      match op (db app) with
      | Some (a, d) => (Fulfilled a, mkApp d (children app) rest)
      | None => (Rejected, mkApp (db app) (children app) rest)
      end in
    match faults app with
    | true :: rest => (Rejected, mkApp (db app) (children app) rest)
    | false :: rest => served rest
    | [] => served []
    end.

(** [Promise.all] of requests that were all issued already: each one is
    carried out whatever happens to the others; the result is rejected when
    one of them is. *)
Fixpoint promiseAll {A} (ps : list (Async A)) : Async (list A) :=
  fun app =>
    match ps with
    | [] => (Fulfilled [], app)
    | p :: rest =>
        let '(r, app1) := p app in
        let '(rs, app2) := promiseAll rest app1 in
        (match r, rs with
         | Fulfilled a, Fulfilled l => Fulfilled (a :: l)
         | _, _ => Rejected
         end, app2)
    end.

(** [db.transaction('rw', ..., body)]: the writes of [body] are committed
    together when it completes and all undone when it is rejected. *)
Definition transaction {A} (body : Async A) : Async A :=
  fun app =>
    match body app with
    | (Fulfilled a, app') => (Fulfilled a, app')
    | (Rejected, app') => (Rejected, mkApp (db app) (children app') (faults app'))
    end.

(** Assignment to the global [children]. *)
Definition setChildren (cs : list Child) : Async unit :=
  fun app => (Fulfilled tt, mkApp (db app) cs (faults app)).

(** *** Table operations *)

Definition setVaccinationId (v : Vaccination) (k : Z) : Vaccination :=
  {| v_id := k; childId := childId v; vaccine := vaccine v;
     dateGiven := dateGiven v; batchNumber := batchNumber v;
     placeGiven := placeGiven v; remarks := remarks v;
     nextVisit := nextVisit v; status := status v |}.

Definition setChildRowId (r : ChildRow) (k : Z) : ChildRow :=
  {| c_id := k; regNo := regNo r; name := name r; dob := dob r;
     sex := sex r; address := address r; contact := contact r;
     isDefaulter := isDefaulter r; createdAt := createdAt r |}.

(** [db.vaccinations.where('childId').equals(cid).delete()] *)
Definition vaccinationsDeleteOf (cid : Z) (d : Db) : option (unit * Db) :=
  let t := t_vaccinations d in
  Some (tt, mkDb (t_children d)
                 (mkTable (filter (fun v => negb (childId v =? cid)) (rows t))
                          (keygen t))
                 (t_facility d)).

(** [db.vaccinations.add(v)] of a record without [id]. *)
Definition vaccinationsAdd (v : Vaccination) (d : Db) : option (Z * Db) :=
  let t := t_vaccinations d in
  let k := keygen t + 1 in
  Some (k, mkDb (t_children d)
                (mkTable (rows t ++ [setVaccinationId v k])%list k)
                (t_facility d)).

(** [db.vaccinations.where('childId').equals(cid).toArray()] *)
Definition vaccinationsOf (cid : Z) (d : Db) : option (list Vaccination * Db) :=
  Some (filter (fun v => childId v =? cid) (rows (t_vaccinations d)), d).

(** [db.children.update(cid, { isDefaulter: b })] *)
Definition childrenUpdateDefaulter (cid : Z) (b : bool) (d : Db)
    : option (unit * Db) :=
  let t := t_children d in
  Some (tt, mkDb (mkTable (map (fun r => if c_id r =? cid
                                         then setRowDefaulter r b else r)
                               (rows t))
                          (keygen t))
                 (t_vaccinations d) (t_facility d)).

(** [db.children.add(r)] of a record without [id]. *)
Definition childrenAdd (r : ChildRow) (d : Db) : option (Z * Db) :=
  let t := t_children d in
  let k := keygen t + 1 in
  Some (k, mkDb (mkTable (rows t ++ [setChildRowId r k])%list k)
                (t_vaccinations d) (t_facility d)).

Definition childrenClear (d : Db) : option (unit * Db) :=
  Some (tt, mkDb (mkTable [] (keygen (t_children d)))
                 (t_vaccinations d) (t_facility d)).

Definition vaccinationsClear (d : Db) : option (unit * Db) :=
  Some (tt, mkDb (t_children d)
                 (mkTable [] (keygen (t_vaccinations d)))
                 (t_facility d)).

Definition facilityClear (d : Db) : option (unit * Db) :=
  Some (tt, mkDb (t_children d) (t_vaccinations d)
                 (mkTable [] (keygen (t_facility d)))).

(** Some key occurs twice. *)
Fixpoint hasDuplicate (ks : list Z) : bool :=
  match ks with
  | [] => false
  | k :: r => existsb (Z.eqb k) r || hasDuplicate r
  end.

(** [bulkAdd] of records that carry their keys: a key already in the table
    or given twice is a constraint error; the key generator moves past the
    largest key. *)
Definition bulkAddTo {A} (key : A -> Z) (t : Table A) (rs : list A)
    : option (Table A) :=
  let all := (rows t ++ rs)%list in
  if hasDuplicate (map key all) then None
  else Some (mkTable all (fold_left Z.max (map key rs) (keygen t))).

Definition childrenBulkAdd (rs : list ChildRow) (d : Db) : option (unit * Db) :=
  match bulkAddTo c_id (t_children d) rs with
  | Some t => Some (tt, mkDb t (t_vaccinations d) (t_facility d))
  | None => None
  end.

Definition vaccinationsBulkAdd (rs : list Vaccination) (d : Db)
    : option (unit * Db) :=
  match bulkAddTo v_id (t_vaccinations d) rs with
  | Some t => Some (tt, mkDb (t_children d) t (t_facility d))
  | None => None
  end.

Definition facilityBulkAdd (rs : list Facility) (d : Db) : option (unit * Db) :=
  match bulkAddTo f_id (t_facility d) rs with
  | Some t => Some (tt, mkDb (t_children d) (t_vaccinations d) t)
  | None => None
  end.

(** How an event handler ended. *)
Inductive Outcome :=
| Done         (* the success notification was shown *)
| Refused      (* a validation message was shown and the handler returned *)
| Cancelled    (* the user declined the confirmation *)
| Caught       (* the [catch] block ran *)
| Threw.       (* an exception left the handler *)

(** [try { body } catch { ... }] *)
Definition tryCatch (body : Async unit) (app : App) : Outcome * App :=
  match body app with
  | (Fulfilled _, app') => (Done, app')
  | (Rejected, app') => (Caught, app')
  end.

(* ================================================================== *)
(** ** Saving a child's immunizations *)
(* ================================================================== *)

(** The inputs of one row of [#immunizationTable]. *)
Record FormRow := mkFormRow {
  row_vaccine : string;
  row_dateGiven : string;
  row_batchNumber : string;
  row_placeGiven : string;
  row_remarks : string
}.

(** A row passes validation unless it has a date given and lacks one of the
    mandatory fields. *)
Definition rowValid (r : FormRow) : bool :=
  negb (truthy (row_dateGiven r)
        && (negb (truthy (row_batchNumber r))
            || negb (truthy (row_placeGiven r))
            || negb (truthy (row_remarks r)))).

(** The rows for which a record is added. *)
Definition rowFilled (r : FormRow) : bool :=
  truthy (row_dateGiven r) || truthy (row_batchNumber r)
  || truthy (row_placeGiven r) || truthy (row_remarks r).

Definition recordOfRow (cid : Z) (r : FormRow) : Vaccination :=
  {| v_id := 0; childId := cid; vaccine := row_vaccine r;
     dateGiven := row_dateGiven r; batchNumber := row_batchNumber r;
     placeGiven := row_placeGiven r; remarks := row_remarks r;
     nextVisit := "";
     status := if truthy (row_dateGiven r) then completed else pending |}.

Definition recordOfBooking (cid : Z) (nextVisitDate vaccine : string)
    : Vaccination :=
  {| v_id := 0; childId := cid; vaccine := vaccine;
     dateGiven := ""; batchNumber := ""; placeGiven := ""; remarks := "";
     nextVisit := nextVisitDate; status := scheduled |}.

(** The records behind [vaccinationPromises], in the order they are
    pushed. *)
Definition recordsToAdd (cid : Z) (formRows : list FormRow)
    (bookNextVisit : bool) (nextVisitDate : string)
    (nextVisitVaccines : list string) : list Vaccination :=
  (map (recordOfRow cid) (filter rowFilled formRows)
   ++ (if bookNextVisit && truthy nextVisitDate
          && (0 <? List.length nextVisitVaccines)%nat
       then map (recordOfBooking cid nextVisitDate) nextVisitVaccines
       else []))%list.

(** [arr[i] = x] for an index inside the array. *)
Fixpoint setNth {A} (i : nat) (x : A) (l : list A) : list A :=
  match l, i with
  | [], _ => []
  | _ :: r, O => x :: r
  | y :: r, S j => y :: setNth j x r
  end.

(** [saveImmunization(bookNextVisit, nextVisitDate, nextVisitVaccines)] with
    the selected index, the rows of the form and the clock reading of
    [updateDefaulterStatus] as arguments.  A [null] date is the empty
    string. *)
Definition saveImmunization (selectedChildIndex : nat)
    (formRows : list FormRow) (bookNextVisit : bool) (nextVisitDate : string)
    (nextVisitVaccines : list string) (today : Z) (app : App)
    : Outcome * App :=
  match nth_error (children app) selectedChildIndex with
  | None => (Threw, app)
  | Some child =>
      if negb (forallb rowValid formRows) then (Refused, app)
      else
        let cid := c_id (row child) in
        tryCatch
          (request (vaccinationsDeleteOf cid) ;;;
           promiseAll
             (map (fun v => request (vaccinationsAdd v))
                  (recordsToAdd cid formRows bookNextVisit nextVisitDate
                                nextVisitVaccines)) ;;;
           vs <- request (vaccinationsOf cid) ;;
           let child' := updateDefaulterStatus (setVaccinations child vs) today in
           (fun app' =>
              setChildren (setNth selectedChildIndex child' (children app')) app') ;;;
           request (childrenUpdateDefaulter cid (isDefaulter (row child'))))%async
          app
  end.

(** The dose records of a child in the database. *)
Definition dosesOf (cid : Z) (d : Db) : list Vaccination :=
  filter (fun v => childId v =? cid) (rows (t_vaccinations d)).

(* ================================================================== *)
(** ** Registering a child *)
(* ================================================================== *)

Record RegistrationForm := mkRegistrationForm {
  in_childName : string;
  in_dob : string;
  in_sex : string;
  in_address : string;
  in_contact : string
}.

(** The five readings of the clock in the submit handler, in program
    order. *)
Record Readings := mkReadings {
  at_today : Z;        (* [const today = new Date()] *)
  at_regNo1 : Z;       (* inside the first [generateRegNo()] *)
  at_createdAt1 : Z;   (* [createdAt] of the stored record *)
  at_regNo2 : Z;       (* inside the second [generateRegNo()] *)
  at_createdAt2 : Z    (* [createdAt] of the in-memory child *)
}.

(** Submit handler of [#registrationForm]. *)
Definition registerChild (form : RegistrationForm) (clock : Readings)
    (app : App) : Outcome * App :=
  let childName := trim (in_childName form) in
  if existsb (fun c => (toLowerCase (name (row c)) =? toLowerCase childName)%string)
             (children app)
  then (Refused, app)
  else if date_gt (Date_parse (in_dob form)) (Some (at_today clock))
  then (Refused, app)
  else
    match generateRegNo (children app) (at_regNo1 clock),
          generateRegNo (children app) (at_regNo2 clock) with
    | Some regNo1, Some regNo2 =>
        tryCatch
          (childId <- request (childrenAdd
             (mkChildRow 0 regNo1 childName (in_dob form) (in_sex form)
                         (in_address form) (in_contact form) false
                         (Some (at_createdAt1 clock)))) ;;
           let newChild :=
             mkChild (mkChildRow childId regNo2 childName (in_dob form)
                                 (in_sex form) (in_address form)
                                 (in_contact form) false
                                 (Some (at_createdAt2 clock))) [] in
           (fun app' => setChildren (newChild :: children app') app'))%async
          app
    | _, _ => (Threw, app)
    end.

(* ================================================================== *)
(** ** Restore *)
(* ================================================================== *)

(** The parsed backup document; a collection is [None] when its key is
    absent (or holds a falsy value). *)
Record Backup := mkBackup {
  b_children : option (list ChildRow);
  b_vaccinations : option (list Vaccination);
  b_facility : option (list Facility);
  backupDate : option string
}.

Definition whenSome {A} (o : option (list A))
    (op : list A -> Db -> option (unit * Db)) : Async unit :=
  match o with
  | Some l => request (op l)
  | None => ret tt
  end.

(** The transaction of the restore handler. *)
Definition restoreTransaction (data : Backup) : Async unit :=
  transaction
    (request childrenClear ;;;
     request vaccinationsClear ;;;
     request facilityClear ;;;
     whenSome (b_children data) childrenBulkAdd ;;;
     whenSome (b_vaccinations data) vaccinationsBulkAdd ;;;
     whenSome (b_facility data) facilityBulkAdd)%async.

(** [reader.onload] of the restore handler, from the parsed document to the
    end of the transaction; [confirmed] is the user's answer.  The format
    error is thrown inside the [try], so it ends in the [catch] block.  The
    [initApp()] that follows a committed transaction only reads the
    tables. *)
Definition restore (data : Backup) (confirmed : bool) (app : App)
    : Outcome * App :=
  match b_children data, b_vaccinations data with
  | Some _, Some _ =>
      if negb confirmed then (Cancelled, app)
      else tryCatch (restoreTransaction data) app
  | _, _ => (Caught, app)
  end.

(* ================================================================== *)
(** ** Password recovery ([App.js]) *)
(* ================================================================== *)

Module Recovery.

Record SecurityQuestion := mkSecurityQuestion {
  question : string;
  answer : string
}.

(** A facility of the multi-facility schema; [securityQuestions] is
    [None] when the property is absent. *)
Record Facility := mkFacility {
  id : Z;
  code : string;
  name : string;
  password : string;
  region : string;
  district : string;
  securityQuestions : option (list SecurityQuestion)
}.

(** The globals of the recovery flow. *)
Record State := mkState {
  recoveryFacility : Facility;
  recoveryStep : nat
}.

(** [borderColor] given to an answer field. *)
Inductive Colour := red | green.

(** The comparison made for the question at [index]; [value index] is
    the content of the field [securityAnswerRecovery<index>]. *)
Definition answerMatches (value : nat -> string) (index : nat)
    (q : SecurityQuestion) : bool :=
  let userAnswer := toLowerCase (trim (value index)) in
  let correctAnswer := toLowerCase (answer q) in
  (userAnswer =? correctAnswer)%string.

(** Body of the [forEach]; the accumulator holds the next index,
    [allCorrect] and the colours set so far. *)
Definition visit (value : nat -> string)
    (acc : nat * bool * list Colour) (q : SecurityQuestion)
    : nat * bool * list Colour :=
  let '(index, allCorrect, colours) := acc in
  if negb (answerMatches value index q)
  then (S index, false, (colours ++ [red])%list)
  else (S index, allCorrect, (colours ++ [green])%list).

(** [verifySecurityAnswers()]: the new state and the colours of the
    fields. *)
Definition verifySecurityAnswers (value : nat -> string) (st : State)
    : State * list Colour :=
  match securityQuestions (recoveryFacility st) with
  | None => (st, [])
  | Some qs =>
      let '(_, allCorrect, colours) := fold_left (visit value) qs (O, true, []) in
      if allCorrect
      then (mkState (recoveryFacility st) 3, colours)
      else (st, colours)
  end.

End Recovery.

(* ================================================================== *)
(** ** Notions used in the statements *)
(* ================================================================== *)

(** Decidable duplicate-freeness of a list of strings. *)
Fixpoint distinctStrings (l : list string) : bool :=
  match l with
  | [] => true
  | x :: r => negb (includes r x) && distinctStrings r
  end.

(** The three buckets of the summary views. *)
Inductive Bucket := Overdue | DueSoon | Upcoming.

(** The filter a table applies to the doses of a child. *)
Definition qualifies (b : Bucket) (today : Z) : Vaccination -> bool :=
  match b with
  | Overdue => isMissed today
  | DueSoon => isDueSoon today
  | Upcoming => isUpcoming today
  end.

(** The list behind the table of a bucket. *)
Definition tableOf (b : Bucket) (children : list Child) (today : Z) : list Entry :=
  match b with
  | Overdue => updateDefaultersTable children today
  | DueSoon => updateDueSoonTable children today
  | Upcoming => updateUpcomingTable children today
  end.

(** Time value of the next visit of a dose whose date is valid. *)
Definition visitTime (v : Vaccination) : Z :=
  match Date_parse (nextVisit v) with
  | Some t => t
  | None => 0
  end.

(** Registration number shown in a table row. *)
Definition entryRegNo (e : Entry) : string := regNo (row (child e)).

(** Sample data of the examples: noon UTC of 10 May 2024, a child row and
    a booked dose. *)
Definition noon_2024_05_10 : Z := 1715342400000.

Definition sampleRow : ChildRow :=
  mkChildRow 1 "001/2024" "Ama Mensah" "2024-01-15" "Female" "Accra" ""
             false (Some 1705312800000).

Definition bookedDose (k : Z) (vaccine nextVisit : string) : Vaccination :=
  mkVaccination k 1 vaccine "" "" "" "" nextVisit scheduled.

(** [tableVisit] maintains: [counted] holds the registration numbers of
    the entries, no number is listed twice, every entry features the
    reduced dose of a visited child, and every visited child with a
    qualifying dose has its number listed. *)
Definition tableInv (q : Vaccination -> bool) (daysOf : Vaccination -> JSNum)
    (seen : list Child) (acc : list string * list Entry) : Prop :=
  (forall r, In r (fst acc) <-> In r (map entryRegNo (snd acc)))
  /\ NoDup (map entryRegNo (snd acc))
  /\ (forall e, In e (snd acc) ->
        In (child e) seen
        /\ featured (filter q (vaccinations (child e))) = Some (vaccination e)
        /\ days e = daysOf (vaccination e))
  /\ (forall c, In c seen -> existsb q (vaccinations c) = true ->
        In (regNo (row c)) (map entryRegNo (snd acc))).

(** The shape of the records the save path writes: a given dose is
    completed without a next visit; a dose with a next visit is not given
    and scheduled; a record with neither date is pending and carries a
    batch number, a place or a remark. *)
Definition savedShape (v : Vaccination) : Prop :=
  (dateGiven v <> "" -> status v = completed /\ nextVisit v = "")
  /\ (nextVisit v <> "" -> dateGiven v = "" /\ status v = scheduled)
  /\ (dateGiven v = "" -> nextVisit v = "" ->
      status v = pending
      /\ (batchNumber v <> "" \/ placeGiven v <> "" \/ remarks v <> "")).

(** The invariant as the specification words it. *)
Definition specifiedShape (v : Vaccination) : Prop :=
  (dateGiven v <> "" -> status v = completed /\ nextVisit v = "")
  /\ (nextVisit v <> "" /\ dateGiven v = "" -> status v = scheduled)
  /\ ~ (dateGiven v = "" /\ nextVisit v = "").

(** The keys given to records added one after the other. *)
Fixpoint withKeys (k : Z) (vs : list Vaccination) : list Vaccination :=
  match vs with
  | [] => []
  | v :: r => setVaccinationId v (k + 1) :: withKeys (k + 1) r
  end.

(** A database property kept by an asynchronous computation, however its
    requests are settled. *)
Definition preserves {A} (P : Db -> Prop) (m : Async A) : Prop :=
  forall app, P (db app) -> P (db (snd (m app))).


(** A store with one child and one recorded dose. *)
Definition sampleDose : Vaccination :=
  mkVaccination 1 1 "BCG at Birth" "2024-01-16" "B12" "Clinic" "ok" "" completed.

Definition sampleApp (faults : list bool) : App :=
  mkApp (mkDb (mkTable [sampleRow] 1) (mkTable [sampleDose] 1) (mkTable [] 0))
        [mkChild sampleRow [sampleDose]]
        faults.

(** Registration number held by an element of [children]. *)
Definition childRegNo (c : Child) : string := regNo (row c).

(** Reads back the count of a zero-padded decimal string. *)
Definition countOfString (s : string) : nat :=
  match NilEmpty.uint_of_string s with
  | Some d => Nat.of_uint d
  | None => O
  end.

(** Three decimal digits. *)
Definition threeDigits (s : string) : bool :=
  match s with
  | String a (String b (String c EmptyString)) =>
      isDigit a && isDigit b && isDigit c
  | _ => false
  end.

(** Four decimal digits. *)
Definition fourDigits (s : string) : bool :=
  match s with
  | String a (String b (String c (String d EmptyString))) =>
      isDigit a && isDigit b && isDigit c && isDigit d
  | _ => false
  end.

(** A register of [n] children created on 15 January 2024 and numbered
    [001/2024], [002/2024], ... *)
Definition registerOf (n : nat) : list Child :=
  map (fun i => mkChild (mkChildRow (Z.of_nat i) (formatRegNo i 2024)
                           ("Child " ++ String_of_nat i) "2024-01-01" "Male"
                           "Accra" "" false (Some 1705312800000))
                        [])
      (seq 1 n).

(* ================================================================== *)
(** ** Unsaved edits and the booking dialog *)
(* ================================================================== *)

(** A JavaScript object used as a map from strings: its properties in
    insertion order. *)
Definition Obj (A : Type) := list (string * A).

(** [o[k]]; [None] is [undefined]. *)
Fixpoint getProp {A} (k : string) (o : Obj A) : option A :=
  match o with
  | [] => None
  | (k', a) :: r => if (k' =? k)%string then Some a else getProp k r
  end.

(** [o[k] = a] *)
Fixpoint setProp {A} (k : string) (a : A) (o : Obj A) : Obj A :=
  match o with
  | [] => [(k, a)]
  | (k', a') :: r =>
      if (k' =? k)%string then (k, a) :: r else (k', a') :: setProp k a r
  end.

(** [delete o[k]] *)
Definition deleteProp {A} (k : string) (o : Obj A) : Obj A :=
  filter (fun kv => negb (fst kv =? k)%string) o.

(** The global [unsavedVaccinations]. *)
Definition Buffer := Obj (Obj string).

(** [`${child.regNo}-${child.name}`] *)
Definition childKeyOf (c : Child) : string :=
  regNo (row c) ++ "-" ++ name (row c).

(** [unsavedVaccinations[childKey] || {}] *)
Definition unsavedOf (childKey : string) (buf : Buffer) : Obj string :=
  match getProp childKey buf with
  | Some o => o
  | None => []
  end.

(** [trackUnsavedDate(input, childKey, vaccine)] with the value of the
    input. *)
Definition trackUnsavedDate (value childKey vaccine : string) (buf : Buffer)
    : Buffer :=
  let buf1 := match getProp childKey buf with
              | Some _ => buf
              | None => setProp childKey [] buf
              end in
  setProp childKey (setProp vaccine value (unsavedOf childKey buf1)) buf1.

(** The vaccines [openBookingModal] offers to the selected child. *)
Definition openBookingModal (c : Child) (buf : Buffer) : list string :=
  availableVaccines c (unsavedOf (childKeyOf c) buf).

(** [saveBooking()] with the date and the checked vaccines of the booking
    form. *)
Definition saveBooking (selectedChildIndex : nat) (formRows : list FormRow)
    (nextVisitDate : string) (checked : list string) (today : Z) (app : App)
    : Outcome * App :=
  if negb (truthy nextVisitDate) then (Refused, app)
  else if (List.length checked =? 0)%nat then (Refused, app)
  else saveImmunization selectedChildIndex formRows true nextVisitDate checked
                        today app.

(* ================================================================== *)
(** ** Deleting, clearing, editing, searching, backing up *)
(* ================================================================== *)

(** [db.children.delete(cid)] *)
Definition childrenDeleteKey (cid : Z) (d : Db) : option (unit * Db) :=
  let t := t_children d in
  Some (tt, mkDb (mkTable (filter (fun r => negb (c_id r =? cid)) (rows t))
                          (keygen t))
                 (t_vaccinations d) (t_facility d)).

(** [arr.splice(i, 1)] *)
Fixpoint removeNth {A} (i : nat) (l : list A) : list A :=
  match l, i with
  | [], _ => []
  | _ :: r, O => r
  | x :: r, S j => x :: removeNth j r
  end.

(** [updateViewRecordsModal()]: the script defines no function of this
    name, so the call throws a [ReferenceError]. *)
Definition updateViewRecordsModal : Async unit :=
  fun app => (Rejected, app).

(** [deleteChild(index)]; [confirmed] is the user's answer.  With no child
    at [index] the callback of the transaction throws before any request.
    After the splice the handler calls [updateViewRecordsModal]. *)
Definition deleteChild (index : nat) (confirmed : bool) (app : App)
    : Outcome * App :=
  if negb confirmed then (Cancelled, app)
  else
    match nth_error (children app) index with
    | None => (Caught, app)
    | Some c =>
        tryCatch
          (transaction
             (request (vaccinationsDeleteOf (c_id (row c))) ;;;
              request (childrenDeleteKey (c_id (row c)))) ;;;
           (fun app' => setChildren (removeNth index (children app')) app') ;;;
           updateViewRecordsModal)%async
          app
    end.

(** [clearAllData()]: tables and the array [children]. *)
Definition clearAllData (confirmed : bool) (app : App) : Outcome * App :=
  if negb confirmed then (Cancelled, app)
  else
    tryCatch
      (transaction
         (request childrenClear ;;;
          request vaccinationsClear ;;;
          request facilityClear) ;;;
       setChildren [])%async
      app.

(** The document [backupData()] serializes; [iso] is
    [new Date().toISOString()]. *)
Definition backupDocument (iso : string) : Async Backup :=
  (cs <- request (fun d => Some (rows (t_children d), d)) ;;
   vs <- request (fun d => Some (rows (t_vaccinations d), d)) ;;
   fs <- request (fun d => Some (rows (t_facility d), d)) ;;
   ret (mkBackup (Some cs) (Some vs) (Some fs) (Some iso)))%async.

(** [backupData()]: the downloaded document, or [None] when the [catch]
    block ran. *)
Definition backupData (iso : string) (app : App) : option Backup * App :=
  match backupDocument iso app with
  | (Fulfilled doc, app') => (Some doc, app')
  | (Rejected, app') => (None, app')
  end.

(** The inputs of the edit form. *)
Record EditForm := mkEditForm {
  ed_name : string;
  ed_dob : string;
  ed_sex : string;
  ed_address : string;
  ed_contact : string
}.

Definition editRow (r : ChildRow) (f : EditForm) : ChildRow :=
  {| c_id := c_id r; regNo := regNo r; name := trim (ed_name f);
     dob := ed_dob f; sex := ed_sex f; address := trim (ed_address f);
     contact := trim (ed_contact f); isDefaulter := isDefaulter r;
     createdAt := createdAt r |}.

(** [db.children.update(cid, { name, dob, sex, address, contact })] *)
Definition childrenUpdateDetails (cid : Z) (edited : ChildRow) (d : Db)
    : option (unit * Db) :=
  let t := t_children d in
  Some (tt, mkDb (mkTable
                    (map (fun r =>
                            if c_id r =? cid then
                              {| c_id := c_id r; regNo := regNo r;
                                 name := name edited; dob := dob edited;
                                 sex := sex edited; address := address edited;
                                 contact := contact edited;
                                 isDefaulter := isDefaulter r;
                                 createdAt := createdAt r |}
                            else r)
                         (rows t))
                    (keygen t))
                 (t_vaccinations d) (t_facility d)).

(** [saveEditedChild()]: the element of the array is edited first, then the
    row is updated, then the handler calls [updateViewRecordsModal]. *)
Definition saveEditedChild (editChildIndex : nat) (f : EditForm) (app : App)
    : Outcome * App :=
  match nth_error (children app) editChildIndex with
  | None => (Threw, app)
  | Some c =>
      let c' := mkChild (editRow (row c) f) (vaccinations c) in
      tryCatch
        (request (childrenUpdateDetails (c_id (row c')) (row c')) ;;;
         updateViewRecordsModal)%async
        (mkApp (db app) (setNth editChildIndex c' (children app)) (faults app))
  end.

(** [s.includes(sub)] on strings. *)
Fixpoint strIncludes (s sub : string) : bool :=
  prefix sub s
  || match s with
     | EmptyString => false
     | String _ r => strIncludes r sub
     end.

(** The children [filterChildren()] shows for the content of the search
    box. *)
Definition filterChildren (search : string) (cs : list Child) : list Child :=
  let searchTerm := toLowerCase search in
  filter (fun c => strIncludes (toLowerCase (name (row c))) searchTerm
                   || strIncludes (regNo (row c)) searchTerm)
         cs.

(* ================================================================== *)
(** ** Status texts *)
(* ================================================================== *)

(** [`${n}`] for a number obtained from dates. *)
Definition String_of_num (n : JSNum) : string :=
  match n with
  | Some z => String_of_Z z
  | None => "NaN"
  end.

(** The [status] column [exportToCSV] computes for a vaccination. *)
Definition exportStatus (today : Z) (v : Vaccination) : string :=
  if truthy (dateGiven v) then "Completed"
  else if truthy (nextVisit v) then
    let nextVisitDate := Date_parse (nextVisit v) in
    if date_lt nextVisitDate (Some today) then
      "Overdue (" ++ String_of_num (floorDays (Some today) nextVisitDate) ++ " days)"
    else
      "Due in " ++ String_of_num (ceilDays nextVisitDate (Some today)) ++ " days"
  else "Upcoming".

(** [status] and [rowClass] of a vaccination in
    [viewSelectedChildrenRecords]. *)
Definition viewStatus (today : Z) (v : Vaccination) : string * string :=
  if truthy (dateGiven v) then ("Completed", "")
  else if truthy (nextVisit v) then
    let nextVisitDate := Date_parse (nextVisit v) in
    if date_lt nextVisitDate (Some today) then
      ("Overdue (" ++ String_of_num (floorDays (Some today) nextVisitDate) ++ " days)",
       "highlight-red")
    else
      let daysUntil := ceilDays nextVisitDate (Some today) in
      if num_le daysUntil 7 then
        ("Due in " ++ String_of_num daysUntil ++ " days", "highlight-yellow")
      else
        ("Due in " ++ String_of_num daysUntil ++ " days", "")
  else ("Upcoming", "").




(* ================================================================== *)
(** ** Facilities and passwords ([App.js]) *)
(* ================================================================== *)

Definition upperChar (c : ascii) : ascii :=
  let n := nat_of_ascii c in
  if (97 <=? n)%nat && (n <=? 122)%nat then ascii_of_nat (n - 32) else c.

(** [s.toUpperCase()] on ASCII text. *)
Fixpoint toUpperCase (s : string) : string :=
  match s with
  | EmptyString => EmptyString
  | String c r => String (upperChar c) (toUpperCase r)
  end.

(** [re.test(s)] for a character class. *)
Fixpoint hasChar (class : ascii -> bool) (s : string) : bool :=
  match s with
  | EmptyString => false
  | String c r => class c || hasChar class r
  end.

Definition isLower (c : ascii) : bool :=
  let n := nat_of_ascii c in (97 <=? n)%nat && (n <=? 122)%nat.

Definition isUpper (c : ascii) : bool :=
  let n := nat_of_ascii c in (65 <=? n)%nat && (n <=? 90)%nat.

(** [checkPasswordStrength(password)] *)
Definition checkPasswordStrength (password : string) : nat :=
  let s1 := if (8 <=? String.length password)%nat then 1%nat else 0%nat in
  let s2 := if hasChar isLower password && hasChar isUpper password
            then 1%nat else 0%nat in
  let s3 := if hasChar isDigit password then 1%nat else 0%nat in
  let s4 := if hasChar (fun c => negb (isLower c || isUpper c || isDigit c)) password
            then 1%nat else 0%nat in
  (s1 + s2 + s3 + s4)%nat.

(** The text [updatePasswordStrength()] shows for a password. *)
Definition strengthText (password : string) : string :=
  let strength := checkPasswordStrength password in
  if (strength =? 0)%nat then ""
  else if (strength <=? 2)%nat then "Weak"
  else if (strength =? 3)%nat then "Medium"
  else "Strong".

Module MultiFacility.

(** A row of the [facilities] table: the facility and its [createdAt]. *)
Record Stored := mkStored {
  facility : Recovery.Facility;
  createdAt : Z
}.

(** A row of the [sessions] table. *)
Record Session := mkSession {
  s_id : Z;
  facilityId : Z;
  loggedInAt : Z
}.

(** The two tables with the key generators of their primary keys. *)
Record Store := mkStore {
  facilities : list Stored;
  facilitiesKey : Z;
  sessions : list Session;
  sessionsKey : Z
}.

(** The database, the globals [currentFacility], [recoveryFacility] and
    [recoveryStep], and the storage faults still to come (as in [App]). *)
Record Client := mkClient {
  store : Store;
  currentFacility : option Stored;
  recoveryFacility : option Stored;
  recoveryStep : nat;
  faults : list bool
}.

(** Whether the next request is rejected, and the faults left. *)
Definition nextFault (fl : list bool) : bool * list bool :=
  match fl with
  | [] => (false, [])
  | b :: r => (b, r)
  end.

(** [db.facilities.where('code').equals(c).first()] *)
Definition firstWithCode (c : string) (st : Store) : option Stored :=
  find (fun s => (Recovery.code (facility s) =? c)%string) (facilities st).

(** [db.facilities.get(k)] *)
Definition getFacility (k : Z) (st : Store) : option Stored :=
  find (fun s => Recovery.id (facility s) =? k) (facilities st).

Definition withPassword (f : Recovery.Facility) (p : string) : Recovery.Facility :=
  Recovery.mkFacility (Recovery.id f) (Recovery.code f) (Recovery.name f) p
                      (Recovery.region f) (Recovery.district f)
                      (Recovery.securityQuestions f).

(** [db.facilities.update(k, { password: p })] *)
Definition updatePassword (k : Z) (p : string) (st : Store) : Store :=
  mkStore (map (fun s => if Recovery.id (facility s) =? k
                         then mkStored (withPassword (facility s) p) (createdAt s)
                         else s)
               (facilities st))
          (facilitiesKey st) (sessions st) (sessionsKey st).

(** [verifyFacilityForRecovery()] with the content of the code field. *)
Definition verifyFacilityForRecovery (input : string) (cl : Client)
    : Outcome * Client :=
  let facilityCode := toUpperCase (trim input) in
  if negb (truthy facilityCode) then (Refused, cl)
  else
    let '(rejected, rest) := nextFault (faults cl) in
    let cl1 := mkClient (store cl) (currentFacility cl) (recoveryFacility cl)
                        (recoveryStep cl) rest in
    if rejected then (Caught, cl1)
    else
      match firstWithCode facilityCode (store cl) with
      | None => (Refused, cl1)
      | Some s =>
          match Recovery.securityQuestions (facility s) with
          | None => (Refused, cl1)
          | Some [] => (Refused, cl1)
          | Some _ =>
              (Done, mkClient (store cl) (currentFacility cl) (Some s) 2 rest)
          end
      end.

(** [verifySecurityAnswers()] on the globals of the client; [None] when
    [recoveryFacility] is [null]. *)
Definition verifyAnswers (value : nat -> string) (cl : Client) : option Client :=
  match recoveryFacility cl with
  | None => None
  | Some s =>
      let st' := fst (Recovery.verifySecurityAnswers
                        value (Recovery.mkState (facility s) (recoveryStep cl))) in
      Some (mkClient (store cl) (currentFacility cl) (recoveryFacility cl)
                     (Recovery.recoveryStep st') (faults cl))
  end.

(** [resetPassword()] with the two password fields. *)
Definition resetPassword (newPassword confirmPassword : string) (cl : Client)
    : Outcome * Client :=
  if negb (truthy newPassword) || negb (truthy confirmPassword) then (Refused, cl)
  else if (String.length newPassword <? 4)%nat then (Refused, cl)
  else if negb (newPassword =? confirmPassword)%string then (Refused, cl)
  else
    match recoveryFacility cl with
    | None => (Caught, cl)
    | Some s =>
        let '(rejected, rest) := nextFault (faults cl) in
        if rejected then
          (Caught, mkClient (store cl) (currentFacility cl) (recoveryFacility cl)
                            (recoveryStep cl) rest)
        else
          (Done, mkClient (updatePassword (Recovery.id (facility s)) newPassword
                                          (store cl))
                          (currentFacility cl) (recoveryFacility cl)
                          (recoveryStep cl) rest)
    end.


(** The fields of the new-facility form. *)
Record FacilityForm := mkFacilityForm {
  in_name : string;
  in_code : string;
  in_password : string;
  in_confirmPassword : string;
  in_region : string;
  in_district : string;
  in_question1 : string;
  in_answer1 : string;
  in_question2 : string;
  in_answer2 : string
}.

(** The facility object the handler adds, before it gets its key. *)
Definition facilityOfForm (f : FacilityForm) (k : Z) : Recovery.Facility :=
  Recovery.mkFacility k (toUpperCase (trim (in_code f))) (trim (in_name f))
    (in_password f) (trim (in_region f)) (trim (in_district f))
    (Some [Recovery.mkSecurityQuestion (in_question1 f) (trim (in_answer1 f));
           Recovery.mkSecurityQuestion (in_question2 f) (trim (in_answer2 f))]).

(** Submit handler of [#newFacilityForm], up to the creation of the
    session; [createdNow] and [loggedNow] are the two readings of the
    clock. *)
Definition registerFacility (f : FacilityForm) (createdNow loggedNow : Z)
    (cl : Client) : Outcome * Client :=
  if negb (in_password f =? in_confirmPassword f)%string then (Refused, cl)
  else if (String.length (in_password f) <? 4)%nat then (Refused, cl)
  else if negb (truthy (in_question1 f)) || negb (truthy (trim (in_answer1 f)))
          || negb (truthy (in_question2 f)) || negb (truthy (trim (in_answer2 f)))
  then (Refused, cl)
  else
    let st := store cl in
    let keep s fl := mkClient s (currentFacility cl) (recoveryFacility cl)
                              (recoveryStep cl) fl in
    let '(rejected1, fl1) := nextFault (faults cl) in
    if rejected1 then (Caught, keep st fl1)
    else
      match firstWithCode (toUpperCase (trim (in_code f))) st with
      | Some _ => (Refused, keep st fl1)
      | None =>
          let '(rejected2, fl2) := nextFault fl1 in
          if rejected2 then (Caught, keep st fl2)
          else
            let k := facilitiesKey st + 1 in
            let st2 := mkStore (facilities st
                                ++ [mkStored (facilityOfForm f k) createdNow])%list
                               k (sessions st) (sessionsKey st) in
            let '(rejected3, fl3) := nextFault fl2 in
            if rejected3 then (Caught, keep st2 fl3)
            else
              match getFacility k st2 with
              | None =>
                  (Caught, mkClient st2 None (recoveryFacility cl)
                                    (recoveryStep cl) fl3)
              | Some cur =>
                  let '(rejected4, fl4) := nextFault fl3 in
                  if rejected4 then
                    (Caught, mkClient st2 (Some cur) (recoveryFacility cl)
                                      (recoveryStep cl) fl4)
                  else
                    let j := sessionsKey st2 + 1 in
                    (Done,
                     mkClient (mkStore (facilities st2) (facilitiesKey st2)
                                       (sessions st2
                                        ++ [mkSession j (Recovery.id (facility cur))
                                                      loggedNow])%list
                                       j)
                              (Some cur) (recoveryFacility cl)
                              (recoveryStep cl) fl4)
              end
      end.

(** [db.sessions.orderBy('loggedInAt').reverse().first()]: the session
    with the greatest [loggedInAt], the one with the greatest key among
    equals. *)
Definition latestSession (st : Store) : option Session :=
  fold_left (fun best s =>
               match best with
               | None => Some s
               | Some b => if loggedInAt b <=? loggedInAt s then Some s else Some b
               end)
            (sessions st) None.

(** [initApp()] of [App.js], up to the choice of the screen: [Done] is the
    main application, [Refused] the login screen. *)
Definition initApp (cl : Client) : Outcome * Client :=
  let '(rejected1, fl1) := nextFault (faults cl) in
  let keep cur fl := mkClient (store cl) cur (recoveryFacility cl)
                              (recoveryStep cl) fl in
  if rejected1 then (Caught, keep (currentFacility cl) fl1)
  else
    match latestSession (store cl) with
    | None => (Refused, keep (currentFacility cl) fl1)
    | Some session =>
        let '(rejected2, fl2) := nextFault fl1 in
        if rejected2 then (Caught, keep (currentFacility cl) fl2)
        else
          match getFacility (facilityId session) (store cl) with
          | Some cur => (Done, keep (Some cur) fl2)
          | None => (Refused, keep None fl2)
          end
    end.

End MultiFacility.

(* ================================================================== *)
(** ** Dates on screen *)
(* ================================================================== *)

(** Month (1 to 12) and day of the month of a day number, by the computation
    of [getFullYear]. *)
Definition monthAndDay (z0 : Z) : Z * Z :=
  let z := z0 + 719468 in
  let era := z / 146097 in
  let doe := z - era * 146097 in
  let yoe := (doe - doe / 1460 + doe / 36524 - doe / 146096) / 365 in
  let doy := doe - (365 * yoe + yoe / 4 - yoe / 100) in
  let mp := (5 * doy + 2) / 153 in
  let d := doy - (153 * mp + 2) / 5 + 1 in
  let m := if mp <? 10 then mp + 3 else mp - 9 in
  (m, d).

(** The year of a day number, by the computation of [getFullYear]. *)
Definition yearOfDay (z0 : Z) : Z :=
  let z := z0 + 719468 in
  let era := z / 146097 in
  let doe := z - era * 146097 in
  let yoe := (doe - doe / 1460 + doe / 36524 - doe / 146096) / 365 in
  let doy := doe - (365 * yoe + yoe / 4 - yoe / 100) in
  let mp := (5 * doy + 2) / 153 in
  let m := if mp <? 10 then mp + 3 else mp - 9 in
  yoe + era * 400 + (if m <=? 2 then 1 else 0).

(** [date.getMonth()] of a valid time value. *)
Definition getMonth (t : Z) : Z := fst (monthAndDay (t / msPerDay)) - 1.

(** [date.getDate()] of a valid time value. *)
Definition getDate (t : Z) : Z := snd (monthAndDay (t / msPerDay)).

(** [String(n).padStart(2, '0')] *)
Definition pad2 (n : Z) : string := padStart (String_of_Z n) 2 "0".

(** [new Date(t).toISOString().split('T')[0]] for a year of four digits. *)
Definition toISODate (t : Z) : string :=
  padStart (String_of_Z (getFullYear t)) 4 "0"
  ++ "-" ++ pad2 (getMonth t + 1) ++ "-" ++ pad2 (getDate t).

(** [formatDate(dateString)].  [newDate] is the constructor
    [new Date(string)] and [offset] what local time is ahead of UTC, in
    milliseconds, at the instant read: [getDate], [getMonth] and
    [getFullYear] are those of local time.  An Invalid Date prints NaN three
    times. *)
Definition formatDate (newDate : string -> JSDate) (offset : Z)
    (dateString : string) : string :=
  if negb (truthy dateString) then ""
  else
    match newDate dateString with
    | None => "NaN/NaN/NaN"
    | Some t =>
        let local := t + offset in
        pad2 (getDate local) ++ "/" ++ pad2 (getMonth local + 1) ++ "/"
        ++ String_of_Z (getFullYear local)
    end.

(** [DD/MM/YYYY] of a string [YYYY-MM-DD]. *)
Definition dayMonthYear (s : string) : string :=
  substring 8 2 s ++ "/" ++ substring 5 2 s ++ "/" ++ substring 0 4 s.

(** [s.split('T')[0]] *)
Fixpoint beforeT (s : string) : string :=
  match s with
  | EmptyString => EmptyString
  | String c r => if (c =? "T")%char then EmptyString else String c (beforeT r)
  end.

(** The doses [showTodayAppointments] lists for a child. *)
Definition todayVaccinations (now : Z) (c : Child) : list Vaccination :=
  let today := toISODate now in
  filter (fun v => truthy (nextVisit v) && (beforeT (nextVisit v) =? today)%string)
         (vaccinations c).

(** The [n] integers from [start] on. *)
Fixpoint zrange (start : Z) (n : nat) : list Z :=
  match n with
  | O => []
  | S n' => start :: zrange (start + 1) n'
  end.

(** Day numbers from 1 January 1970 to 31 December 2099. *)
Definition daysTo2100 : list Z := zrange 0 (Z.to_nat 47482).

(* ================================================================== *)
(** * Properties *)
(* ================================================================== *)

(** ** Auxiliary facts *)

Lemma truthy_true_iff (s : string) : truthy s = true <-> s <> "".
Proof.
  destruct s; simpl; split; intro H; try reflexivity; try discriminate.
  now elim H.
Qed.

Lemma truthy_false_iff (s : string) : truthy s = false <-> s = "".
Proof.
  destruct s; simpl; split; intro H; try reflexivity; discriminate.
Qed.

Lemma msPerDay_pos : 0 < msPerDay.
Proof. reflexivity. Qed.

(** [- ((b - a) / msPerDay)] is the ceiling of [(a - b) / msPerDay]. *)
Lemma ceil_bounds (a b : Z) :
  (- ((b - a) / msPerDay) - 1) * msPerDay < a - b <= - ((b - a) / msPerDay) * msPerDay.
Proof.
  pose proof (Z.div_mod (b - a) msPerDay) as E.
  pose proof (Z.mod_pos_bound (b - a) msPerDay msPerDay_pos) as B.
  assert (msPerDay <> 0) as NZ by discriminate.
  specialize (E NZ). nia.
Qed.

Lemma floor_bounds (a b : Z) :
  ((a - b) / msPerDay) * msPerDay <= a - b < ((a - b) / msPerDay + 1) * msPerDay.
Proof.
  pose proof (Z.div_mod (a - b) msPerDay) as E.
  pose proof (Z.mod_pos_bound (a - b) msPerDay msPerDay_pos) as B.
  assert (msPerDay <> 0) as NZ by discriminate.
  specialize (E NZ). nia.
Qed.

(** The ceiling is positive exactly for a strictly later instant. *)
Lemma ceil_pos_iff (a b : Z) : 0 < - ((b - a) / msPerDay) <-> b < a.
Proof.
  pose proof (ceil_bounds a b) as B. unfold msPerDay in *. lia.
Qed.

Lemma includes_In (l : list string) (x : string) :
  includes l x = true <-> In x l.
Proof.
  unfold includes. rewrite existsb_exists. split.
  - intros [y [Hin Heq]]. apply String.eqb_eq in Heq. now subst.
  - intro Hin. exists x. split; [assumption | apply String.eqb_refl].
Qed.

Lemma distinctStrings_NoDup (l : list string) :
  distinctStrings l = true -> NoDup l.
Proof.
  induction l as [|x r IH]; simpl; intro H.
  - constructor.
  - apply andb_true_iff in H as [Hx Hr]. constructor.
    + intro Hin. apply includes_In in Hin. rewrite Hin in Hx. discriminate.
    + now apply IH.
Qed.

(* ------------------------------------------------------------------ *)
(** ** Vaccination schedule *)
(* ------------------------------------------------------------------ *)

(** C9, as stated: the schedule does not have 33 entries. *)
Lemma schedule_length_is_not_33 : List.length vaccinationSchedule <> 33%nat.
Proof. discriminate. Qed.

Lemma schedule_NoDup : NoDup vaccinationSchedule.
Proof.
  apply distinctStrings_NoDup. vm_compute. reflexivity.
Qed.

(** C9, amended: the schedule is a fixed list of exactly 34 pairwise
    distinct labels; the vaccines offered for booking are always labels of
    the schedule, listed once each and in schedule order (they are the
    schedule with some entries left out). *)
Theorem schedule_is_34_fixed_labels :
  List.length vaccinationSchedule = 34%nat
  /\ NoDup vaccinationSchedule
  /\ nth_error vaccinationSchedule 0 = Some "BCG at Birth"
  /\ nth_error vaccinationSchedule 33 = Some "Vitamin A at 60 months"
  /\ forall (c : Child) (unsavedDates : list (string * string)),
       (exists keep, availableVaccines c unsavedDates = filter keep vaccinationSchedule)
       /\ NoDup (availableVaccines c unsavedDates)
       /\ forall v, In v (availableVaccines c unsavedDates) -> In v vaccinationSchedule.
Proof.
  split; [reflexivity|].
  split; [exact schedule_NoDup|].
  split; [reflexivity|].
  split; [reflexivity|].
  intros c unsavedDates. unfold availableVaccines.
  split; [|split].
  - eexists. reflexivity.
  - apply NoDup_filter. exact schedule_NoDup.
  - intros v Hin. apply filter_In in Hin. exact (proj1 Hin).
Qed.

(* ------------------------------------------------------------------ *)
(** ** Password recovery, step 2 *)
(* ------------------------------------------------------------------ *)

Lemma recovery_fold (value : nat -> string) (qs : list Recovery.SecurityQuestion) :
  forall (i : nat) (b : bool) (cols : list Recovery.Colour),
    snd (fst (fold_left (Recovery.visit value) qs (i, b, cols))) = true
    <-> b = true
        /\ forall k q, nth_error qs k = Some q ->
                       Recovery.answerMatches value (i + k) q = true.
Proof.
  induction qs as [|q0 qs IH]; intros i b cols; simpl.
  - split.
    + intro H. split; [assumption|]. intros [|k] q Hk; discriminate.
    + tauto.
  - destruct (Recovery.answerMatches value i q0) eqn:E; simpl; rewrite IH.
    + split.
      * intros [Hb Hall]. split; [assumption|].
        intros [|k] q Hk; simpl in Hk.
        -- injection Hk as <-. now rewrite Nat.add_0_r.
        -- rewrite <- Nat.add_succ_comm. now apply Hall.
      * intros [Hb Hall]. split; [assumption|].
        intros k q Hk. rewrite Nat.add_succ_comm. now apply (Hall (S k)).
    + split.
      * intros [Hb _]. discriminate.
      * intros [_ Hall]. specialize (Hall O q0 eq_refl).
        rewrite Nat.add_0_r in Hall. congruence.
Qed.

(** C10, as stated: a facility whose stored answer has a capital letter.
    The answers "blue" and "rice" pass step 2 although the normalized
    answer "blue" is not the stored answer "Blue". *)
Lemma recovery_compares_with_lowercased_answer :
  let qs := [Recovery.mkSecurityQuestion "What is your favorite color?" "Blue";
             Recovery.mkSecurityQuestion "What is your favorite food?" "rice"] in
  let st := Recovery.mkState
              (Recovery.mkFacility 1 "DEMO001" "Demo Health Center" "demo123"
                                   "Greater Accra" "Accra Metro" (Some qs)) 2 in
  let value := fun index : nat => match index with O => "blue" | _ => "rice" end in
  Recovery.recoveryStep (fst (Recovery.verifySecurityAnswers value st)) = 3%nat
  /\ ~ (forall k q, nth_error qs k = Some q ->
                    toLowerCase (trim (value k)) = Recovery.answer q).
Proof.
  split.
  - reflexivity.
  - intro H. specialize (H O _ eq_refl). discriminate H.
Qed.

(** C10, amended: at step 2, for a facility with stored security questions,
    [verifySecurityAnswers] moves to step 3 if and only if, for every stored
    question, the trimmed and lower-cased answer of the user equals the
    lower-cased stored answer; otherwise the state is unchanged, so one
    wrong answer fails the step whatever the others are. *)
Theorem recovery_step2_all_or_nothing
    (value : nat -> string) (st : Recovery.State)
    (qs : list Recovery.SecurityQuestion)
    (Hqs : Recovery.securityQuestions (Recovery.recoveryFacility st) = Some qs)
    (Hstep : Recovery.recoveryStep st = 2%nat) :
  let st' := fst (Recovery.verifySecurityAnswers value st) in
  let allMatch :=
    forall k q, nth_error qs k = Some q ->
                toLowerCase (trim (value k)) = toLowerCase (Recovery.answer q) in
  (Recovery.recoveryStep st' = 3%nat <-> allMatch)
  /\ (allMatch -> st' = Recovery.mkState (Recovery.recoveryFacility st) 3)
  /\ (~ allMatch -> st' = st)
  /\ (forall k q, nth_error qs k = Some q ->
        toLowerCase (trim (value k)) <> toLowerCase (Recovery.answer q) ->
        st' = st).
Proof.
  intros st' allMatch.
  assert (Recovery.recoveryStep st' = 3%nat <-> allMatch) as Hiff.
  { subst st' allMatch. unfold Recovery.verifySecurityAnswers. rewrite Hqs.
    pose proof (recovery_fold value qs O true []) as F.
    destruct (fold_left (Recovery.visit value) qs (O, true, [])) as [[n b] cols].
    simpl in F. destruct b; simpl.
    - split; [intros _ | reflexivity].
      destruct F as [F _]. destruct (F eq_refl) as [_ Hall].
      intros k q Hk. apply String.eqb_eq. exact (Hall k q Hk).
    - rewrite Hstep. split; [discriminate|].
      intro Hall. destruct F as [_ F].
      assert (false = true) as Habs; [|discriminate Habs].
      apply F. split; [reflexivity|].
      intros k q Hk. apply String.eqb_eq. now apply Hall. }
  assert (st' = Recovery.mkState (Recovery.recoveryFacility st) 3 \/ st' = st) as Hcases.
  { subst st'. unfold Recovery.verifySecurityAnswers. rewrite Hqs.
    destruct (fold_left (Recovery.visit value) qs (O, true, [])) as [[n b] cols].
    destruct b; simpl; tauto. }
  assert (~ allMatch -> st' = st) as Hneg.
  { intro Hn. destruct Hcases as [E | E]; [|exact E].
    elim Hn. apply Hiff. rewrite E. reflexivity. }
  repeat split.
  - apply Hiff.
  - apply Hiff.
  - intro Hall. destruct Hcases as [E | E]; [exact E|].
    apply Hiff in Hall. rewrite E in Hall. congruence.
  - exact Hneg.
  - intros k q Hk Hne. apply Hneg. intro Hall. exact (Hne (Hall k q Hk)).
Qed.

Lemma recovery_step2_all_or_nothing_witness :
  let qs := [Recovery.mkSecurityQuestion "What is your favorite color?" "Blue";
             Recovery.mkSecurityQuestion "What is your favorite food?" "rice"] in
  let st := Recovery.mkState
              (Recovery.mkFacility 1 "DEMO001" "Demo Health Center" "demo123"
                                   "Greater Accra" "Accra Metro" (Some qs)) 2 in
  let value := fun index : nat => match index with O => " BLUE " | _ => "rice" end in
  Recovery.recoveryStep (fst (Recovery.verifySecurityAnswers value st)) = 3%nat
  <-> (forall k q, nth_error qs k = Some q ->
         toLowerCase (trim (value k)) = toLowerCase (Recovery.answer q)).
Proof.
  intros qs st value.
  exact (proj1 (recovery_step2_all_or_nothing value st qs eq_refl eq_refl)).
Defined.

(* ------------------------------------------------------------------ *)
(** ** Summary tables: one row per child, featured dose *)
(* ------------------------------------------------------------------ *)

(** Invariants of a left fold, indexed by the elements visited so far. *)
Lemma fold_left_inv {A B} (f : A -> B -> A) (Inv : list B -> A -> Prop) :
  (forall seen a x, Inv seen a -> Inv (seen ++ [x])%list (f a x)) ->
  forall l seen a, Inv seen a -> Inv (seen ++ l)%list (fold_left f l a).
Proof.
  intros Hstep l. induction l as [|x l IH]; intros seen a Ha; simpl.
  - now rewrite app_nil_r.
  - replace (seen ++ x :: l)%list with ((seen ++ [x]) ++ l)%list
      by (rewrite <- app_assoc; reflexivity).
    apply IH. now apply Hstep.
Qed.

Lemma qualifies_valid (b : Bucket) (today : Z) (v : Vaccination) :
  qualifies b today v = true ->
  booked v = true /\ Date_parse (nextVisit v) = Some (visitTime v).
Proof.
  unfold visitTime.
  destruct b; simpl; unfold isMissed, isDueSoon, isUpcoming;
    destruct (booked v); try discriminate;
    destruct (Date_parse (nextVisit v)); simpl; try discriminate; auto.
Qed.

Lemma earlier_valid (prev current : Vaccination) :
  Date_parse (nextVisit prev) = Some (visitTime prev) ->
  Date_parse (nextVisit current) = Some (visitTime current) ->
  earlier prev current
  = if visitTime prev <? visitTime current then prev else current.
Proof.
  intros Hp Hc. unfold earlier. rewrite Hp, Hc. reflexivity.
Qed.

(** The fold of [earlier] ends on the last dose of minimal date. *)
Lemma fold_earlier (rest : list Vaccination) :
  forall (pre mid : list Vaccination) (acc : Vaccination),
    Date_parse (nextVisit acc) = Some (visitTime acc) ->
    (forall v, In v rest -> Date_parse (nextVisit v) = Some (visitTime v)) ->
    (forall v, In v pre -> visitTime acc <= visitTime v) ->
    (forall v, In v mid -> visitTime acc < visitTime v) ->
    exists l1 l2,
      (pre ++ acc :: mid ++ rest)%list = (l1 ++ fold_left earlier rest acc :: l2)%list
      /\ (forall v, In v l1 -> visitTime (fold_left earlier rest acc) <= visitTime v)
      /\ (forall v, In v l2 -> visitTime (fold_left earlier rest acc) < visitTime v).
Proof.
  induction rest as [|cur rest IH]; intros pre mid acc Hacc Hrest Hpre Hmid; simpl.
  - exists pre, mid. rewrite app_nil_r. auto.
  - assert (Date_parse (nextVisit cur) = Some (visitTime cur)) as Hcur
      by (apply Hrest; now left).
    assert (forall v, In v rest -> Date_parse (nextVisit v) = Some (visitTime v))
      as Hrest' by (intros v Hv; apply Hrest; now right).
    rewrite (earlier_valid acc cur Hacc Hcur).
    destruct (visitTime acc <? visitTime cur) eqn:E.
    + apply Z.ltb_lt in E.
      destruct (IH pre (mid ++ [cur])%list acc Hacc Hrest' Hpre) as (l1 & l2 & Heq & H1 & H2).
      * intros v Hv. apply in_app_or in Hv as [Hv | [<- | []]]; auto.
      * exists l1, l2. rewrite <- Heq, <- app_assoc. auto.
    + apply Z.ltb_ge in E.
      destruct (IH (pre ++ acc :: mid)%list [] cur Hcur Hrest') as (l1 & l2 & Heq & H1 & H2).
      * intros v Hv. apply in_app_or in Hv as [Hv | [<- | Hv]].
        -- specialize (Hpre v Hv). lia.
        -- exact E.
        -- specialize (Hmid v Hv). lia.
      * intros v [].
      * exists l1, l2. rewrite <- Heq, <- app_assoc. simpl. auto.
Qed.

Lemma filter_nil_existsb {A} (q : A -> bool) (l : list A) :
  filter q l = [] -> existsb q l = false.
Proof.
  induction l as [|x l IH]; simpl; [reflexivity|].
  destruct (q x); simpl; [discriminate | exact IH].
Qed.

Lemma tableVisit_inv (q : Vaccination -> bool) (daysOf : Vaccination -> JSNum) :
  forall seen acc c,
    tableInv q daysOf seen acc ->
    tableInv q daysOf (seen ++ [c])%list (tableVisit q daysOf acc c).
Proof.
  intros seen [counted entries] c (Hc & Hnd & He & Hq). simpl in *.
  assert (forall e, In e entries ->
            In (child e) (seen ++ [c])%list
            /\ featured (filter q (vaccinations (child e))) = Some (vaccination e)
            /\ days e = daysOf (vaccination e)) as He'.
  { intros e Hin. destruct (He e Hin) as (H1 & H2 & H3).
    repeat split; auto. apply in_or_app. now left. }
  unfold tableVisit.
  destruct (includes counted (regNo (row c))) eqn:Einc.
  - (* the number is counted already *)
    unfold tableInv; simpl. split; [exact Hc|]. split; [exact Hnd|]. split; [exact He'|].
    intros c' Hin Hex. apply in_app_or in Hin as [Hin | [<- | []]]; auto.
    apply Hc. now apply includes_In.
  - destruct (filter q (vaccinations c)) as [|first rest] eqn:Ef.
    + (* no qualifying dose *)
      unfold tableInv; simpl.
      split; [exact Hc|]. split; [exact Hnd|]. split; [exact He'|].
      intros c' Hin Hex. apply in_app_or in Hin as [Hin | [<- | []]]; auto.
      rewrite (filter_nil_existsb _ _ Ef) in Hex. discriminate.
    + (* a new entry *)
      assert (~ In (regNo (row c)) (map entryRegNo entries)) as Hfresh.
      { intro Hin. apply Hc in Hin. apply includes_In in Hin. congruence. }
      unfold tableInv; simpl. rewrite map_app. simpl.
      split; [|split; [|split]].
      * intro r. split.
        -- intros [<- | Hin]; apply in_or_app.
           ++ right. now left.
           ++ left. now apply Hc.
        -- intro Hin. apply in_app_or in Hin as [Hin | [Hin | []]].
           ++ right. now apply Hc.
           ++ now left.
      * rewrite <- (rev_involutive (map entryRegNo entries ++ [_])).
        apply NoDup_rev. rewrite rev_app_distr. simpl.
        constructor.
        -- intro Hin. apply in_rev in Hin. exact (Hfresh Hin).
        -- apply NoDup_rev. exact Hnd.
      * intros e Hin. apply in_app_or in Hin as [Hin | [<- | []]].
        -- exact (He' e Hin).
        -- simpl. split; [apply in_or_app; right; now left|].
           split; [rewrite Ef; reflexivity | reflexivity].
      * intros c' Hin Hex. apply in_or_app.
        apply in_app_or in Hin as [Hin | [<- | []]].
        -- left. now apply Hq.
        -- right. now left.
Qed.

Lemma buildTable_inv (q : Vaccination -> bool) (daysOf : Vaccination -> JSNum)
    (cs : list Child) :
  tableInv q daysOf cs (fold_left (tableVisit q daysOf) cs ([], [])).
Proof.
  apply (fold_left_inv (tableVisit q daysOf) (tableInv q daysOf)
                       (tableVisit_inv q daysOf) cs [] ([], [])).
  unfold tableInv; simpl. split; [tauto|]. split; [constructor|].
  split; [intros e []|intros c []].
Qed.

Lemma tableOf_buildTable (b : Bucket) (cs : list Child) (today : Z) :
  exists daysOf, tableOf b cs today = buildTable (qualifies b today) daysOf cs.
Proof.
  destruct b; eexists; reflexivity.
Qed.

(** C6, as stated: two doses booked for the same day are both overdue; the
    row of the child features the second one, not the first. *)
Lemma featured_tie_picks_the_later_entry :
  let d1 := bookedDose 1 "OPV1 at 6 weeks" "2024-05-01" in
  let d2 := bookedDose 2 "Penta1 at 6 weeks" "2024-05-01" in
  let c := mkChild sampleRow [d1; d2] in
  filter (isMissed noon_2024_05_10) (vaccinations c) = [d1; d2]
  /\ visitTime d1 = visitTime d2
  /\ featured [d1; d2] = Some d2
  /\ map vaccination (updateDefaultersTable [c] noon_2024_05_10) = [d2]
  /\ d2 <> d1.
Proof.
  repeat split; try reflexivity. discriminate.
Qed.

(** C6, amended: in each of the three tables the featured dose of an entry
    is a qualifying dose of its child with the minimum next-visit date, and
    when several qualifying doses share that minimum it is the one that
    comes last in input order: every qualifying dose before it is not
    earlier, every qualifying dose after it is strictly later. *)
Theorem featured_dose_is_last_minimum
    (b : Bucket) (today : Z) (cs : list Child) (e : Entry)
    (He : In e (tableOf b cs today)) :
  let doses := filter (qualifies b today) (vaccinations (child e)) in
  (forall v, In v doses -> Date_parse (nextVisit v) = Some (visitTime v))
  /\ featured doses = Some (vaccination e)
  /\ exists l1 l2,
       doses = (l1 ++ vaccination e :: l2)%list
       /\ (forall v, In v l1 -> visitTime (vaccination e) <= visitTime v)
       /\ (forall v, In v l2 -> visitTime (vaccination e) < visitTime v).
Proof.
  intro doses.
  assert (forall v, In v doses -> Date_parse (nextVisit v) = Some (visitTime v))
    as Hvalid.
  { intros v Hv. apply filter_In in Hv as [_ Hq].
    exact (proj2 (qualifies_valid b today v Hq)). }
  destruct (tableOf_buildTable b cs today) as [daysOf Ht].
  rewrite Ht in He. unfold buildTable in He.
  destruct (buildTable_inv (qualifies b today) daysOf cs) as (_ & _ & Hent & _).
  destruct (Hent e He) as (_ & Hfeat & _). fold doses in Hfeat.
  split; [exact Hvalid|]. split; [exact Hfeat|].
  destruct doses as [|first rest]; [discriminate|].
  simpl in Hfeat. injection Hfeat as Hfeat. unfold reduce1 in Hfeat.
  destruct (fold_earlier rest [] [] first) as (l1 & l2 & Heq & H1 & H2).
  - apply Hvalid. now left.
  - intros v Hv. apply Hvalid. now right.
  - intros v [].
  - intros v [].
  - rewrite Hfeat in *. exists l1, l2. simpl in Heq. auto.
Qed.

Lemma featured_dose_is_last_minimum_witness :
  let d1 := bookedDose 1 "OPV1 at 6 weeks" "2024-05-01" in
  let d2 := bookedDose 2 "Penta1 at 6 weeks" "2024-04-20" in
  let d3 := bookedDose 3 "PCV1 at 6 weeks" "2024-04-20" in
  let c := mkChild sampleRow [d1; d2; d3] in
  let e := mkEntry c d3 (Some 20) in
  In e (tableOf Overdue [c] noon_2024_05_10)
  /\ featured (filter (qualifies Overdue noon_2024_05_10) (vaccinations (child e)))
     = Some (vaccination e).
Proof.
  intros d1 d2 d3 c e.
  assert (In e (tableOf Overdue [c] noon_2024_05_10)) as Hin
    by (vm_compute; left; reflexivity).
  split; [exact Hin|].
  exact (proj1 (proj2 (featured_dose_is_last_minimum
                         Overdue noon_2024_05_10 [c] e Hin))).
Defined.

(* ------------------------------------------------------------------ *)
(** ** Cached defaulter flag *)
(* ------------------------------------------------------------------ *)


(** On doses as the save path writes them (a dose with a date given has no
    next visit) the cached flag agrees with the defaulters filter. *)
Lemma updateDefaulterStatus_on_saved_doses (c : Child) (today : Z) :
  (forall v, In v (vaccinations c) -> dateGiven v <> "" -> nextVisit v = "") ->
  isDefaulter (row (updateDefaulterStatus c today))
  = existsb (isMissed today) (vaccinations c).
Proof.
  intro Hinv. unfold updateDefaulterStatus. simpl.
  induction (vaccinations c) as [|v vs IH]; simpl; [reflexivity|].
  rewrite IH by (intros w Hw; apply Hinv; now right). f_equal.
  unfold isMissed, booked.
  destruct (truthy (nextVisit v)) eqn:En; simpl; [|reflexivity].
  destruct (truthy (dateGiven v)) eqn:Eg; simpl; [|reflexivity].
  apply truthy_true_iff in Eg. apply truthy_true_iff in En.
  elim En. apply Hinv; [now left | exact Eg].
Qed.

(* ------------------------------------------------------------------ *)
(** ** Classification of one dose *)
(* ------------------------------------------------------------------ *)

(** C3, as stated: a dose booked for 10 May 2024, looked at on that day at
    noon, has [daysUntil = 0] and is overdue. *)
Lemma dose_due_today_is_overdue :
  let v := bookedDose 1 "OPV1 at 6 weeks" "2024-05-10" in
  daysUntilOf noon_2024_05_10 v = Some 0
  /\ isMissed noon_2024_05_10 v = true
  /\ isDefaulterFlag (statsVisit noon_2024_05_10 noFlags v) = true
  /\ daysOverdueOf noon_2024_05_10 v = Some 0.
Proof.
  repeat split; reflexivity.
Qed.

(** C3, amended: for a dose with [nextVisit] set and [dateGiven] empty the
    next visit (midnight UTC of its day) is compared with the current
    instant in milliseconds.  The dose is overdue exactly when that instant
    is before now, with [daysOverdue] the floor of the difference in days;
    with [daysUntil] the ceiling of the difference in days, it is due soon
    exactly when [0 < daysUntil <= 7] (in the statistics, for a next visit
    that is not the current instant itself), upcoming exactly when
    [7 < daysUntil <= 30], and in no bucket when [daysUntil > 30].  A dose
    with [daysUntil = 0] whose instant has passed is overdue with
    [daysOverdue = 0] and not due soon. *)
Theorem dose_classification (today nv : Z) (v : Vaccination)
    (Hnext : nextVisit v <> "")
    (Hgiven : dateGiven v = "")
    (Hparse : Date_parse (nextVisit v) = Some nv) :
  let daysUntil := - ((today - nv) / msPerDay) in
  let daysOverdue := (today - nv) / msPerDay in
  let flags := statsVisit today noFlags v in
  (daysUntilOf today v = Some daysUntil
   /\ (daysUntil - 1) * msPerDay < nv - today <= daysUntil * msPerDay)
  /\ (daysOverdueOf today v = Some daysOverdue
      /\ daysOverdue * msPerDay <= today - nv < (daysOverdue + 1) * msPerDay)
  /\ (isMissed today v = true <-> nv < today)
  /\ (isDefaulterFlag flags = true <-> nv < today)
  /\ (isDueSoon today v = true <-> 0 < daysUntil <= 7)
  /\ (nv <> today -> (isDueSoonFlag flags = true <-> 0 < daysUntil <= 7))
  /\ (isUpcoming today v = true <-> 7 < daysUntil <= 30)
  /\ (isUpcomingFlag flags = true <-> 7 < daysUntil <= 30)
  /\ (30 < daysUntil ->
      isMissed today v = false /\ isDueSoon today v = false
      /\ isUpcoming today v = false /\ flags = noFlags)
  /\ (daysUntil = 0 -> nv < today ->
      isMissed today v = true /\ daysOverdue = 0
      /\ isDueSoon today v = false /\ isDueSoonFlag flags = false).
Proof.
  intros daysUntil daysOverdue flags.
  assert (booked v = true) as Hb.
  { unfold booked. apply truthy_true_iff in Hnext. rewrite Hnext, Hgiven. reflexivity. }
  pose proof (ceil_bounds nv today) as Hceil. fold daysUntil in Hceil.
  pose proof (floor_bounds today nv) as Hfloor. fold daysOverdue in Hfloor.
  pose proof (ceil_pos_iff nv today) as Hpos. fold daysUntil in Hpos.
  assert (isMissed today v = (nv <? today)) as Em
    by (unfold isMissed; rewrite Hb, Hparse; reflexivity).
  assert (isDueSoon today v = ((0 <? daysUntil) && (daysUntil <=? 7))) as Es
    by (unfold isDueSoon; rewrite Hb, Hparse; reflexivity).
  assert (isUpcoming today v = ((7 <? daysUntil) && (daysUntil <=? 30))) as Eu
    by (unfold isUpcoming; rewrite Hb, Hparse; reflexivity).
  assert (flags = if nv <? today then mkFlags true false false
                  else if daysUntil <=? 7 then mkFlags false true false
                  else if daysUntil <=? 30 then mkFlags false false true
                  else noFlags) as Ef
    by (unfold flags, statsVisit; rewrite Hb, Hparse; reflexivity).
  split; [split; [unfold daysUntilOf; rewrite Hparse; reflexivity | exact Hceil]|].
  split; [split; [unfold daysOverdueOf; rewrite Hparse; reflexivity | exact Hfloor]|].
  rewrite Em, Es, Eu, Ef.
  clearbody flags daysUntil daysOverdue. clear Em Es Eu Ef flags.
  assert (0 < msPerDay) as HD by reflexivity.
  destruct (nv <? today) eqn:E1;
    [apply Z.ltb_lt in E1 | apply Z.ltb_ge in E1];
    destruct (0 <? daysUntil) eqn:E0;
    [apply Z.ltb_lt in E0 | apply Z.ltb_ge in E0
    |apply Z.ltb_lt in E0 | apply Z.ltb_ge in E0];
    destruct (daysUntil <=? 7) eqn:E7;
    [apply Z.leb_le in E7 | apply Z.leb_gt in E7
    |apply Z.leb_le in E7 | apply Z.leb_gt in E7
    |apply Z.leb_le in E7 | apply Z.leb_gt in E7
    |apply Z.leb_le in E7 | apply Z.leb_gt in E7];
    destruct (7 <? daysUntil) eqn:E8;
    try (apply Z.ltb_lt in E8); try (apply Z.ltb_ge in E8);
    destruct (daysUntil <=? 30) eqn:E30;
    try (apply Z.leb_le in E30); try (apply Z.leb_gt in E30);
    simpl; try lia;
    repeat split; intros; try discriminate; try reflexivity; try lia; try nia.
Qed.

Lemma dose_classification_witness :
  let v := bookedDose 1 "OPV1 at 6 weeks" "2024-05-13" in
  isDueSoon noon_2024_05_10 v = true
  <-> 0 < - ((noon_2024_05_10 - 1715558400000) / msPerDay) <= 7.
Proof.
  intro v.
  assert (nextVisit v <> "") as Hnext by discriminate.
  exact (proj1 (proj2 (proj2 (proj2 (proj2
           (dose_classification noon_2024_05_10 1715558400000 v
                                Hnext eq_refl eq_refl)))))).
Defined.

(* ------------------------------------------------------------------ *)
(** ** Bucket membership in the summary views *)
(* ------------------------------------------------------------------ *)

(** The flags after a dose are the flags before it joined with the flags
    the dose raises by itself. *)
Lemma statsVisit_join (today : Z) (f : Flags) (v : Vaccination) :
  statsVisit today f v
  = mkFlags (isDefaulterFlag f || isDefaulterFlag (statsVisit today noFlags v))
            (isDueSoonFlag f || isDueSoonFlag (statsVisit today noFlags v))
            (isUpcomingFlag f || isUpcomingFlag (statsVisit today noFlags v)).
Proof.
  unfold statsVisit. destruct f as [d s u]; simpl.
  destruct (booked v); simpl;
    [|now rewrite !orb_false_r].
  destruct (date_lt (Date_parse (nextVisit v)) (Some today)); simpl;
    [now rewrite !orb_false_r, orb_true_r|].
  destruct (num_le (ceilDays (Date_parse (nextVisit v)) (Some today)) 7); simpl;
    [now rewrite !orb_false_r, orb_true_r|].
  destruct (num_le (ceilDays (Date_parse (nextVisit v)) (Some today)) 30); simpl;
    now rewrite !orb_false_r, ?orb_true_r.
Qed.

Lemma fold_statsVisit (today : Z) (vs : list Vaccination) :
  forall f,
    fold_left (statsVisit today) vs f
    = mkFlags
        (isDefaulterFlag f
         || existsb (fun v => isDefaulterFlag (statsVisit today noFlags v)) vs)
        (isDueSoonFlag f
         || existsb (fun v => isDueSoonFlag (statsVisit today noFlags v)) vs)
        (isUpcomingFlag f
         || existsb (fun v => isUpcomingFlag (statsVisit today noFlags v)) vs).
Proof.
  induction vs as [|v vs IH]; intro f; simpl.
  - destruct f; simpl. now rewrite !orb_false_r.
  - rewrite IH, (statsVisit_join today f v). simpl.
    now rewrite !orb_assoc.
Qed.

Lemma defaulterFlag_isMissed (today : Z) (v : Vaccination) :
  isDefaulterFlag (statsVisit today noFlags v) = isMissed today v.
Proof.
  unfold statsVisit, isMissed. destruct (booked v); [|reflexivity].
  destruct (date_lt (Date_parse (nextVisit v)) (Some today)); [reflexivity|].
  destruct (num_le _ 7); [reflexivity|]. destruct (num_le _ 30); reflexivity.
Qed.

Lemma upcomingFlag_isUpcoming (today : Z) (v : Vaccination) :
  isUpcomingFlag (statsVisit today noFlags v) = isUpcoming today v.
Proof.
  unfold statsVisit, isUpcoming. destruct (booked v); [|reflexivity].
  destruct (Date_parse (nextVisit v)) as [nv|]; simpl; [|reflexivity].
  pose proof (ceil_pos_iff nv today) as Hpos.
  destruct (nv <? today) eqn:E1; simpl.
  - apply Z.ltb_lt in E1. symmetry. apply andb_false_iff. left.
    apply Z.ltb_ge. lia.
  - destruct (- ((today - nv) / msPerDay) <=? 7) eqn:E7; simpl.
    + apply Z.leb_le in E7. symmetry. apply andb_false_iff. left.
      apply Z.ltb_ge. lia.
    + apply Z.leb_gt in E7. apply Z.ltb_lt in E7. rewrite E7. simpl.
      destruct (- ((today - nv) / msPerDay) <=? 30); reflexivity.
Qed.

Lemma isDueSoon_dueSoonFlag (today : Z) (v : Vaccination) :
  isDueSoon today v = true -> isDueSoonFlag (statsVisit today noFlags v) = true.
Proof.
  unfold statsVisit, isDueSoon. destruct (booked v); [|discriminate].
  destruct (Date_parse (nextVisit v)) as [nv|]; simpl; [|discriminate].
  intro H. apply andb_true_iff in H as [H0 H7]. apply Z.ltb_lt in H0.
  apply (ceil_pos_iff nv today) in H0.
  assert ((nv <? today) = false) as -> by (apply Z.ltb_ge; lia).
  rewrite H7. reflexivity.
Qed.

Lemma childFlags_defaulter (today : Z) (c : Child) :
  isDefaulterFlag (childFlags today c) = existsb (isMissed today) (vaccinations c).
Proof.
  unfold childFlags. rewrite fold_statsVisit. simpl.
  induction (vaccinations c) as [|v vs IH]; simpl; [reflexivity|].
  now rewrite IH, defaulterFlag_isMissed.
Qed.

Lemma childFlags_upcoming (today : Z) (c : Child) :
  isUpcomingFlag (childFlags today c) = existsb (isUpcoming today) (vaccinations c).
Proof.
  unfold childFlags. rewrite fold_statsVisit. simpl.
  induction (vaccinations c) as [|v vs IH]; simpl; [reflexivity|].
  now rewrite IH, upcomingFlag_isUpcoming.
Qed.

Lemma childFlags_dueSoon (today : Z) (c : Child) :
  existsb (isDueSoon today) (vaccinations c) = true ->
  isDueSoonFlag (childFlags today c) = true.
Proof.
  unfold childFlags. rewrite fold_statsVisit. simpl.
  rewrite !existsb_exists. intros (v & Hin & Hv). exists v.
  split; [exact Hin | now apply isDueSoon_dueSoonFlag].
Qed.

(** The counters of [updateStats] add one per child whose flag is set. *)
Lemma fold_statsChild (today : Z) (cs : list Child) :
  forall a b c : nat,
    fold_left (statsChild today) cs (a, b, c)
    = ((List.length (filter (fun x => isDefaulterFlag (childFlags today x)) cs) + a)%nat,
       (List.length (filter (fun x => isDueSoonFlag (childFlags today x)) cs) + b)%nat,
       (List.length (filter (fun x => isUpcomingFlag (childFlags today x)) cs) + c)%nat).
Proof.
  induction cs as [|x cs IH]; intros a b c; simpl; [reflexivity|].
  rewrite IH.
  destruct (isDefaulterFlag (childFlags today x)),
           (isDueSoonFlag (childFlags today x)),
           (isUpcomingFlag (childFlags today x)); simpl;
    repeat f_equal; lia.
Qed.

Lemma filter_ext_length {A} (f g : A -> bool) (l : list A) :
  (forall x, f x = g x) ->
  List.length (filter f l) = List.length (filter g l).
Proof.
  intro H. now rewrite (filter_ext f g H).
Qed.

Lemma NoDup_app_l {A} (l1 l2 : list A) : NoDup (l1 ++ l2) -> NoDup l1.
Proof.
  induction l1 as [|x l1 IH]; simpl; intro H; [constructor|].
  inversion H as [|? ? Hx Hr]; subst. constructor.
  - intro Hin. apply Hx. apply in_or_app. now left.
  - now apply IH.
Qed.

Lemma NoDup_snoc_fresh {A} (l : list A) (x : A) :
  NoDup (l ++ [x]) -> ~ In x l.
Proof.
  induction l as [|y l IH]; simpl; intros H Hin; [exact Hin|].
  inversion H as [|? ? Hy Hr]; subst. destruct Hin as [-> | Hin].
  - apply Hy. apply in_or_app. right. now left.
  - exact (IH Hr Hin).
Qed.

(** With pairwise distinct registration numbers, a table lists exactly the
    children with a qualifying dose, in the order of the array. *)
Lemma buildTable_children (q : Vaccination -> bool) (daysOf : Vaccination -> JSNum)
    (cs : list Child) :
  NoDup (map childRegNo cs) ->
  map child (buildTable q daysOf cs)
  = filter (fun c => existsb q (vaccinations c)) cs.
Proof.
  set (Inv := fun (seen : list Child) (acc : list string * list Entry) =>
                NoDup (map childRegNo seen) ->
                map child (snd acc)
                = filter (fun c => existsb q (vaccinations c)) seen
                /\ forall r, In r (fst acc) -> In r (map childRegNo seen)).
  assert (forall seen acc c, Inv seen acc ->
            Inv (seen ++ [c])%list (tableVisit q daysOf acc c)) as Hstep.
  { intros seen [counted entries] c IH Hnd. rewrite map_app in Hnd.
    destruct (IH (NoDup_app_l _ _ Hnd)) as [Hmap Hcounted]. simpl in Hmap, Hcounted.
    apply NoDup_snoc_fresh in Hnd.
    assert (includes counted (regNo (row c)) = false) as Hfresh.
    { destruct (includes counted (regNo (row c))) eqn:E; [|reflexivity].
      apply includes_In in E. elim Hnd. now apply Hcounted. }
    unfold tableVisit. rewrite Hfresh, filter_app. simpl.
    destruct (filter q (vaccinations c)) as [|first rest] eqn:Ef.
    - rewrite (filter_nil_existsb _ _ Ef), app_nil_r. simpl.
      split; [exact Hmap|]. intros r Hr. rewrite map_app.
      apply in_or_app. left. now apply Hcounted.
    - assert (existsb q (vaccinations c) = true) as ->.
      { apply existsb_exists. exists first.
        assert (In first (filter q (vaccinations c))) as Hin
          by (rewrite Ef; now left).
        apply filter_In in Hin. exact Hin. }
      simpl. rewrite map_app, Hmap. simpl. split; [reflexivity|].
      intros r [<- | Hr]; rewrite map_app; apply in_or_app.
      + right. now left.
      + left. now apply Hcounted. }
  intro Hnd.
  pose proof (fold_left_inv (tableVisit q daysOf) Inv Hstep cs [] ([], [])) as H.
  simpl in H. unfold buildTable. apply H; [|exact Hnd].
  intros _. split; [reflexivity | intros r []].
Qed.

Lemma tableOf_children (cs : list Child) (today : Z) (b : Bucket) :
  NoDup (map childRegNo cs) ->
  map child (tableOf b cs today)
  = filter (fun c => existsb (qualifies b today) (vaccinations c)) cs.
Proof.
  intro Hnd. destruct (tableOf_buildTable b cs today) as [daysOf ->].
  now apply buildTable_children.
Qed.

(** C1, as stated: a child with one overdue dose and one dose due in three
    days is counted as a defaulter and as due soon, and has a row in the
    due-soon table. *)
Lemma overdue_child_is_also_due_soon :
  let d1 := bookedDose 1 "OPV1 at 6 weeks" "2024-05-01" in
  let d2 := bookedDose 2 "OPV2 at 10 weeks" "2024-05-13" in
  let c := mkChild sampleRow [d1; d2] in
  isMissed noon_2024_05_10 d1 = true
  /\ totalDefaulters (updateStats [c] noon_2024_05_10) = 1%nat
  /\ totalDueSoon (updateStats [c] noon_2024_05_10) = 1%nat
  /\ map entryRegNo (updateDefaultersTable [c] noon_2024_05_10) = ["001/2024"]
  /\ map entryRegNo (updateDueSoonTable [c] noon_2024_05_10) = ["001/2024"].
Proof.
  repeat split; reflexivity.
Qed.

(** C1, amended: every child is counted at most once per bucket, and the
    buckets are independent of each other.  Each counter of [updateStats]
    is the number of children of the array whose flag for that bucket is
    set (for defaulters and upcoming: the children with a qualifying dose);
    each table lists a registration number at most once and lists the
    registration number of every child with a qualifying dose, and when the
    registration numbers of the array are pairwise distinct it has exactly
    one row for each such child, in the order of the array; a child with an
    overdue dose that also has a dose in the 1-7 or 8-30 day window is
    counted in both buckets. *)
Theorem buckets_count_each_child_once (cs : list Child) (today : Z) :
  let stats := updateStats cs today in
  totalDefaulters stats
    = List.length (filter (fun c => existsb (isMissed today) (vaccinations c)) cs)
  /\ totalDueSoon stats
     = List.length (filter (fun c => isDueSoonFlag (childFlags today c)) cs)
  /\ totalUpcoming stats
     = List.length (filter (fun c => existsb (isUpcoming today) (vaccinations c)) cs)
  /\ (forall b, NoDup (map entryRegNo (tableOf b cs today)))
  /\ (forall b c, In c cs ->
        existsb (qualifies b today) (vaccinations c) = true ->
        In (regNo (row c)) (map entryRegNo (tableOf b cs today)))
  /\ (NoDup (map childRegNo cs) ->
      forall b, map child (tableOf b cs today)
                = filter (fun c => existsb (qualifies b today) (vaccinations c)) cs)
  /\ (forall c, In c cs ->
        existsb (isMissed today) (vaccinations c) = true ->
        (existsb (isDueSoon today) (vaccinations c) = true ->
           isDefaulterFlag (childFlags today c) = true
           /\ isDueSoonFlag (childFlags today c) = true
           /\ In (regNo (row c)) (map entryRegNo (tableOf Overdue cs today))
           /\ In (regNo (row c)) (map entryRegNo (tableOf DueSoon cs today)))
        /\ (existsb (isUpcoming today) (vaccinations c) = true ->
           isDefaulterFlag (childFlags today c) = true
           /\ isUpcomingFlag (childFlags today c) = true
           /\ In (regNo (row c)) (map entryRegNo (tableOf Overdue cs today))
           /\ In (regNo (row c)) (map entryRegNo (tableOf Upcoming cs today)))).
Proof.
  intro stats.
  assert (forall b c, In c cs ->
            existsb (qualifies b today) (vaccinations c) = true ->
            In (regNo (row c)) (map entryRegNo (tableOf b cs today))) as Hmem.
  { intros b c Hin Hex. destruct (tableOf_buildTable b cs today) as [daysOf ->].
    destruct (buildTable_inv (qualifies b today) daysOf cs) as (_ & _ & _ & Hq).
    exact (Hq c Hin Hex). }
  subst stats. unfold updateStats. rewrite fold_statsChild. simpl.
  rewrite !Nat.add_0_r.
  split; [apply filter_ext_length; intro; apply childFlags_defaulter|].
  split; [reflexivity|].
  split; [apply filter_ext_length; intro; apply childFlags_upcoming|].
  split.
  { intro b. destruct (tableOf_buildTable b cs today) as [daysOf ->].
    destruct (buildTable_inv (qualifies b today) daysOf cs) as (_ & Hnd & _).
    exact Hnd. }
  split; [exact Hmem|].
  split; [intros Hnd b; now apply tableOf_children|].
  intros c Hin Hover. split; intro Hother.
  - split; [rewrite childFlags_defaulter; exact Hover|].
    split; [now apply childFlags_dueSoon|].
    split; [exact (Hmem Overdue c Hin Hover) | exact (Hmem DueSoon c Hin Hother)].
  - split; [rewrite childFlags_defaulter; exact Hover|].
    split; [rewrite childFlags_upcoming; exact Hother|].
    split; [exact (Hmem Overdue c Hin Hover) | exact (Hmem Upcoming c Hin Hother)].
Qed.

Lemma buckets_count_each_child_once_witness :
  let d1 := bookedDose 1 "OPV1 at 6 weeks" "2024-05-01" in
  let d2 := bookedDose 2 "OPV2 at 10 weeks" "2024-05-13" in
  let c := mkChild sampleRow [d1; d2] in
  isDefaulterFlag (childFlags noon_2024_05_10 c) = true
  /\ isDueSoonFlag (childFlags noon_2024_05_10 c) = true
  /\ In (regNo (row c)) (map entryRegNo (tableOf Overdue [c] noon_2024_05_10))
  /\ In (regNo (row c)) (map entryRegNo (tableOf DueSoon [c] noon_2024_05_10)).
Proof.
  intros d1 d2 c.
  apply (proj1 (proj2 (proj2 (proj2 (proj2 (proj2 (proj2
           (buckets_count_each_child_once [c] noon_2024_05_10))))))
         c (or_introl eq_refl) eq_refl)).
  reflexivity.
Defined.

(* ------------------------------------------------------------------ *)
(** ** The store monad *)
(* ------------------------------------------------------------------ *)

Lemma preserves_ret {A} (P : Db -> Prop) (a : A) : preserves P (ret a).
Proof. intros app H. exact H. Qed.

Lemma preserves_bind {A B} (P : Db -> Prop) (m : Async A) (k : A -> Async B) :
  preserves P m -> (forall a, preserves P (k a)) -> preserves P (bind m k).
Proof.
  intros Hm Hk app H. unfold bind. specialize (Hm app H).
  destruct (m app) as [[a|] app']; simpl in *.
  - now apply Hk.
  - exact Hm.
Qed.

Lemma preserves_request {A} (P : Db -> Prop) (op : Db -> option (A * Db)) :
  (forall d a d', P d -> op d = Some (a, d') -> P d') ->
  preserves P (request op).
Proof.
  intros Hop app H. unfold request.
  destruct (faults app) as [|[|] rest]; simpl; try exact H;
    destruct (op (db app)) as [[a d']|] eqn:E; simpl; try exact H;
    exact (Hop _ _ _ H E).
Qed.

Lemma preserves_promiseAll {A} (P : Db -> Prop) (ps : list (Async A)) :
  (forall p, In p ps -> preserves P p) -> preserves P (promiseAll ps).
Proof.
  induction ps as [|p ps IH]; intros Hps app H; simpl; [exact H|].
  assert (P (db (snd (p app)))) as H1 by (apply Hps; [now left | exact H]).
  destruct (p app) as [r app1]. simpl in H1.
  assert (P (db (snd (promiseAll ps app1)))) as H2
    by (apply IH; [intros q Hq; apply Hps; now right | exact H1]).
  destruct (promiseAll ps app1) as [rs app2]. exact H2.
Qed.

Lemma preserves_transaction {A} (P : Db -> Prop) (body : Async A) :
  preserves P body -> preserves P (transaction body).
Proof.
  intros Hb app H. unfold transaction. specialize (Hb app H).
  destruct (body app) as [[a|] app']; simpl in *; assumption.
Qed.

Lemma tryCatch_snd (body : Async unit) (app : App) :
  snd (tryCatch body app) = snd (body app).
Proof.
  unfold tryCatch. destruct (body app) as [[u|] app']; reflexivity.
Qed.

Lemma bind_Fulfilled {A B} (m : Async A) (k : A -> Async B) app b app2 :
  bind m k app = (Fulfilled b, app2) ->
  exists a app1, m app = (Fulfilled a, app1) /\ k a app1 = (Fulfilled b, app2).
Proof.
  unfold bind. destruct (m app) as [[a|] app1]; intro H; [|discriminate].
  now exists a, app1.
Qed.

Lemma request_Fulfilled {A} (op : Db -> option (A * Db)) app a app1 :
  request op app = (Fulfilled a, app1) ->
  op (db app) = Some (a, db app1) /\ children app1 = children app.
Proof.
  unfold request.
  destruct (faults app) as [|[|] rest]; try discriminate;
    destruct (op (db app)) as [[a' d']|]; try discriminate;
    intro H; injection H as <- <-; simpl; auto.
Qed.

(** With no fault left a request is served as its operation says. *)
Lemma request_no_fault {A} (op : Db -> option (A * Db)) app a d :
  faults app = [] -> op (db app) = Some (a, d) ->
  request op app = (Fulfilled a, mkApp d (children app) []).
Proof.
  intros Hf Hop. unfold request. now rewrite Hf, Hop.
Qed.

(* ------------------------------------------------------------------ *)
(** ** Records written by the save path *)
(* ------------------------------------------------------------------ *)

Lemma recordsToAdd_shape cid formRows book date vaccines v :
  In v (recordsToAdd cid formRows book date vaccines) -> savedShape v.
Proof.
  unfold recordsToAdd. intro Hin. apply in_app_or in Hin as [Hin | Hin].
  - apply in_map_iff in Hin as (r & <- & Hr). apply filter_In in Hr as [_ Hfilled].
    unfold savedShape, recordOfRow; simpl. split; [|split].
    + intro Hd. apply truthy_true_iff in Hd. rewrite Hd. auto.
    + intro Hn. now elim Hn.
    + intros Hd _. rewrite Hd. simpl. split; [reflexivity|].
      unfold rowFilled in Hfilled. rewrite Hd in Hfilled. simpl in Hfilled.
      apply orb_true_iff in Hfilled as [Hfilled | Hfilled];
        [apply orb_true_iff in Hfilled as [Hfilled | Hfilled]|];
        apply truthy_true_iff in Hfilled; auto.
  - destruct (book && truthy date && (0 <? List.length vaccines)%nat) eqn:E;
      [|destruct Hin].
    apply in_map_iff in Hin as (x & <- & _).
    apply andb_true_iff in E as [E _]. apply andb_true_iff in E as [_ E].
    apply truthy_true_iff in E.
    unfold savedShape, recordOfBooking; simpl. split; [|split].
    + intro Hd. now elim Hd.
    + auto.
    + intros _ Hn. now elim E.
Qed.

Lemma savedShape_setId (v : Vaccination) (k : Z) :
  savedShape v -> savedShape (setVaccinationId v k).
Proof. intro H. exact H. Qed.

(** Adding records one after the other, with no fault left, appends them
    with consecutive keys. *)
Lemma promiseAll_adds_no_fault (vs : list Vaccination) :
  forall app, faults app = [] ->
    exists ks,
      promiseAll (map (fun v => request (vaccinationsAdd v)) vs) app
      = (Fulfilled ks,
         mkApp (mkDb (t_children (db app))
                     (mkTable (rows (t_vaccinations (db app))
                               ++ withKeys (keygen (t_vaccinations (db app))) vs)%list
                              (keygen (t_vaccinations (db app))
                               + Z.of_nat (List.length vs)))
                     (t_facility (db app)))
               (children app) []).
Proof.
  induction vs as [|v vs IH]; intros app Hf.
  - exists []. simpl. rewrite app_nil_r, Z.add_0_r.
    destruct app as [[tc [r k] tf] cs fl]; simpl in *. now subst fl.
  - cbn [map promiseAll].
    rewrite (request_no_fault (vaccinationsAdd v) app _ _ Hf eq_refl).
    match goal with |- context [promiseAll _ ?a] => destruct (IH a eq_refl) as [ks Hks] end.
    rewrite Hks. exists (keygen (t_vaccinations (db app)) + 1 :: ks).
    cbn [db t_children t_vaccinations t_facility rows keygen children
         withKeys List.length].
    rewrite <- app_assoc, Nat2Z.inj_succ. cbn [List.app].
    rewrite <- Z.add_assoc, Z.add_1_l. reflexivity.
Qed.

Lemma filter_app_none {A} (f : A -> bool) (l1 l2 : list A) :
  filter f l1 = [] -> (forall x, In x l2 -> f x = true) ->
  filter f (l1 ++ l2) = l2.
Proof.
  intros H1 H2. rewrite filter_app, H1. simpl.
  induction l2 as [|x l2 IH]; simpl; [reflexivity|].
  rewrite (H2 x (or_introl eq_refl)). f_equal. apply IH.
  intros y Hy. apply H2. now right.
Qed.

Lemma filter_negb_filter {A} (f : A -> bool) (l : list A) :
  filter f (filter (fun x => negb (f x)) l) = [].
Proof.
  induction l as [|x l IH]; simpl; [reflexivity|].
  destruct (f x) eqn:E; simpl; [exact IH|]. now rewrite E.
Qed.

Lemma withKeys_childId (cid k : Z) (vs : list Vaccination) :
  (forall v, In v vs -> childId v = cid) ->
  forall x, In x (withKeys k vs) -> (childId x =? cid) = true.
Proof.
  revert k. induction vs as [|v vs IH]; intros k Hall x Hx; simpl in Hx.
  - destruct Hx.
  - destruct Hx as [<- | Hx].
    + simpl. apply Z.eqb_eq. apply Hall. now left.
    + apply (IH (k + 1)); [|exact Hx]. intros w Hw. apply Hall. now right.
Qed.

Lemma recordsToAdd_childId cid formRows book date vaccines v :
  In v (recordsToAdd cid formRows book date vaccines) -> childId v = cid.
Proof.
  unfold recordsToAdd. intro Hin. apply in_app_or in Hin as [Hin | Hin].
  - apply in_map_iff in Hin as (r & <- & _). reflexivity.
  - destruct (book && truthy date && (0 <? List.length vaccines)%nat); [|destruct Hin].
    apply in_map_iff in Hin as (x & <- & _). reflexivity.
Qed.

(** C4, as stated: a row with a batch number and no date is saved as a
    pending record with neither [dateGiven] nor [nextVisit]. *)
Lemma pending_record_is_persisted :
  let formRows := [mkFormRow "BCG at Birth" "" "B12" "" ""] in
  let app' := snd (saveImmunization 0 formRows false "" [] noon_2024_05_10
                                    (sampleApp [])) in
  fst (saveImmunization 0 formRows false "" [] noon_2024_05_10 (sampleApp [])) = Done
  /\ dosesOf 1 (db app')
     = [mkVaccination 2 1 "BCG at Birth" "" "B12" "" "" "" pending]
  /\ exists v, In v (dosesOf 1 (db app')) /\ ~ specifiedShape v.
Proof.
  split; [reflexivity|]. split; [reflexivity|].
  eexists. split; [left; reflexivity|].
  intros (_ & _ & H). apply H. split; reflexivity.
Qed.

(** C4, amended: whatever the form holds and however the storage requests
    are settled, every record of the vaccinations table after
    [saveImmunization] was there before or has the shape [savedShape]: with
    a date given it is completed and has no next visit; with a next visit
    it has no date given and is scheduled; with neither it is pending and
    carries a batch number, a place or a remark (a row with all four inputs
    empty is not written).  When the form is valid and no request fails the
    child's records after the save are exactly the submitted ones. *)
Theorem saved_records_have_shape
    (selectedChildIndex : nat) (formRows : list FormRow) (bookNextVisit : bool)
    (nextVisitDate : string) (nextVisitVaccines : list string) (today : Z)
    (app : App) :
  let result := saveImmunization selectedChildIndex formRows bookNextVisit
                                 nextVisitDate nextVisitVaccines today app in
  (forall v, In v (rows (t_vaccinations (db (snd result)))) ->
             In v (rows (t_vaccinations (db app))) \/ savedShape v)
  /\ (forall c, nth_error (children app) selectedChildIndex = Some c ->
        Forall savedShape
               (recordsToAdd (c_id (row c)) formRows bookNextVisit
                             nextVisitDate nextVisitVaccines)
        /\ (forallb rowValid formRows = true -> faults app = [] ->
            fst result = Done
            /\ dosesOf (c_id (row c)) (db (snd result))
               = withKeys (keygen (t_vaccinations (db app)))
                          (recordsToAdd (c_id (row c)) formRows bookNextVisit
                                        nextVisitDate nextVisitVaccines))).
Proof.
  intro result. split.
  - subst result. unfold saveImmunization.
    destruct (nth_error (children app) selectedChildIndex) as [c|]; [|auto].
    destruct (forallb rowValid formRows); simpl; [|auto].
    rewrite tryCatch_snd.
    set (P := fun d : Db => forall v, In v (rows (t_vaccinations d)) ->
                In v (rows (t_vaccinations (db app))) \/ savedShape v).
    match goal with
    | |- forall v, In v (rows (t_vaccinations (db (snd (?body app))))) -> _ =>
        assert (preserves P body) as Hpres
    end; [| apply Hpres; intros v Hv; now left].
    apply preserves_bind; [| intros _; apply preserves_bind;
                             [| intros _; apply preserves_bind;
                                [| intros vs; apply preserves_bind]]].
    + apply preserves_request. intros d a d' Hd Hop.
      injection Hop as _ <-. intros v Hv. simpl in Hv.
      apply filter_In in Hv as [Hv _]. now apply Hd.
    + apply preserves_promiseAll. intros p Hp.
      apply in_map_iff in Hp as (r & <- & Hr).
      apply preserves_request. intros d a d' Hd Hop.
      injection Hop as _ <-. intros v Hv. simpl in Hv.
      apply in_app_or in Hv as [Hv | [<- | []]]; [now apply Hd|].
      right. apply savedShape_setId. exact (recordsToAdd_shape _ _ _ _ _ _ Hr).
    + apply preserves_request. intros d a d' Hd Hop.
      injection Hop as _ <-. exact Hd.
    + intros app1 H1. exact H1.
    + intros _. apply preserves_request. intros d a d' Hd Hop.
      injection Hop as _ <-. exact Hd.
  - intros c Hc. split.
    + apply Forall_forall. intros v Hv. exact (recordsToAdd_shape _ _ _ _ _ _ Hv).
    + intros Hvalid Hf. subst result. unfold saveImmunization.
      rewrite Hc, Hvalid. simpl. unfold tryCatch, bind.
      rewrite (request_no_fault _ app _ _ Hf eq_refl).
      match goal with
      | |- context [promiseAll ?ps ?a] =>
          destruct (promiseAll_adds_no_fault
                      (recordsToAdd (c_id (row c)) formRows bookNextVisit
                                    nextVisitDate nextVisitVaccines) a eq_refl)
            as [ks Hks]
      end.
      rewrite Hks.
      erewrite request_no_fault; [|reflexivity|reflexivity].
      unfold setChildren.
      erewrite request_no_fault; [|reflexivity|reflexivity].
      simpl. split; [reflexivity|].
      unfold dosesOf. simpl.
      apply filter_app_none.
      * apply filter_negb_filter with (f := fun v => childId v =? c_id (row c)).
      * apply withKeys_childId. intros v Hv.
        exact (recordsToAdd_childId _ _ _ _ _ _ Hv).
Qed.

Lemma saved_records_have_shape_witness :
  Forall savedShape
         (recordsToAdd 1 [mkFormRow "BCG at Birth" "2024-01-16" "B12" "Clinic" "ok";
                          mkFormRow "OPV0 at Birth" "" "" "" ""]
                       true "2024-02-27" ["OPV1 at 6 weeks"]).
Proof.
  exact (proj1 (proj2 (saved_records_have_shape
                         0 [mkFormRow "BCG at Birth" "2024-01-16" "B12" "Clinic" "ok";
                            mkFormRow "OPV0 at Birth" "" "" "" ""]
                         true "2024-02-27" ["OPV1 at 6 weeks"] noon_2024_05_10
                         (sampleApp []))
                      (mkChild sampleRow [sampleDose]) eq_refl)).
Defined.

(** The whole effect of a valid save whose requests are all served. *)
Lemma saveImmunization_no_fault
    (idx : nat) (formRows : list FormRow) (book : bool) (date : string)
    (picked : list string) (today : Z) (app : App) (c : Child) :
  nth_error (children app) idx = Some c ->
  forallb rowValid formRows = true ->
  faults app = [] ->
  let cid := c_id (row c) in
  let recs := withKeys (keygen (t_vaccinations (db app)))
                       (recordsToAdd cid formRows book date picked) in
  let c' := updateDefaulterStatus (setVaccinations c recs) today in
  saveImmunization idx formRows book date picked today app
  = (Done,
     mkApp (mkDb (mkTable (map (fun r => if c_id r =? cid
                                         then setRowDefaulter r (isDefaulter (row c'))
                                         else r)
                               (rows (t_children (db app))))
                          (keygen (t_children (db app))))
                 (mkTable (filter (fun v => negb (childId v =? cid))
                                  (rows (t_vaccinations (db app))) ++ recs)%list
                          (keygen (t_vaccinations (db app))
                           + Z.of_nat (List.length
                                         (recordsToAdd cid formRows book date picked))))
                 (t_facility (db app)))
           (setNth idx c' (children app))
           []).
Proof.
  intros Hc Hvalid Hf cid recs c'. subst c' recs.
  unfold saveImmunization. rewrite Hc, Hvalid. simpl negb. cbv iota.
  fold cid. unfold tryCatch, bind.
  rewrite (request_no_fault _ app _ _ Hf eq_refl).
  match goal with
  | |- context [promiseAll ?ps ?a] =>
      destruct (promiseAll_adds_no_fault
                  (recordsToAdd cid formRows book date picked) a eq_refl)
        as [ks Hks]
  end.
  rewrite Hks.
  erewrite request_no_fault; [|reflexivity|reflexivity].
  cbn [db children t_vaccinations t_children t_facility rows keygen].
  assert (filter (fun v => childId v =? cid)
                 (filter (fun v => negb (childId v =? cid))
                         (rows (t_vaccinations (db app)))
                  ++ withKeys (keygen (t_vaccinations (db app)))
                              (recordsToAdd cid formRows book date picked))%list
          = withKeys (keygen (t_vaccinations (db app)))
                     (recordsToAdd cid formRows book date picked)) as Hread.
  { apply filter_app_none.
    - apply filter_negb_filter with (f := fun v => childId v =? cid).
    - apply withKeys_childId. intros v Hv.
      exact (recordsToAdd_childId _ _ _ _ _ _ Hv). }
  rewrite Hread. unfold setChildren.
  erewrite request_no_fault; [|reflexivity|reflexivity].
  reflexivity.
Qed.

(* ------------------------------------------------------------------ *)
(** ** The defaulter flag where it is computed *)
(* ------------------------------------------------------------------ *)







(* ------------------------------------------------------------------ *)
(** ** The save path is not one transaction *)
(* ------------------------------------------------------------------ *)

(** C2: the child has one recorded dose and a form with two given doses is
    saved.  When the delete is served and the first add is rejected, the
    handler ends in its [catch] block and the child is left with the second
    submitted dose only: neither the prior set nor the submitted one.  When
    both adds are rejected the child is left without any dose. *)
Theorem saveImmunization_is_not_atomic :
  let formRows := [mkFormRow "BCG at Birth" "2024-01-16" "B12" "Clinic" "ok";
                   mkFormRow "OPV0 at Birth" "2024-01-16" "B13" "Clinic" "ok"] in
  let save := saveImmunization 0 formRows false "" [] noon_2024_05_10 in
  dosesOf 1 (db (sampleApp [])) = [sampleDose]
  /\ fst (save (sampleApp [false; true])) = Caught
  /\ dosesOf 1 (db (snd (save (sampleApp [false; true]))))
     = [mkVaccination 2 1 "OPV0 at Birth" "2024-01-16" "B13" "Clinic" "ok" ""
                      completed]
  /\ fst (save (sampleApp [false; true; true])) = Caught
  /\ dosesOf 1 (db (snd (save (sampleApp [false; true; true])))) = [].
Proof.
  repeat split; reflexivity.
Qed.

(* ------------------------------------------------------------------ *)
(** ** Restore *)
(* ------------------------------------------------------------------ *)

Lemma bulkAddTo_rows {A} (key : A -> Z) (t t' : Table A) (rs : list A) :
  bulkAddTo key t rs = Some t' -> rows t' = (rows t ++ rs)%list.
Proof.
  unfold bulkAddTo. destruct (hasDuplicate (map key (rows t ++ rs))); [discriminate|].
  intro H. injection H as <-. reflexivity.
Qed.

(** The committed effect of the restore transaction on the three tables. *)
Lemma restoreTransaction_Fulfilled (data : Backup) (cs : list ChildRow)
    (vs : list Vaccination) (app app1 : App) (u : unit) :
  b_children data = Some cs -> b_vaccinations data = Some vs ->
  restoreTransaction data app = (Fulfilled u, app1) ->
  rows (t_children (db app1)) = cs
  /\ rows (t_vaccinations (db app1)) = vs
  /\ rows (t_facility (db app1))
     = match b_facility data with Some fs => fs | None => [] end.
Proof.
  intros Hc Hv. unfold restoreTransaction, transaction.
  rewrite Hc, Hv. simpl whenSome.
  match goal with |- context [match ?body app with _ => _ end] =>
    destruct (body app) as [[u'|] app'] eqn:E end; [|discriminate].
  intro H. injection H as _ <-.
  apply bind_Fulfilled in E as (a1 & s1 & E1 & E).
  apply bind_Fulfilled in E as (a2 & s2 & E2 & E).
  apply bind_Fulfilled in E as (a3 & s3 & E3 & E).
  apply bind_Fulfilled in E as (a4 & s4 & E4 & E).
  apply bind_Fulfilled in E as (a5 & s5 & E5 & E).
  apply request_Fulfilled in E1 as [E1 _]. injection E1 as _ E1.
  apply request_Fulfilled in E2 as [E2 _]. injection E2 as _ E2.
  apply request_Fulfilled in E3 as [E3 _]. injection E3 as _ E3.
  apply request_Fulfilled in E4 as [E4 _]. unfold childrenBulkAdd in E4.
  apply request_Fulfilled in E5 as [E5 _]. unfold vaccinationsBulkAdd in E5.
  destruct s1 as [d1 ? ?], s2 as [d2 ? ?], s3 as [d3 ? ?],
           s4 as [d4 ? ?], s5 as [d5 ? ?], app' as [d6 ? ?].
  simpl in *. subst d1 d2 d3. simpl in *.
  destruct (bulkAddTo c_id _ cs) as [tc|] eqn:B4; [|discriminate].
  injection E4 as _ E4. apply bulkAddTo_rows in B4. subst d4. simpl in *.
  destruct (bulkAddTo v_id _ vs) as [tv|] eqn:B5; [|discriminate].
  injection E5 as _ E5. apply bulkAddTo_rows in B5. subst d5. simpl in *.
  destruct (b_facility data) as [fs|]; simpl in E.
  - apply request_Fulfilled in E as [E _]. unfold facilityBulkAdd in E.
    simpl in E.
    destruct (bulkAddTo f_id _ fs) as [tf|] eqn:B6; [|discriminate].
    injection E as _ E. apply bulkAddTo_rows in B6. subst d6. simpl in *. auto.
  - injection E as _ <- _ _. simpl. auto.
Qed.

Lemma bulkAddTo_empty {A} (key : A -> Z) (k : Z) (rs : list A) :
  hasDuplicate (map key rs) = false ->
  bulkAddTo key (mkTable [] k) rs
  = Some (mkTable rs (fold_left Z.max (map key rs) k)).
Proof.
  intro H. unfold bulkAddTo. simpl. now rewrite H.
Qed.

(** C8: a backup document without the [children] or the [vaccinations]
    collection ends in the format error with the whole state (tables, array
    and pending requests) untouched.  With both collections present the
    database after [restore] is either the database before it or holds in
    its three tables exactly the collections of the document (an absent
    [facility] collection leaving that table empty), whichever requests of
    the transaction are rejected; and when the user confirms, no request is
    rejected and no key is given twice, the restore is done. *)
Theorem restore_is_all_or_nothing (data : Backup) (confirmed : bool) (app : App) :
  let result := restore data confirmed app in
  (b_children data = None \/ b_vaccinations data = None ->
   result = (Caught, app))
  /\ (forall cs vs,
        b_children data = Some cs -> b_vaccinations data = Some vs ->
        (fst result <> Done /\ db (snd result) = db app)
        \/ (fst result = Done
            /\ rows (t_children (db (snd result))) = cs
            /\ rows (t_vaccinations (db (snd result))) = vs
            /\ rows (t_facility (db (snd result)))
               = match b_facility data with Some fs => fs | None => [] end))
  /\ (forall cs vs,
        b_children data = Some cs -> b_vaccinations data = Some vs ->
        confirmed = true -> faults app = [] ->
        hasDuplicate (map c_id cs) = false ->
        hasDuplicate (map v_id vs) = false ->
        (forall fs, b_facility data = Some fs -> hasDuplicate (map f_id fs) = false) ->
        fst result = Done).
Proof.
  intro result. subst result. split; [|split].
  - unfold restore. intros [H | H]; rewrite H; [reflexivity|].
    destruct (b_children data); reflexivity.
  - intros cs vs Hc Hv. unfold restore. rewrite Hc, Hv.
    destruct confirmed; simpl; [|left; split; [discriminate | reflexivity]].
    unfold tryCatch.
    destruct (restoreTransaction data app) as [[u|] app1] eqn:E; simpl.
    + right. split; [reflexivity|].
      exact (restoreTransaction_Fulfilled data cs vs app app1 u Hc Hv E).
    + left. split; [discriminate|].
      unfold restoreTransaction, transaction in E.
      match type of E with context [match ?body app with _ => _ end] =>
        destruct (body app) as [[u'|] app'] end; [discriminate|].
      injection E as <-. reflexivity.
  - intros cs vs Hc Hv -> Hf Hdc Hdv Hdf.
    unfold restore. rewrite Hc, Hv. simpl.
    unfold tryCatch, restoreTransaction, transaction, bind.
    rewrite Hc, Hv. simpl whenSome.
    rewrite (request_no_fault childrenClear app _ _ Hf eq_refl).
    erewrite request_no_fault; [|reflexivity|reflexivity].
    erewrite request_no_fault; [|reflexivity|reflexivity].
    erewrite request_no_fault;
      [|reflexivity
       |unfold childrenBulkAdd; simpl; rewrite (bulkAddTo_empty c_id _ cs Hdc);
        reflexivity].
    erewrite request_no_fault;
      [|reflexivity
       |unfold vaccinationsBulkAdd; simpl; rewrite (bulkAddTo_empty v_id _ vs Hdv);
        reflexivity].
    destruct (b_facility data) as [fs|]; simpl; [|reflexivity].
    erewrite request_no_fault;
      [reflexivity
      |reflexivity
      |unfold facilityBulkAdd; simpl;
       rewrite (bulkAddTo_empty f_id _ fs (Hdf fs eq_refl)); reflexivity].
Qed.

Lemma restore_is_all_or_nothing_witness :
  restore (mkBackup (Some [sampleRow]) None None None) true (sampleApp [])
  = (Caught, sampleApp []).
Proof.
  apply (proj1 (restore_is_all_or_nothing
                  (mkBackup (Some [sampleRow]) None None None) true (sampleApp []))).
  right. reflexivity.
Defined.

(* ------------------------------------------------------------------ *)
(** ** Registration numbers *)
(* ------------------------------------------------------------------ *)

Lemma string_length_append (s t : string) :
  String.length (s ++ t) = (String.length s + String.length t)%nat.
Proof.
  induction s as [|c s IH]; simpl; [reflexivity | now rewrite IH].
Qed.

Lemma string_app_inv_tail (t s1 s2 : string) : s1 ++ t = s2 ++ t -> s1 = s2.
Proof.
  revert s2. induction s1 as [|c s1 IH]; intros [|c2 s2] H; simpl in H.
  - reflexivity.
  - apply (f_equal String.length) in H. simpl in H.
    rewrite string_length_append in H. lia.
  - apply (f_equal String.length) in H. simpl in H.
    rewrite string_length_append in H. lia.
  - injection H as -> H. f_equal. now apply IH.
Qed.

Lemma String_of_nat_NilEmpty (n : nat) :
  String_of_nat n = NilEmpty.string_of_uint (Nat.to_uint n).
Proof.
  unfold String_of_nat, NilZero.string_of_uint.
  destruct (Nat.to_uint n) eqn:E; try reflexivity.
  pose proof (DecimalFacts.unorm_nonnil (Nat.to_uint n)) as Hn.
  rewrite <- DecimalNat.Unsigned.to_of, DecimalNat.Unsigned.of_to in Hn.
  congruence.
Qed.

Lemma countOfString_zeros (k : nat) (s : string) :
  countOfString (repeatChar "0" k ++ s) = countOfString s.
Proof.
  induction k as [|k IH]; simpl; [reflexivity|].
  rewrite <- IH. unfold countOfString. simpl.
  destruct (NilEmpty.uint_of_string (repeatChar "0" k ++ s)); reflexivity.
Qed.

Lemma countOfString_padStart (n : nat) :
  countOfString (padStart (String_of_nat n) 3 "0") = n.
Proof.
  unfold padStart. rewrite countOfString_zeros, String_of_nat_NilEmpty.
  unfold countOfString. rewrite NilEmpty.usu. apply DecimalNat.Unsigned.of_to.
Qed.

(** Different counts give different registration numbers. *)
Lemma formatRegNo_inj (year : Z) (a b : nat) :
  formatRegNo a year = formatRegNo b year -> a = b.
Proof.
  unfold formatRegNo. intro H. apply string_app_inv_tail in H.
  rewrite <- (countOfString_padStart a), <- (countOfString_padStart b).
  now rewrite H.
Qed.

Lemma regNoTaken_In (cs : list Child) (r : string) :
  regNoTaken cs r = true <-> In r (map childRegNo cs).
Proof.
  unfold regNoTaken. rewrite existsb_exists, in_map_iff. split.
  - intros (c & Hin & E). apply String.eqb_eq in E. now exists c.
  - intros (c & E & Hin). exists c. split; [exact Hin|].
    apply String.eqb_eq. exact E.
Qed.

Lemma NoDup_map_formatRegNo (year : Z) (start len : nat) :
  NoDup (map (fun m => formatRegNo m year) (seq start len)).
Proof.
  revert start. induction len as [|len IH]; intro start; simpl; constructor.
  - intro Hin. apply in_map_iff in Hin as (m & E & Hm).
    apply formatRegNo_inj in E. apply in_seq in Hm. lia.
  - apply IH.
Qed.

(** What the loop returns, when it returns. *)
Lemma regNoLoop_Some (cs : list Child) (year : Z) (fuel : nat) :
  forall count r,
    regNoLoop fuel cs year count = Some r ->
    exists n, (count <= n < count + fuel)%nat
              /\ r = formatRegNo n year
              /\ regNoTaken cs r = false
              /\ forall m, (count <= m < n)%nat ->
                           regNoTaken cs (formatRegNo m year) = true.
Proof.
  induction fuel as [|fuel IH]; intros count r H; simpl in H; [discriminate|].
  destruct (regNoTaken cs (formatRegNo count year)) eqn:E.
  - destruct (IH _ _ H) as (n & Hn & Hr & Hfree & Hbelow).
    exists n. split; [lia|]. split; [exact Hr|]. split; [exact Hfree|].
    intros m Hm. destruct (Nat.eq_dec m count) as [-> | Hne]; [exact E|].
    apply Hbelow. lia.
  - injection H as <-. exists count.
    split; [lia|]. split; [reflexivity|]. split; [exact E|].
    intros m Hm. lia.
Qed.

(** The loop runs out of tests only if all its candidates are taken. *)
Lemma regNoLoop_None (cs : list Child) (year : Z) (fuel : nat) :
  forall count,
    regNoLoop fuel cs year count = None ->
    forall m, In m (seq count fuel) -> regNoTaken cs (formatRegNo m year) = true.
Proof.
  induction fuel as [|fuel IH]; intros count H m Hm; simpl in *; [destruct Hm|].
  destruct (regNoTaken cs (formatRegNo count year)) eqn:E; [|discriminate].
  destruct Hm as [<- | Hm]; [exact E | exact (IH _ H m Hm)].
Qed.

(** The loop of [generateRegNo] ends: among one more candidate than there
    are children, one is free. *)
Lemma regNoLoop_total (cs : list Child) (year : Z) (count : nat) :
  regNoLoop (S (List.length cs)) cs year count <> None.
Proof.
  intro H.
  pose proof (regNoLoop_None cs year _ _ H) as Hall.
  assert (incl (map (fun m => formatRegNo m year) (seq count (S (List.length cs))))
               (map childRegNo cs)) as Hincl.
  { intros r Hr. apply in_map_iff in Hr as (m & <- & Hm).
    apply regNoTaken_In. now apply Hall. }
  apply NoDup_incl_length in Hincl; [|apply NoDup_map_formatRegNo].
  rewrite !length_map, length_seq in Hincl. lia.
Qed.

Lemma threeDigits_padStart (n : nat) :
  (n <= 999)%nat -> threeDigits (padStart (String_of_nat n) 3 "0") = true.
Proof.
  intro Hn.
  assert (forallb (fun k => threeDigits (padStart (String_of_nat k) 3 "0"))
                  (seq 0 1000) = true) as Hall by (vm_compute; reflexivity).
  rewrite forallb_forall in Hall. apply Hall. apply in_seq. lia.
Qed.

Lemma fourDigits_year (y : Z) :
  1000 <= y <= 9999 -> fourDigits (String_of_Z y) = true.
Proof.
  intro Hy.
  assert (forallb (fun k => fourDigits (String_of_Z (1000 + Z.of_nat k)))
                  (seq 0 (Z.to_nat 9000)) = true) as Hall
    by (vm_compute; reflexivity).
  rewrite forallb_forall in Hall.
  replace y with (1000 + Z.of_nat (Z.to_nat (y - 1000))) by lia.
  apply Hall. apply in_seq. lia.
Qed.

Lemma matches_of_parts (a b : string) :
  threeDigits a = true -> fourDigits b = true ->
  matchesRegNoPattern (a ++ "/" ++ b) = true.
Proof.
  destruct a as [|a1 [|a2 [|a3 [|a4 a]]]]; try discriminate.
  destruct b as [|b1 [|b2 [|b3 [|b4 [|b5 b]]]]]; try discriminate.
  simpl. intros Ha Hb.
  apply andb_true_iff in Ha as [Ha Ha3]. apply andb_true_iff in Ha as [Ha1 Ha2].
  apply andb_true_iff in Hb as [Hb Hb4]. apply andb_true_iff in Hb as [Hb Hb3].
  apply andb_true_iff in Hb as [Hb1 Hb2].
  now rewrite Ha1, Ha2, Ha3, Hb1, Hb2, Hb3, Hb4.
Qed.

(** C5, as stated: in a register of 999 children of the year the next
    number is [1000/2024], which is not of the form [^\\d{3}/\\d{4}$]. *)
Lemma thousandth_child_has_four_digit_sequence :
  generateRegNo (registerOf 999) noon_2024_05_10 = Some "1000/2024"
  /\ matchesRegNoPattern "1000/2024" = false.
Proof.
  split; vm_compute; reflexivity.
Qed.

Lemma generateRegNo_Some (cs : list Child) (now : Z) (r : string) :
  generateRegNo cs now = Some r ->
  exists n, r = formatRegNo n (getFullYear now)
            /\ (initialCount cs now <= n <= initialCount cs now + List.length cs)%nat
            /\ (forall m, (initialCount cs now <= m < n)%nat ->
                  In (formatRegNo m (getFullYear now)) (map childRegNo cs))
            /\ ~ In r (map childRegNo cs).
Proof.
  unfold generateRegNo. intro H.
  apply regNoLoop_Some in H as (n & Hn & Hr & Hfree & Hbelow).
  exists n. split; [exact Hr|]. split; [lia|]. split.
  - intros m Hm. apply regNoTaken_In. now apply Hbelow.
  - intro Hin. apply regNoTaken_In in Hin. congruence.
Qed.

(** C5, amended: [generateRegNo] always returns.  Its result is the
    sequence number, zero-padded to at least three digits, a slash and the
    calendar year of the clock reading; the sequence number is the first
    one, counting up from the number of children created in that year plus
    one, whose registration number no child of the array holds, so the
    result differs from every existing registration number.  It matches
    [^\\d{3}/\\d{4}$] whenever the sequence number is at most 999 (and the
    year has four digits).  A registration that succeeds puts a child with
    such a number in front of the array and stores a row with such a
    number, keeping the numbers of the array pairwise distinct. *)
Theorem regNo_is_first_free_number (cs : list Child) (now : Z) :
  let year := getFullYear now in
  let start := initialCount cs now in
  start = (List.length (filter (createdInYear now year) cs) + 1)%nat
  /\ (exists n,
        generateRegNo cs now = Some (formatRegNo n year)
        /\ (start <= n <= start + List.length cs)%nat
        /\ (forall m, (start <= m < n)%nat ->
              In (formatRegNo m year) (map childRegNo cs))
        /\ ~ In (formatRegNo n year) (map childRegNo cs)
        /\ formatRegNo n year
           = padStart (String_of_nat n) 3 "0" ++ "/" ++ String_of_Z year
        /\ ((n <= 999)%nat -> 1000 <= year <= 9999 ->
            matchesRegNoPattern (formatRegNo n year) = true))
  /\ (forall form clock app app',
        children app = cs ->
        registerChild form clock app = (Done, app') ->
        exists new stored,
          children app' = new :: cs
          /\ vaccinations new = []
          /\ generateRegNo cs (at_regNo2 clock) = Some (childRegNo new)
          /\ rows (t_children (db app'))
             = (rows (t_children (db app)) ++ [stored])%list
          /\ generateRegNo cs (at_regNo1 clock) = Some (regNo stored)
          /\ ~ In (childRegNo new) (map childRegNo cs)
          /\ (NoDup (map childRegNo cs) ->
              NoDup (map childRegNo (children app')))).
Proof.
  intros year start. split; [reflexivity|]. split.
  - destruct (generateRegNo cs now) as [r|] eqn:E.
    + destruct (generateRegNo_Some cs now r E) as (n & -> & Hn & Hbelow & Hfree).
      exists n. fold year in Hbelow, Hfree. fold start in Hn, Hbelow.
      split; [reflexivity|]. split; [exact Hn|]. split; [exact Hbelow|].
      split; [exact Hfree|]. split; [reflexivity|].
      intros Hsmall Hyear. unfold formatRegNo. apply matches_of_parts.
      * now apply threeDigits_padStart.
      * now apply fourDigits_year.
    + exfalso. exact (regNoLoop_total cs _ _ E).
  - intros form clock app app' Hcs. unfold registerChild. rewrite Hcs.
    destruct (existsb _ cs); [discriminate|].
    destruct (date_gt _ _); [discriminate|].
    destruct (generateRegNo cs (at_regNo1 clock)) as [r1|] eqn:E1; [|discriminate].
    destruct (generateRegNo cs (at_regNo2 clock)) as [r2|] eqn:E2; [|discriminate].
    unfold tryCatch, bind, request, setChildren.
    assert (~ In r2 (map childRegNo cs)) as Hfree.
    { destruct (generateRegNo_Some cs _ r2 E2) as (n & _ & _ & _ & H). exact H. }
    destruct (faults app) as [|[|] rest]; simpl; try discriminate;
      intro H; injection H as <-; simpl; rewrite Hcs;
      eexists; eexists;
      (split; [reflexivity|]); (split; [reflexivity|]);
      (split; [reflexivity|]); (split; [reflexivity|]);
      (split; [reflexivity|]); (split; [exact Hfree|]);
      intro Hnd; constructor; assumption.
Qed.

Lemma regNo_is_first_free_number_witness :
  let form := mkRegistrationForm " Kofi Boateng " "2024-03-01" "Male" "Tema" "" in
  let clock := mkReadings noon_2024_05_10 noon_2024_05_10 noon_2024_05_10
                          noon_2024_05_10 noon_2024_05_10 in
  let app' := snd (registerChild form clock (sampleApp [])) in
  registerChild form clock (sampleApp []) = (Done, app')
  /\ exists new stored,
       children app' = new :: children (sampleApp [])
       /\ generateRegNo (children (sampleApp [])) (at_regNo2 clock)
          = Some (childRegNo new)
       /\ generateRegNo (children (sampleApp [])) (at_regNo1 clock)
          = Some (regNo stored).
Proof.
  intros form clock app'.
  assert (registerChild form clock (sampleApp []) = (Done, app')) as Hrun
    by (vm_compute; reflexivity).
  split; [exact Hrun|].
  destruct (proj2 (proj2 (regNo_is_first_free_number
                            (children (sampleApp [])) noon_2024_05_10))
                  form clock (sampleApp []) app' eq_refl Hrun)
    as (new & stored & Hc & _ & Hnew & _ & Hstored & _).
  exists new, stored. split; [exact Hc|]. split; [exact Hnew | exact Hstored].
Defined.

(* ================================================================== *)
(** * Further properties of the script *)
(* ================================================================== *)

(* ------------------------------------------------------------------ *)
(** ** Rows of the summary tables *)
(* ------------------------------------------------------------------ *)

Lemma fold_earlier_In (rest : list Vaccination) :
  forall acc, In (fold_left earlier rest acc) (acc :: rest).
Proof.
  induction rest as [|cur rest IH]; intro acc; simpl.
  - now left.
  - assert (earlier acc cur = acc \/ earlier acc cur = cur) as Hpick
      by (unfold earlier; destruct (date_lt _ _); auto).
    destruct (IH (earlier acc cur)) as [H | H].
    + destruct Hpick as [E | E]; rewrite E in H at 1; [left | right; left]; exact H.
    + right. right. exact H.
Qed.

Lemma featured_In (l : list Vaccination) (p : Vaccination) :
  featured l = Some p -> In p l.
Proof.
  destruct l as [|first rest]; simpl; [discriminate|].
  intro H. injection H as <-. apply fold_earlier_In.
Qed.

Lemma buildTable_entry (q : Vaccination -> bool) (daysOf : Vaccination -> JSNum)
    (cs : list Child) (e : Entry) :
  In e (buildTable q daysOf cs) ->
  In (child e) cs
  /\ In (vaccination e) (vaccinations (child e))
  /\ q (vaccination e) = true
  /\ days e = daysOf (vaccination e).
Proof.
  intro He. unfold buildTable in He.
  destruct (buildTable_inv q daysOf cs) as (_ & _ & Hent & _).
  destruct (Hent e He) as (Hc & Hf & Hd).
  apply featured_In in Hf. apply filter_In in Hf as [Hin Hq]. auto.
Qed.

(** X1: every row of a summary table belongs to a child of the array and
    features one of its doses that passes the filter of the table; the
    number of days it shows is at least 0 in the defaulters table, from 1 to
    7 in the due-soon table and from 8 to 30 in the upcoming table. *)
Theorem table_rows_show_days_of_their_window
    (cs : list Child) (today : Z) (b : Bucket) (e : Entry)
    (He : In e (tableOf b cs today)) :
  In (child e) cs
  /\ In (vaccination e) (vaccinations (child e))
  /\ booked (vaccination e) = true
  /\ exists d, days e = Some d
               /\ match b with
                  | Overdue => 0 <= d /\ visitTime (vaccination e) < today
                  | DueSoon => 1 <= d <= 7 /\ today < visitTime (vaccination e)
                  | Upcoming => 8 <= d <= 30 /\ today < visitTime (vaccination e)
                  end.
Proof.
  assert (exists daysOf,
            tableOf b cs today = buildTable (qualifies b today) daysOf cs
            /\ daysOf = match b with
                        | Overdue => daysOverdueOf today
                        | _ => daysUntilOf today
                        end) as (daysOf & Ht & Hd)
    by (destruct b; eexists; split; reflexivity).
  rewrite Ht in He.
  destruct (buildTable_entry _ _ _ _ He) as (Hc & Hv & Hq & Hdays).
  destruct (qualifies_valid b today _ Hq) as [Hb Hp].
  split; [exact Hc|]. split; [exact Hv|]. split; [exact Hb|].
  rewrite Hdays, Hd. clear Hdays Hd Ht He.
  pose proof (ceil_bounds (visitTime (vaccination e)) today) as Hceil.
  pose proof (floor_bounds today (visitTime (vaccination e))) as Hfloor.
  pose proof (ceil_pos_iff (visitTime (vaccination e)) today) as Hpos.
  assert (0 < msPerDay) as HD by reflexivity.
  destruct b; simpl in Hq;
    unfold isMissed, isDueSoon, isUpcoming in Hq; rewrite Hb, Hp in Hq;
    simpl in Hq.
  - apply Z.ltb_lt in Hq. unfold daysOverdueOf. rewrite Hp. simpl.
    eexists. split; [reflexivity|]. split; [|exact Hq].
    apply Z.div_pos; lia.
  - apply andb_true_iff in Hq as [H0 H7].
    apply Z.ltb_lt in H0. apply Z.leb_le in H7.
    unfold daysUntilOf. rewrite Hp. simpl.
    eexists. split; [reflexivity|]. split; [lia | now apply Hpos].
  - apply andb_true_iff in Hq as [H0 H7].
    apply Z.ltb_lt in H0. apply Z.leb_le in H7.
    unfold daysUntilOf. rewrite Hp. simpl.
    eexists. split; [reflexivity|]. split; [lia | apply Hpos; lia].
Qed.

Lemma table_rows_show_days_of_their_window_witness :
  let d1 := bookedDose 1 "OPV1 at 6 weeks" "2024-05-01" in
  let d2 := bookedDose 2 "OPV2 at 10 weeks" "2024-05-13" in
  let c := mkChild sampleRow [d1; d2] in
  let e := mkEntry c d2 (Some 3) in
  In e (tableOf DueSoon [c] noon_2024_05_10)
  /\ booked (vaccination e) = true.
Proof.
  intros d1 d2 c e.
  assert (In e (tableOf DueSoon [c] noon_2024_05_10)) as Hin
    by (vm_compute; left; reflexivity).
  split; [exact Hin|].
  exact (proj1 (proj2 (proj2 (table_rows_show_days_of_their_window
                                [c] noon_2024_05_10 DueSoon e Hin)))).
Defined.

(** X2: when the registration numbers of the array are pairwise distinct,
    each summary table lists exactly the children that have a dose passing
    its filter, once each and in the order of the array. *)
Theorem tables_list_qualifying_children_in_order
    (cs : list Child) (today : Z) (b : Bucket)
    (Hnd : NoDup (map childRegNo cs)) :
  map child (tableOf b cs today)
  = filter (fun c => existsb (qualifies b today) (vaccinations c)) cs.
Proof.
  exact (tableOf_children cs today b Hnd).
Qed.

Lemma tables_list_qualifying_children_in_order_witness :
  let d1 := bookedDose 1 "OPV1 at 6 weeks" "2024-05-01" in
  let c := mkChild sampleRow [d1] in
  map child (tableOf Overdue [c] noon_2024_05_10)
  = filter (fun c => existsb (qualifies Overdue noon_2024_05_10) (vaccinations c)) [c].
Proof.
  intros d1 c.
  apply (tables_list_qualifying_children_in_order [c] noon_2024_05_10 Overdue).
  simpl. constructor; [intros [] | constructor].
Defined.

Lemma filter_length_le_imp {A} (f g : A -> bool) (l : list A) :
  (forall x, f x = true -> g x = true) ->
  (List.length (filter f l) <= List.length (filter g l))%nat.
Proof.
  intro H. induction l as [|x l IH]; simpl; [lia|].
  destruct (f x) eqn:Ef.
  - rewrite (H x Ef). simpl. lia.
  - destruct (g x); simpl; lia.
Qed.

(** X3: no counter of [updateStats] exceeds the number of children; and
    when the registration numbers of the array are pairwise distinct, the
    defaulter and upcoming counters are the numbers of rows of the
    defaulters and upcoming tables, and the due-soon table has at most as
    many rows as the due-soon counter says. *)
Theorem counters_agree_with_tables (cs : list Child) (today : Z) :
  let stats := updateStats cs today in
  totalChildren stats = List.length cs
  /\ (totalDefaulters stats <= totalChildren stats)%nat
  /\ (totalDueSoon stats <= totalChildren stats)%nat
  /\ (totalUpcoming stats <= totalChildren stats)%nat
  /\ (NoDup (map childRegNo cs) ->
      totalDefaulters stats = List.length (updateDefaultersTable cs today)
      /\ totalUpcoming stats = List.length (updateUpcomingTable cs today)
      /\ (List.length (updateDueSoonTable cs today) <= totalDueSoon stats)%nat).
Proof.
  intro stats. subst stats. unfold updateStats.
  rewrite fold_statsChild. simpl. rewrite !Nat.add_0_r.
  split; [reflexivity|].
  split; [apply filter_length_le|]. split; [apply filter_length_le|].
  split; [apply filter_length_le|].
  intro Hnd.
  pose proof (tableOf_children cs today Overdue Hnd) as HO.
  pose proof (tableOf_children cs today DueSoon Hnd) as HS.
  pose proof (tableOf_children cs today Upcoming Hnd) as HU.
  simpl in HO, HS, HU.
  apply (f_equal (@List.length Child)) in HO, HS, HU.
  rewrite length_map in HO, HS, HU. rewrite HO, HS, HU.
  split; [apply filter_ext_length; intro; apply childFlags_defaulter|].
  split; [apply filter_ext_length; intro; apply childFlags_upcoming|].
  apply filter_length_le_imp. intros c Hc. now apply childFlags_dueSoon.
Qed.

Lemma counters_agree_with_tables_witness :
  let d1 := bookedDose 1 "OPV1 at 6 weeks" "2024-05-01" in
  let c := mkChild sampleRow [d1] in
  totalDefaulters (updateStats [c] noon_2024_05_10)
  = List.length (updateDefaultersTable [c] noon_2024_05_10).
Proof.
  intros d1 c.
  apply (proj2 (proj2 (proj2 (proj2
           (counters_agree_with_tables [c] noon_2024_05_10))))).
  simpl. constructor; [intros [] | constructor].
Defined.

(* ------------------------------------------------------------------ *)
(** ** Status texts *)
(* ------------------------------------------------------------------ *)

(** X4: the CSV export and the records view give every vaccination the
    same status text; the text is "Completed" exactly for a dose with a
    date given, whatever its next visit; the row of the records view is red
    exactly for the doses the defaulters table counts as missed, and yellow
    for every dose the due-soon table counts. *)
Theorem status_texts_agree (today : Z) (v : Vaccination) :
  fst (viewStatus today v) = exportStatus today v
  /\ (exportStatus today v = "Completed" <-> dateGiven v <> "")
  /\ (snd (viewStatus today v) = "highlight-red" <-> isMissed today v = true)
  /\ (isDueSoon today v = true -> snd (viewStatus today v) = "highlight-yellow").
Proof.
  unfold viewStatus, exportStatus, isMissed, isDueSoon, booked.
  destruct (truthy (dateGiven v)) eqn:Eg; simpl.
  - apply truthy_true_iff in Eg.
    split; [reflexivity|]. split; [tauto|].
    rewrite andb_false_r.
    split; [split; discriminate | discriminate].
  - apply truthy_false_iff in Eg. rewrite andb_true_r.
    destruct (truthy (nextVisit v)) eqn:En; simpl.
    + destruct (date_lt (Date_parse (nextVisit v)) (Some today)) eqn:El; simpl.
      * split; [reflexivity|]. split; [split; [discriminate | congruence]|].
        split; [tauto|].
        destruct (Date_parse (nextVisit v)) as [nv|]; simpl in *; [|discriminate].
        apply Z.ltb_lt in El. intro H. apply andb_true_iff in H as [H _].
        apply Z.ltb_lt in H. apply (ceil_pos_iff nv today) in H. lia.
      * destruct (num_le (ceilDays (Date_parse (nextVisit v)) (Some today)) 7)
          eqn:E7; simpl.
        -- split; [reflexivity|]. split; [split; [discriminate | congruence]|].
           split; [split; discriminate | reflexivity].
        -- split; [reflexivity|]. split; [split; [discriminate | congruence]|].
           split; [split; discriminate|].
           rewrite andb_false_r. discriminate.
    + split; [reflexivity|]. split; [split; [discriminate | congruence]|].
      split; [split; discriminate | discriminate].
Qed.







(* ------------------------------------------------------------------ *)
(** ** Unsaved edits *)
(* ------------------------------------------------------------------ *)

Lemma getProp_setProp_same {A} (k : string) (a : A) (o : Obj A) :
  getProp k (setProp k a o) = Some a.
Proof.
  induction o as [|[k' a'] r IH]; simpl.
  - now rewrite String.eqb_refl.
  - destruct (k' =? k)%string eqn:E; simpl.
    + now rewrite String.eqb_refl.
    + now rewrite E.
Qed.

Lemma getProp_setProp_other {A} (k k' : string) (a : A) (o : Obj A) :
  k' <> k -> getProp k' (setProp k a o) = getProp k' o.
Proof.
  intro Hne. induction o as [|[k0 a0] r IH]; simpl.
  - apply String.eqb_neq in Hne. rewrite String.eqb_sym in Hne. now rewrite Hne.
  - destruct (k0 =? k)%string eqn:E; simpl.
    + apply String.eqb_eq in E. subst k0.
      apply String.eqb_neq in Hne. rewrite String.eqb_sym in Hne. now rewrite Hne.
    + destruct (k0 =? k')%string; [reflexivity | exact IH].
Qed.

Lemma getProp_deleteProp {A} (k : string) (o : Obj A) :
  getProp k (deleteProp k o) = None.
Proof.
  unfold deleteProp. induction o as [|[k' a'] r IH]; simpl; [reflexivity|].
  destruct (k' =? k)%string eqn:E; simpl; [exact IH|]. now rewrite E.
Qed.

Lemma getProp_In {A} (k : string) (a : A) (o : Obj A) :
  getProp k o = Some a -> In (k, a) o.
Proof.
  induction o as [|[k' a'] r IH]; simpl; [discriminate|].
  destruct (k' =? k)%string eqn:E.
  - apply String.eqb_eq in E. subst k'. intro H. injection H as ->. now left.
  - intro H. right. now apply IH.
Qed.

(** The vaccines offered for booking: the labels of the schedule without a
    given record, a booked record or an unsaved date. *)
Lemma availableVaccines_In (c : Child) (unsaved : Obj string) (label : string) :
  In label (availableVaccines c unsaved)
  <-> In label vaccinationSchedule
      /\ (forall v, In v (vaccinations c) -> vaccine v = label ->
                    dateGiven v = "" /\ nextVisit v = "")
      /\ (forall d, In (label, d) unsaved -> d = "").
Proof.
  unfold availableVaccines. rewrite filter_In, !andb_true_iff, !negb_true_iff.
  split.
  - intros (Hs & (Hg & Hb) & Hu). split; [exact Hs|]. split.
    + intros v Hv Hl.
      destruct (truthy (dateGiven v)) eqn:Eg.
      * assert (includes (map vaccine (filter (fun v => truthy (dateGiven v))
                                               (vaccinations c))) label = true) as H.
        { apply includes_In. apply in_map_iff. exists v. split; [exact Hl|].
          apply filter_In. auto. }
        congruence.
      * apply truthy_false_iff in Eg. split; [exact Eg|].
        destruct (truthy (nextVisit v)) eqn:En; [|now apply truthy_false_iff].
        assert (includes (map vaccine
                            (filter (fun v => truthy (nextVisit v)
                                              && negb (truthy (dateGiven v)))
                                    (vaccinations c))) label = true) as H.
        { apply includes_In. apply in_map_iff. exists v. split; [exact Hl|].
          apply filter_In. split; [exact Hv|]. rewrite En, Eg. reflexivity. }
        congruence.
    + intros d Hd. destruct (truthy d) eqn:Ed; [|now apply truthy_false_iff].
      assert (includes (map fst (filter (fun kv => truthy (snd kv)) unsaved)) label
              = true) as H.
      { apply includes_In. apply in_map_iff. exists (label, d). split; [reflexivity|].
        apply filter_In. auto. }
      congruence.
  - intros (Hs & Hrec & Hu). split; [exact Hs|]. split; [split|].
    + destruct (includes _ label) eqn:E; [|reflexivity].
      apply includes_In in E. apply in_map_iff in E as (v & Hl & Hv).
      apply filter_In in Hv as [Hv Hg]. apply truthy_true_iff in Hg.
      destruct (Hrec v Hv Hl) as [H _]. contradiction.
    + destruct (includes _ label) eqn:E; [|reflexivity].
      apply includes_In in E. apply in_map_iff in E as (v & Hl & Hv).
      apply filter_In in Hv as [Hv Hb]. apply andb_true_iff in Hb as [Hn _].
      apply truthy_true_iff in Hn.
      destruct (Hrec v Hv Hl) as [_ H]. contradiction.
    + destruct (includes _ label) eqn:E; [|reflexivity].
      apply includes_In in E. apply in_map_iff in E as ([k d] & Hl & Hkv).
      simpl in Hl. subst k. apply filter_In in Hkv as [Hkv Hd]. simpl in Hd.
      apply truthy_true_iff in Hd. elim Hd. now apply Hu.
Qed.

Lemma unsavedOf_track (value childKey label : string) (buf : Buffer) :
  getProp label (unsavedOf childKey (trackUnsavedDate value childKey label buf))
  = Some value.
Proof.
  unfold trackUnsavedDate, unsavedOf at 1.
  rewrite getProp_setProp_same. apply getProp_setProp_same.
Qed.

(** X6: once a date is typed for a vaccine of a child, the booking dialog
    of that child no longer offers the vaccine, and the buffers of children
    with another key are untouched; once the entry of the child is deleted
    (as a successful save does), the dialog offers exactly the labels of the
    schedule for which the child has no given and no booked record. *)
Theorem unsaved_date_blocks_booking
    (c : Child) (buf : Buffer) (value label : string) (Hvalue : value <> "") :
  let buf' := trackUnsavedDate value (childKeyOf c) label buf in
  ~ In label (openBookingModal c buf')
  /\ (forall otherKey, otherKey <> childKeyOf c ->
        unsavedOf otherKey buf' = unsavedOf otherKey buf)
  /\ (forall l, In l (openBookingModal c (deleteProp (childKeyOf c) buf'))
                <-> In l vaccinationSchedule
                    /\ forall v, In v (vaccinations c) -> vaccine v = l ->
                                 dateGiven v = "" /\ nextVisit v = "").
Proof.
  intro buf'. split; [|split].
  - unfold openBookingModal. intro Hin.
    apply availableVaccines_In in Hin as (_ & _ & Hu).
    apply Hvalue. apply Hu. apply getProp_In. apply unsavedOf_track.
  - intros otherKey Hne. subst buf'. unfold trackUnsavedDate, unsavedOf.
    rewrite getProp_setProp_other by exact Hne.
    destruct (getProp (childKeyOf c) buf); [reflexivity|].
    now rewrite getProp_setProp_other by exact Hne.
  - intro l. unfold openBookingModal, unsavedOf.
    rewrite getProp_deleteProp, availableVaccines_In.
    split; [tauto|]. intros [Hs Hrec]. split; [exact Hs|].
    split; [exact Hrec | intros d []].
Qed.

Lemma unsaved_date_blocks_booking_witness :
  ~ In "OPV0 at Birth"
       (openBookingModal (mkChild sampleRow [sampleDose])
          (trackUnsavedDate "2024-01-17" (childKeyOf (mkChild sampleRow [sampleDose]))
                            "OPV0 at Birth" [])).
Proof.
  assert ("2024-01-17" <> "") as Hvalue by discriminate.
  exact (proj1 (unsaved_date_blocks_booking (mkChild sampleRow [sampleDose]) []
                                            "2024-01-17" "OPV0 at Birth" Hvalue)).
Defined.

(* ------------------------------------------------------------------ *)
(** ** A save that succeeds *)
(* ------------------------------------------------------------------ *)

Lemma setNth_nth_error {A} (l : list A) :
  forall i x y, nth_error l i = Some y -> nth_error (setNth i x l) i = Some x.
Proof.
  induction l as [|a l IH]; intros [|i] x y H; simpl in *; try discriminate.
  - reflexivity.
  - exact (IH i x y H).
Qed.

Lemma withKeys_In (k : Z) (vs : list Vaccination) (x : Vaccination) :
  In x (withKeys k vs) -> exists v j, In v vs /\ x = setVaccinationId v j.
Proof.
  revert k. induction vs as [|v vs IH]; intros k Hx; simpl in Hx; [destruct Hx|].
  destruct Hx as [<- | Hx].
  - exists v, (k + 1). split; [now left | reflexivity].
  - destruct (IH _ Hx) as (w & j & Hw & E). exists w, j. split; [now right | exact E].
Qed.

Lemma withKeys_of_In (vs : list Vaccination) (v : Vaccination) :
  forall k, In v vs -> exists j, In (setVaccinationId v j) (withKeys k vs).
Proof.
  induction vs as [|w vs IH]; intros k Hv; [destruct Hv|].
  destruct Hv as [-> | Hv]; simpl.
  - exists (k + 1). now left.
  - destruct (IH (k + 1) Hv) as [j Hj]. exists j. now right.
Qed.

(** X8: after a valid save whose requests are all served, the element of
    the array holds exactly the dose records the table holds for the child,
    the defaulter flag of the element and of the stored row are the same,
    and this flag is true exactly when one of the saved doses is counted as
    missed by the defaulters table; the doses of other children are as
    before. *)
Theorem save_refreshes_the_cached_child
    (idx : nat) (formRows : list FormRow) (book : bool) (date : string)
    (picked : list string) (today : Z) (app : App) (c : Child)
    (Hc : nth_error (children app) idx = Some c)
    (Hvalid : forallb rowValid formRows = true)
    (Hf : faults app = []) :
  let result := saveImmunization idx formRows book date picked today app in
  fst result = Done
  /\ exists c',
       nth_error (children (snd result)) idx = Some c'
       /\ vaccinations c' = dosesOf (c_id (row c)) (db (snd result))
       /\ isDefaulter (row c') = existsb (isMissed today) (vaccinations c')
       /\ (forall r, In r (rows (t_children (db (snd result)))) ->
                     c_id r = c_id (row c) ->
                     isDefaulter r = isDefaulter (row c'))
       /\ (forall other, other <> c_id (row c) ->
                         dosesOf other (db (snd result)) = dosesOf other (db app)).
Proof.
  intro result. subst result.
  rewrite (saveImmunization_no_fault idx formRows book date picked today app c
                                     Hc Hvalid Hf).
  cbn [fst snd]. split; [reflexivity|].
  eexists. split; [exact (setNth_nth_error _ _ _ _ Hc)|].
  cbn [db children t_vaccinations t_children rows].
  split; [|split; [|split]].
  - unfold dosesOf. cbn [t_vaccinations rows].
    symmetry. apply filter_app_none.
    + apply filter_negb_filter with (f := fun v => childId v =? c_id (row c)).
    + apply withKeys_childId. intros v Hv.
      exact (recordsToAdd_childId _ _ _ _ _ _ Hv).
  - match goal with
    | |- isDefaulter (row (updateDefaulterStatus ?x ?t)) = _ =>
        rewrite (updateDefaulterStatus_on_saved_doses x t); [reflexivity|]
    end.
    cbn [setVaccinations vaccinations]. intros v Hv Hg. apply withKeys_In in Hv as (w & j & Hw & ->).
    apply recordsToAdd_shape in Hw. destruct Hw as (H1 & _ & _).
    exact (proj2 (H1 Hg)).
  - intros r Hr Hid. apply in_map_iff in Hr as (r0 & <- & _).
    destruct (c_id r0 =? c_id (row c)) eqn:E; [reflexivity|].
    apply Z.eqb_neq in E. simpl in Hid. contradiction.
  - intros other Hne. unfold dosesOf. cbn [t_vaccinations rows].
    rewrite filter_app.
    assert (filter (fun v => childId v =? other)
                   (withKeys (keygen (t_vaccinations (db app)))
                             (recordsToAdd (c_id (row c)) formRows book date picked))
            = []) as ->.
    { match goal with |- filter ?f ?l = [] =>
        destruct (filter f l) as [|x xs] eqn:E; [reflexivity|] end.
      assert (In x (x :: xs)) as Hx by now left.
      rewrite <- E in Hx. apply filter_In in Hx as [Hx Ho].
      apply Z.eqb_eq in Ho.
      apply (withKeys_childId (c_id (row c))) in Hx;
        [|intros v Hv; exact (recordsToAdd_childId _ _ _ _ _ _ Hv)].
      apply Z.eqb_eq in Hx. congruence. }
    rewrite app_nil_r.
    induction (rows (t_vaccinations (db app))) as [|v vs IH]; simpl; [reflexivity|].
    destruct (childId v =? c_id (row c)) eqn:E1; simpl.
    + apply Z.eqb_eq in E1.
      assert ((childId v =? other) = false) as -> by (apply Z.eqb_neq; congruence).
      exact IH.
    + destruct (childId v =? other); [f_equal|]; exact IH.
Qed.

Lemma save_refreshes_the_cached_child_witness :
  fst (saveImmunization 0 [mkFormRow "BCG at Birth" "2024-01-16" "B12" "Clinic" "ok"]
                        true "2024-05-01" ["OPV0 at Birth"] noon_2024_05_10
                        (sampleApp []))
  = Done.
Proof.
  exact (proj1 (save_refreshes_the_cached_child
                  0 [mkFormRow "BCG at Birth" "2024-01-16" "B12" "Clinic" "ok"]
                  true "2024-05-01" ["OPV0 at Birth"] noon_2024_05_10
                  (sampleApp []) (mkChild sampleRow [sampleDose])
                  eq_refl eq_refl eq_refl)).
Defined.

(** X9: a save without a booking drops every booking the child had: when
    it succeeds, no dose record of the child has a next visit, the child is
    not flagged as defaulter, and no summary table has a row for any of its
    doses. *)
Theorem save_without_booking_drops_bookings
    (idx : nat) (formRows : list FormRow) (today : Z) (app : App) (c : Child)
    (Hc : nth_error (children app) idx = Some c)
    (Hvalid : forallb rowValid formRows = true)
    (Hf : faults app = []) :
  let result := saveImmunization idx formRows false "" [] today app in
  fst result = Done
  /\ (forall v, In v (dosesOf (c_id (row c)) (db (snd result))) -> nextVisit v = "")
  /\ exists c',
       nth_error (children (snd result)) idx = Some c'
       /\ isDefaulter (row c') = false
       /\ forall b now, existsb (qualifies b now) (vaccinations c') = false.
Proof.
  intro result. subst result.
  rewrite (saveImmunization_no_fault idx formRows false "" [] today app c
                                     Hc Hvalid Hf).
  cbn [fst snd]. split; [reflexivity|].
  assert (forall v, In v (withKeys (keygen (t_vaccinations (db app)))
                                   (recordsToAdd (c_id (row c)) formRows false "" []))
                    -> nextVisit v = "") as Hnone.
  { intros v Hv. apply withKeys_In in Hv as (w & j & Hw & ->).
    unfold recordsToAdd in Hw. simpl in Hw. rewrite app_nil_r in Hw.
    apply in_map_iff in Hw as (r & <- & _). reflexivity. }
  split.
  - intros v Hv. unfold dosesOf in Hv. cbn [db t_vaccinations rows] in Hv.
    apply filter_In in Hv as [Hv Hid]. apply in_app_or in Hv as [Hv | Hv].
    + apply filter_In in Hv as [_ Hn]. rewrite Hid in Hn. discriminate.
    + now apply Hnone.
  - eexists. split; [exact (setNth_nth_error _ _ _ _ Hc)|].
    cbn [updateDefaulterStatus setDefaulter setVaccinations row vaccinations
         setRowDefaulter isDefaulter].
    split.
    + apply not_true_is_false. intro H. apply existsb_exists in H as (v & Hv & Ht).
      rewrite (Hnone v Hv) in Ht. discriminate.
    + intros b now. apply not_true_is_false. intro H.
      apply existsb_exists in H as (v & Hv & Hq).
      apply qualifies_valid in Hq as [Hb _]. unfold booked in Hb.
      rewrite (Hnone v Hv) in Hb. discriminate.
Qed.

Lemma save_without_booking_drops_bookings_witness :
  fst (saveImmunization
         0 [mkFormRow "BCG at Birth" "2024-01-16" "B12" "Clinic" "ok"]
         false "" [] noon_2024_05_10
         (mkApp (mkDb (mkTable [sampleRow] 1)
                      (mkTable [bookedDose 1 "OPV0 at Birth" "2024-05-01"] 1)
                      (mkTable [] 0))
                [mkChild sampleRow [bookedDose 1 "OPV0 at Birth" "2024-05-01"]] []))
  = Done.
Proof.
  exact (proj1 (save_without_booking_drops_bookings
                  0 [mkFormRow "BCG at Birth" "2024-01-16" "B12" "Clinic" "ok"]
                  noon_2024_05_10
                  (mkApp (mkDb (mkTable [sampleRow] 1)
                               (mkTable [bookedDose 1 "OPV0 at Birth" "2024-05-01"] 1)
                               (mkTable [] 0))
                         [mkChild sampleRow [bookedDose 1 "OPV0 at Birth" "2024-05-01"]] [])
                  (mkChild sampleRow [bookedDose 1 "OPV0 at Birth" "2024-05-01"])
                  eq_refl eq_refl eq_refl)).
Defined.

(** X10: a form in which some row has a date given but lacks the batch
    number, the place or the remarks is refused before any request is made:
    nothing is deleted, nothing is added and the array is untouched. *)
Theorem incomplete_row_refuses_the_save
    (idx : nat) (formRows : list FormRow) (book : bool) (date : string)
    (picked : list string) (today : Z) (app : App) (c : Child) (r : FormRow)
    (Hc : nth_error (children app) idx = Some c)
    (Hr : In r formRows)
    (Hdate : row_dateGiven r <> "")
    (Hmissing : row_batchNumber r = "" \/ row_placeGiven r = ""
                \/ row_remarks r = "") :
  saveImmunization idx formRows book date picked today app = (Refused, app).
Proof.
  unfold saveImmunization. rewrite Hc.
  assert (forallb rowValid formRows = false) as ->; [|reflexivity].
  apply not_true_is_false. intro H. rewrite forallb_forall in H.
  specialize (H r Hr). unfold rowValid in H.
  apply truthy_true_iff in Hdate. rewrite Hdate in H. simpl in H.
  apply negb_true_iff in H. apply orb_false_iff in H as [H H3].
  apply orb_false_iff in H as [H1 H2].
  apply negb_false_iff in H1, H2, H3.
  apply truthy_true_iff in H1, H2, H3. tauto.
Qed.

Lemma incomplete_row_refuses_the_save_witness :
  saveImmunization 0 [mkFormRow "BCG at Birth" "2024-01-16" "" "Clinic" "ok"]
                   false "" [] noon_2024_05_10 (sampleApp [])
  = (Refused, sampleApp []).
Proof.
  apply (incomplete_row_refuses_the_save
           0 [mkFormRow "BCG at Birth" "2024-01-16" "" "Clinic" "ok"]
           false "" [] noon_2024_05_10 (sampleApp [])
           (mkChild sampleRow [sampleDose])
           (mkFormRow "BCG at Birth" "2024-01-16" "" "Clinic" "ok")).
  - reflexivity.
  - left. reflexivity.
  - discriminate.
  - left. reflexivity.
Defined.

Lemma openBookingModal_eq (c : Child) (buf : Buffer) :
  openBookingModal c buf = availableVaccines c (unsavedOf (childKeyOf c) buf).
Proof. reflexivity. Qed.

(** A vaccine with a booked record of the child is not offered. *)
Lemma openBookingModal_not_offered (c : Child) (buf : Buffer) (label : string)
    (v : Vaccination) :
  In v (vaccinations c) -> vaccine v = label -> nextVisit v <> "" ->
  ~ In label (openBookingModal c buf).
Proof.
  intros Hv Hl Hn Hin. rewrite openBookingModal_eq in Hin.
  apply availableVaccines_In in Hin as (_ & Hnone & _).
  destruct (Hnone v Hv Hl) as [_ H]. exact (Hn H).
Qed.

(** X11: [saveBooking] makes no request without a date or without a
    checked vaccine.  When it goes through and succeeds, every checked
    vaccine has a scheduled record of the child with the chosen date and no
    date given, and the booking dialog of the refreshed child no longer
    offers any of the checked vaccines. *)
Theorem booking_schedules_the_checked_vaccines
    (idx : nat) (formRows : list FormRow) (date : string)
    (checked : list string) (today : Z) (app : App) :
  let result := saveBooking idx formRows date checked today app in
  (date = "" \/ checked = [] -> result = (Refused, app))
  /\ (forall c, date <> "" -> checked <> [] ->
        nth_error (children app) idx = Some c ->
        forallb rowValid formRows = true -> faults app = [] ->
        fst result = Done
        /\ exists c',
             nth_error (children (snd result)) idx = Some c'
             /\ (forall label, In label checked ->
                   (exists v, In v (vaccinations c')
                              /\ vaccine v = label /\ nextVisit v = date
                              /\ dateGiven v = "" /\ status v = scheduled)
                   /\ forall buf, ~ In label (openBookingModal c' buf))).
Proof.
  intro result. subst result. unfold saveBooking. split.
  - intros [-> | ->]; [reflexivity|].
    destruct (truthy date); reflexivity.
  - intros c Hdate Hchecked Hc Hvalid Hf.
    assert (truthy date = true) as Ht by now apply truthy_true_iff.
    rewrite Ht. simpl negb. cbv iota.
    assert ((List.length checked =? 0)%nat = false) as Hl
      by (destruct checked; [now elim Hchecked | reflexivity]).
    rewrite Hl.
    rewrite (saveImmunization_no_fault idx formRows true date checked today app c
                                       Hc Hvalid Hf).
    cbn [fst snd]. split; [reflexivity|].
    eexists. split; [exact (setNth_nth_error _ _ _ _ Hc)|].
    intros label Hlabel.
    assert (In (recordOfBooking (c_id (row c)) date label)
               (recordsToAdd (c_id (row c)) formRows true date checked)) as Hrec.
    { unfold recordsToAdd. apply in_or_app. right. rewrite Ht.
      assert ((0 <? List.length checked)%nat = true) as ->
        by (destruct checked; [now elim Hchecked | reflexivity]).
      simpl. now apply in_map. }
    destruct (withKeys_of_In _ _ (keygen (t_vaccinations (db app))) Hrec) as [j Hj].
    split.
    + eexists. split; [exact Hj|]. repeat split.
    + intros buf.
      eapply openBookingModal_not_offered; [exact Hj | reflexivity | exact Hdate].
Qed.

Lemma booking_schedules_the_checked_vaccines_witness :
  saveBooking 0 [] "" ["OPV0 at Birth"] noon_2024_05_10 (sampleApp [])
  = (Refused, sampleApp []).
Proof.
  apply (proj1 (booking_schedules_the_checked_vaccines
                  0 [] "" ["OPV0 at Birth"] noon_2024_05_10 (sampleApp []))).
  left. reflexivity.
Defined.

(* ------------------------------------------------------------------ *)
(** ** Deleting a child, clearing the data *)
(* ------------------------------------------------------------------ *)

Lemma filter_other_child (cid other : Z) (l : list Vaccination) :
  other <> cid ->
  filter (fun v => childId v =? other) (filter (fun v => negb (childId v =? cid)) l)
  = filter (fun v => childId v =? other) l.
Proof.
  intro Hne. induction l as [|v l IH]; simpl; [reflexivity|].
  destruct (childId v =? cid) eqn:E1; simpl.
  - apply Z.eqb_eq in E1.
    assert ((childId v =? other) = false) as -> by (apply Z.eqb_neq; congruence).
    exact IH.
  - destruct (childId v =? other); [f_equal|]; exact IH.
Qed.

(** X12: [deleteChild] is all or nothing on the data, and never reports
    success.  Either the row of the child and all its dose records are gone
    from the tables, the child is removed from the array and the dose
    records of every other child are as before; or the tables and the array
    are exactly as they were, whichever request of the transaction was
    rejected.  The deletion happens when the user confirms, the index holds
    a child and no request is rejected; but the handler then calls
    [updateViewRecordsModal], which is defined nowhere, so every confirmed
    deletion ends in the [catch] block, also the ones that were carried
    out. *)
Theorem deleteChild_is_all_or_nothing (index : nat) (confirmed : bool) (app : App) :
  let result := deleteChild index confirmed app in
  ((exists c, nth_error (children app) index = Some c
         /\ dosesOf (c_id (row c)) (db (snd result)) = []
         /\ (forall r, In r (rows (t_children (db (snd result)))) ->
                       c_id r <> c_id (row c))
         /\ (forall other, other <> c_id (row c) ->
               dosesOf other (db (snd result)) = dosesOf other (db app))
         /\ children (snd result) = removeNth index (children app))
   \/ (db (snd result) = db app /\ children (snd result) = children app))
  /\ (confirmed = false -> result = (Cancelled, app))
  /\ (confirmed = true -> fst result = Caught)
  /\ (confirmed = true -> faults app = [] ->
      forall c, nth_error (children app) index = Some c ->
        children (snd result) = removeNth index (children app)
        /\ rows (t_children (db (snd result)))
           = filter (fun r => negb (c_id r =? c_id (row c)))
                    (rows (t_children (db app)))
        /\ rows (t_vaccinations (db (snd result)))
           = filter (fun v => negb (childId v =? c_id (row c)))
                    (rows (t_vaccinations (db app)))).
Proof.
  intro result. subst result. unfold deleteChild.
  destruct confirmed; simpl negb; cbv iota;
    [|split; [right; split; reflexivity
             |split; [reflexivity | split; discriminate]]].
  destruct (nth_error (children app) index) as [c|] eqn:Hc;
    [|split; [right; split; reflexivity
             |split; [discriminate | split; [reflexivity | discriminate]]]].
  destruct app as [d cs fl]. simpl in Hc.
  unfold tryCatch, bind, transaction, request, setChildren,
         updateViewRecordsModal, vaccinationsDeleteOf, childrenDeleteKey.
  destruct fl as [|[|] [|[|] fl]]; simpl;
    (split;
     [|split; [discriminate
              |split; [reflexivity
                      |try discriminate;
                       intros _ _ c0 Hc0; injection Hc0 as <-;
                       repeat split; reflexivity]]]);
    try (right; split; reflexivity);
    left; exists c; (split; [reflexivity|]);
    unfold dosesOf; simpl;
    (split; [apply filter_negb_filter with (f := fun v => childId v =? c_id (row c))|]);
    (split; [intros r Hr; apply filter_In in Hr as [_ Hr];
             apply negb_true_iff in Hr; now apply Z.eqb_neq in Hr|]);
    (split; [intros other Hne; now apply filter_other_child | reflexivity]).
Qed.

Lemma deleteChild_is_all_or_nothing_witness :
  deleteChild 0 true (sampleApp [])
  = (Caught, mkApp (mkDb (mkTable [] 1) (mkTable [] 1) (mkTable [] 0)) [] []).
Proof.
  pose proof (deleteChild_is_all_or_nothing 0 true (sampleApp []))
    as (_ & _ & Hcaught & _).
  specialize (Hcaught eq_refl).
  destruct (deleteChild 0 true (sampleApp [])) as [o a] eqn:E.
  simpl in Hcaught. subst o.
  vm_compute in E. injection E as <-. reflexivity.
Defined.

(** X13: [clearAllData] is all or nothing: either the three tables and the
    array are empty, or tables and array are exactly as they were; a
    declined confirmation changes nothing. *)
Theorem clearAllData_is_all_or_nothing (confirmed : bool) (app : App) :
  let result := clearAllData confirmed app in
  ((fst result = Done
    /\ rows (t_children (db (snd result))) = []
    /\ rows (t_vaccinations (db (snd result))) = []
    /\ rows (t_facility (db (snd result))) = []
    /\ children (snd result) = [])
   \/ (fst result <> Done
       /\ db (snd result) = db app
       /\ children (snd result) = children app))
  /\ (confirmed = false -> result = (Cancelled, app))
  /\ (confirmed = true -> faults app = [] -> fst result = Done).
Proof.
  intro result. subst result. unfold clearAllData.
  destruct confirmed; simpl negb; cbv iota;
    [|split; [right; repeat split; discriminate
             |split; [reflexivity | discriminate]]].
  destruct app as [d cs fl].
  unfold tryCatch, bind, transaction, request, setChildren,
         childrenClear, vaccinationsClear, facilityClear.
  destruct fl as [|[|] [|[|] [|[|] fl]]]; simpl;
    (split; [|split; [discriminate | try discriminate; intros; reflexivity]]);
    try (right; repeat split; discriminate);
    left; repeat split; reflexivity.
Qed.

Lemma clearAllData_is_all_or_nothing_witness :
  fst (clearAllData true (sampleApp [])) = Done.
Proof.
  apply (proj2 (proj2 (clearAllData_is_all_or_nothing true (sampleApp []))));
    reflexivity.
Defined.

(* ------------------------------------------------------------------ *)
(** ** Backup and restore *)
(* ------------------------------------------------------------------ *)

(** A confirmed restore whose requests are all served, for a document
    without repeated keys. *)
Lemma restore_no_fault (data : Backup) (cs : list ChildRow)
    (vs : list Vaccination) (fs : list Facility) (app : App) :
  b_children data = Some cs -> b_vaccinations data = Some vs ->
  b_facility data = Some fs -> faults app = [] ->
  hasDuplicate (map c_id cs) = false ->
  hasDuplicate (map v_id vs) = false ->
  hasDuplicate (map f_id fs) = false ->
  exists app', restore data true app = (Done, app')
               /\ rows (t_children (db app')) = cs
               /\ rows (t_vaccinations (db app')) = vs
               /\ rows (t_facility (db app')) = fs
               /\ children app' = children app.
Proof.
  intros Hc Hv Hfa Hf Hdc Hdv Hdf.
  unfold restore. rewrite Hc, Hv. simpl negb. cbv iota.
  unfold tryCatch, restoreTransaction, transaction, bind.
  rewrite Hc, Hv, Hfa. simpl whenSome.
  rewrite (request_no_fault childrenClear app _ _ Hf eq_refl).
  erewrite request_no_fault; [|reflexivity|reflexivity].
  erewrite request_no_fault; [|reflexivity|reflexivity].
  erewrite request_no_fault;
    [|reflexivity
     |unfold childrenBulkAdd; simpl; rewrite (bulkAddTo_empty c_id _ cs Hdc);
      reflexivity].
  erewrite request_no_fault;
    [|reflexivity
     |unfold vaccinationsBulkAdd; simpl; rewrite (bulkAddTo_empty v_id _ vs Hdv);
      reflexivity].
  erewrite request_no_fault;
    [|reflexivity
     |unfold facilityBulkAdd; simpl; rewrite (bulkAddTo_empty f_id _ fs Hdf);
      reflexivity].
  eexists. split; [reflexivity|]. simpl. auto.
Qed.

(** X14: a backup reads the three tables without changing anything, and
    restoring the document it produced, on any state of the application,
    gives tables with exactly the rows that were backed up, provided no
    table held a key twice and no request of the restore is rejected. *)
Theorem backup_then_restore_round_trip
    (iso : string) (app app1 target : App) (doc : Backup)
    (Hbackup : backupData iso app = (Some doc, app1))
    (Hkc : hasDuplicate (map c_id (rows (t_children (db app)))) = false)
    (Hkv : hasDuplicate (map v_id (rows (t_vaccinations (db app)))) = false)
    (Hkf : hasDuplicate (map f_id (rows (t_facility (db app)))) = false)
    (Hf : faults target = []) :
  db app1 = db app
  /\ children app1 = children app
  /\ backupDate doc = Some iso
  /\ fst (restore doc true target) = Done
  /\ rows (t_children (db (snd (restore doc true target))))
     = rows (t_children (db app))
  /\ rows (t_vaccinations (db (snd (restore doc true target))))
     = rows (t_vaccinations (db app))
  /\ rows (t_facility (db (snd (restore doc true target))))
     = rows (t_facility (db app)).
Proof.
  unfold backupData in Hbackup.
  destruct (backupDocument iso app) as [[doc'|] app'] eqn:E; [|discriminate].
  injection Hbackup as -> ->.
  unfold backupDocument in E.
  apply bind_Fulfilled in E as (cs & s1 & E1 & E).
  apply bind_Fulfilled in E as (vs & s2 & E2 & E).
  apply bind_Fulfilled in E as (fs & s3 & E3 & E).
  apply request_Fulfilled in E1 as [E1 C1]. injection E1 as <- E1.
  apply request_Fulfilled in E2 as [E2 C2]. injection E2 as <- E2.
  apply request_Fulfilled in E3 as [E3 C3]. injection E3 as <- E3.
  unfold ret in E. injection E as <- <-.
  rewrite <- E2, <- E1 in E3. rewrite <- E1 in E2.
  split; [now rewrite <- E3|].
  split; [now rewrite C3, C2, C1|].
  split; [reflexivity|].
  rewrite <- E2, <- E1.
  destruct (restore_no_fault
              (mkBackup (Some (rows (t_children (db app))))
                        (Some (rows (t_vaccinations (db app))))
                        (Some (rows (t_facility (db app)))) (Some iso))
              _ _ _ target eq_refl eq_refl eq_refl Hf Hkc Hkv Hkf)
    as (app' & -> & Hc & Hv & Hfa & _).
  simpl. auto.
Qed.

Lemma backup_then_restore_round_trip_witness :
  rows (t_vaccinations
          (db (snd (restore (mkBackup (Some [sampleRow]) (Some [sampleDose])
                                      (Some []) (Some "2024-05-10T12:00:00.000Z"))
                            true
                            (mkApp (mkDb (mkTable [] 7) (mkTable [] 9) (mkTable [] 0))
                                   [] [])))))
  = rows (t_vaccinations (db (sampleApp []))).
Proof.
  exact (proj1 (proj2 (proj2 (proj2 (proj2 (proj2
           (backup_then_restore_round_trip
              "2024-05-10T12:00:00.000Z" (sampleApp []) (sampleApp [])
              (mkApp (mkDb (mkTable [] 7) (mkTable [] 9) (mkTable [] 0)) [] [])
              (mkBackup (Some [sampleRow]) (Some [sampleDose]) (Some [])
                        (Some "2024-05-10T12:00:00.000Z"))
              eq_refl eq_refl eq_refl eq_refl eq_refl))))))).
Defined.

(* ------------------------------------------------------------------ *)
(** ** Registration *)
(* ------------------------------------------------------------------ *)

(** X15: a registration is refused, with nothing changed, when a child of
    the array has the same name up to letter case and surrounding white
    space.  Whenever it is not done, tables and array are as before.  When
    it is done, the name had no such duplicate, the date of birth is not
    after the clock reading, and the new child is put in front of the array
    and appended to the table under the same fresh key, with the trimmed
    name, no dose and the defaulter flag off. *)
Theorem registration_guards_and_result
    (form : RegistrationForm) (clock : Readings) (app : App) :
  let result := registerChild form clock app in
  let duplicate :=
    exists c, In c (children app)
              /\ toLowerCase (name (row c)) = toLowerCase (trim (in_childName form)) in
  (duplicate -> result = (Refused, app))
  /\ (fst result <> Done ->
      db (snd result) = db app /\ children (snd result) = children app)
  /\ (fst result = Done ->
      ~ duplicate
      /\ date_gt (Date_parse (in_dob form)) (Some (at_today clock)) = false
      /\ exists new stored,
           children (snd result) = new :: children app
           /\ rows (t_children (db (snd result)))
              = (rows (t_children (db app)) ++ [stored])%list
           /\ c_id (row new) = keygen (t_children (db app)) + 1
           /\ c_id stored = c_id (row new)
           /\ name (row new) = trim (in_childName form)
           /\ name stored = trim (in_childName form)
           /\ dob stored = in_dob form
           /\ isDefaulter (row new) = false /\ isDefaulter stored = false
           /\ createdAt stored = Some (at_createdAt1 clock)
           /\ vaccinations new = []
           /\ t_vaccinations (db (snd result)) = t_vaccinations (db app)).
Proof.
  intros result duplicate. subst result.
  assert (existsb (fun c => (toLowerCase (name (row c))
                             =? toLowerCase (trim (in_childName form)))%string)
                  (children app) = true <-> duplicate) as Hdup.
  { subst duplicate. rewrite existsb_exists. split.
    - intros (c & Hc & E). exists c. split; [exact Hc | now apply String.eqb_eq].
    - intros (c & Hc & E). exists c. split; [exact Hc | now apply String.eqb_eq]. }
  unfold registerChild.
  destruct (existsb _ (children app)) eqn:Ed.
  - split; [reflexivity|]. split; [auto | discriminate].
  - assert (~ duplicate) as Hnd by (intro H; apply Hdup in H; discriminate).
    split; [intro H; now elim Hnd|].
    destruct (date_gt (Date_parse (in_dob form)) (Some (at_today clock))) eqn:Eg;
      [split; [auto | discriminate]|].
    destruct (generateRegNo (children app) (at_regNo1 clock)) as [r1|];
      [|split; [auto | discriminate]].
    destruct (generateRegNo (children app) (at_regNo2 clock)) as [r2|];
      [|split; [auto | discriminate]].
    destruct app as [d cs fl].
    unfold tryCatch, bind, request, setChildren, childrenAdd.
    destruct fl as [|[|] fl]; simpl;
      (split; [try (intro H; now elim H); auto|]);
      try discriminate;
      intros _; (split; [exact Hnd|]); (split; [reflexivity|]);
      eexists; eexists; repeat split.
Qed.

Lemma registration_guards_and_result_witness :
  registerChild (mkRegistrationForm "  AMA mensah " "2024-03-01" "Female" "Tema" "")
                (mkReadings noon_2024_05_10 noon_2024_05_10 noon_2024_05_10
                            noon_2024_05_10 noon_2024_05_10)
                (sampleApp [])
  = (Refused, sampleApp []).
Proof.
  apply (proj1 (registration_guards_and_result
                  (mkRegistrationForm "  AMA mensah " "2024-03-01" "Female" "Tema" "")
                  (mkReadings noon_2024_05_10 noon_2024_05_10 noon_2024_05_10
                              noon_2024_05_10 noon_2024_05_10)
                  (sampleApp []))).
  exists (mkChild sampleRow [sampleDose]). split; [left; reflexivity | reflexivity].
Defined.

Lemma createdInYear_same_year (now1 now2 : Z) (c : Child) :
  getFullYear now1 = getFullYear now2 ->
  createdInYear now1 (getFullYear now1) c = createdInYear now2 (getFullYear now2) c.
Proof.
  intro H. unfold createdInYear.
  destruct (createdAt (row c)); [now rewrite H|].
  now rewrite !Z.eqb_refl.
Qed.

(** The registration number depends on the clock through the calendar year
    only. *)
Lemma generateRegNo_same_year (cs : list Child) (now1 now2 : Z) :
  getFullYear now1 = getFullYear now2 ->
  generateRegNo cs now1 = generateRegNo cs now2.
Proof.
  intro H. unfold generateRegNo, initialCount.
  rewrite (filter_ext _ _ (fun c => createdInYear_same_year now1 now2 c H)).
  now rewrite H.
Qed.

(** X16: [generateRegNo] depends on the clock through the calendar year
    only, so when the two clock readings of a registration fall in the same
    year the row stored in the table and the child put in the array carry
    the same registration number. *)
Theorem stored_and_shown_regNo_agree
    (form : RegistrationForm) (clock : Readings) (app app' : App)
    (Hyear : getFullYear (at_regNo1 clock) = getFullYear (at_regNo2 clock))
    (Hdone : registerChild form clock app = (Done, app')) :
  exists new stored,
    children app' = new :: children app
    /\ rows (t_children (db app')) = (rows (t_children (db app)) ++ [stored])%list
    /\ regNo stored = regNo (row new)
    /\ generateRegNo (children app) (at_regNo1 clock) = Some (regNo stored).
Proof.
  unfold registerChild in Hdone.
  destruct (existsb _ (children app)); [discriminate|].
  destruct (date_gt _ _); [discriminate|].
  rewrite <- (generateRegNo_same_year (children app) _ _ Hyear) in Hdone.
  destruct (generateRegNo (children app) (at_regNo1 clock)) as [r1|];
    [|discriminate].
  destruct app as [d cs fl].
  unfold tryCatch, bind, request, setChildren, childrenAdd in Hdone.
  destruct fl as [|[|] fl]; simpl in Hdone; try discriminate;
    injection Hdone as <-; eexists; eexists; repeat split.
Qed.

Lemma stored_and_shown_regNo_agree_witness :
  let form := mkRegistrationForm " Kofi Boateng " "2024-03-01" "Male" "Tema" "" in
  let clock := mkReadings noon_2024_05_10 noon_2024_05_10 noon_2024_05_10
                          (noon_2024_05_10 + 1) (noon_2024_05_10 + 1) in
  exists new stored,
    children (snd (registerChild form clock (sampleApp [])))
    = new :: children (sampleApp [])
    /\ regNo stored = regNo (row new).
Proof.
  intros form clock.
  assert (registerChild form clock (sampleApp [])
          = (Done, snd (registerChild form clock (sampleApp [])))) as Hrun
    by (vm_compute; reflexivity).
  destruct (stored_and_shown_regNo_agree form clock (sampleApp []) _ eq_refl Hrun)
    as (new & stored & Hc & _ & Hr & _).
  exists new, stored. split; [exact Hc | exact Hr].
Defined.

(** X17: the first registration of a calendar year starts again at 001:
    when no child of the array was created in the year of the clock reading
    and none holds the number 001 of that year, [generateRegNo] returns
    ["001/"] followed by the year; on an empty array it always does. *)
Theorem first_registration_of_a_year (cs : list Child) (now : Z)
    (Hnone : forall c, In c cs ->
               exists t, createdAt (row c) = Some t
                         /\ getFullYear t <> getFullYear now)
    (Hfree : ~ In ("001/" ++ String_of_Z (getFullYear now)) (map childRegNo cs)) :
  generateRegNo cs now = Some ("001/" ++ String_of_Z (getFullYear now))
  /\ generateRegNo [] now = Some ("001/" ++ String_of_Z (getFullYear now)).
Proof.
  assert (forall y, formatRegNo 1 y = "001/" ++ String_of_Z y) as Hfmt
    by (intro y; reflexivity).
  split; [|reflexivity].
  unfold generateRegNo, initialCount.
  assert (filter (createdInYear now (getFullYear now)) cs = []) as ->.
  { destruct (filter _ cs) as [|c l] eqn:E; [reflexivity|].
    assert (In c (c :: l)) as Hc by now left.
    rewrite <- E in Hc. apply filter_In in Hc as [Hc Hy].
    destruct (Hnone c Hc) as (t & Ht & Hne). unfold createdInYear in Hy.
    rewrite Ht in Hy. apply Z.eqb_eq in Hy. contradiction. }
  simpl. rewrite Hfmt.
  destruct (regNoTaken cs _) eqn:E; [|reflexivity].
  apply regNoTaken_In in E. contradiction.
Qed.

Lemma first_registration_of_a_year_witness :
  generateRegNo (registerOf 3) 1736899200000 = Some "001/2025".
Proof.
  assert (forall c, In c (registerOf 3) ->
            exists t, createdAt (row c) = Some t
                      /\ getFullYear t <> getFullYear 1736899200000) as H1.
  { intros c Hc. exists 1705312800000. split.
    - simpl in Hc. destruct Hc as [<- | [<- | [<- | []]]]; reflexivity.
    - vm_compute. discriminate. }
  assert (~ In ("001/" ++ String_of_Z (getFullYear 1736899200000))
               (map childRegNo (registerOf 3))) as H2.
  { vm_compute. intros [H | [H | [H | []]]]; discriminate. }
  exact (proj1 (first_registration_of_a_year (registerOf 3) 1736899200000 H1 H2)).
Defined.

(* ------------------------------------------------------------------ *)
(** ** Editing and searching *)
(* ------------------------------------------------------------------ *)

Lemma setNth_other {A} (l : list A) :
  forall i j x, i <> j -> nth_error (setNth i x l) j = nth_error l j.
Proof.
  induction l as [|a l IH]; intros [|i] [|j] x H; simpl; try reflexivity.
  - now elim H.
  - apply IH. intro E. apply H. now f_equal.
Qed.

(** X18: editing a child never changes its registration number, key,
    defaulter flag, creation time or doses, neither in the array nor in the
    table, and touches no other element of the array and no row with
    another key: the rows of the table are as before, or they are the old
    rows with the row of the child's key edited.  The array is edited
    before the request is made, so when the update is rejected the table is
    left as it was while the array already shows the edit.  The handler
    then calls [updateViewRecordsModal], which is defined nowhere, so it
    always ends in the [catch] block, also when the update was served. *)
Theorem edit_keeps_identity (idx : nat) (f : EditForm) (app : App) (c : Child)
    (Hc : nth_error (children app) idx = Some c) :
  let result := saveEditedChild idx f app in
  let before := rows (t_children (db app)) in
  let after := rows (t_children (db (snd result))) in
  let edited := map (fun r => if c_id r =? c_id (row c) then editRow r f else r)
                    before in
  fst result = Caught
  /\ (exists c', nth_error (children (snd result)) idx = Some c'
                 /\ regNo (row c') = regNo (row c)
                 /\ c_id (row c') = c_id (row c)
                 /\ isDefaulter (row c') = isDefaulter (row c)
                 /\ createdAt (row c') = createdAt (row c)
                 /\ vaccinations c' = vaccinations c
                 /\ name (row c') = trim (ed_name f))
  /\ (forall j, j <> idx ->
        nth_error (children (snd result)) j = nth_error (children app) j)
  /\ (after = before \/ after = edited)
  /\ map (fun r => (c_id r, regNo r, isDefaulter r, createdAt r)) after
     = map (fun r => (c_id r, regNo r, isDefaulter r, createdAt r)) before
  /\ (forall r, In r after -> c_id r <> c_id (row c) -> In r before)
  /\ t_vaccinations (db (snd result)) = t_vaccinations (db app)
  /\ (faults app = [] -> after = edited).
Proof.
  intros result before after edited. subst result before after edited.
  unfold saveEditedChild. rewrite Hc.
  destruct app as [d cs fl]. simpl in Hc.
  unfold tryCatch, bind, request, updateViewRecordsModal, childrenUpdateDetails.
  assert (exists c', nth_error (setNth idx (mkChild (editRow (row c) f) (vaccinations c)) cs)
                               idx = Some c'
                     /\ regNo (row c') = regNo (row c)
                     /\ c_id (row c') = c_id (row c)
                     /\ isDefaulter (row c') = isDefaulter (row c)
                     /\ createdAt (row c') = createdAt (row c)
                     /\ vaccinations c' = vaccinations c
                     /\ name (row c') = trim (ed_name f)) as Hnew.
  { eexists. split; [exact (setNth_nth_error _ _ _ _ Hc)|]. repeat split. }
  assert (forall j, j <> idx ->
            nth_error (setNth idx (mkChild (editRow (row c) f) (vaccinations c)) cs) j
            = nth_error cs j) as Hother
    by (intros j Hj; apply setNth_other; congruence).
  assert (forall rs : list ChildRow,
            map (fun r => (c_id r, regNo r, isDefaulter r, createdAt r))
                (map (fun r => if c_id r =? c_id (row c) then editRow r f else r) rs)
            = map (fun r => (c_id r, regNo r, isDefaulter r, createdAt r)) rs)
    as Hkeep.
  { intro rs. rewrite map_map. apply map_ext. intro r.
    destruct (c_id r =? c_id (row c)); reflexivity. }
  assert (forall (rs : list ChildRow) r,
            In r (map (fun r => if c_id r =? c_id (row c) then editRow r f else r) rs) ->
            c_id r <> c_id (row c) -> In r rs) as Hrest.
  { intros rs r Hr Hne. apply in_map_iff in Hr as (r0 & E & Hr0).
    destruct (c_id r0 =? c_id (row c)) eqn:Ek.
    - apply Z.eqb_eq in Ek. subst r. simpl in Hne. now elim Hne.
    - now subst r. }
  destruct fl as [|[|] fl];
    cbn [fst snd db children faults t_children t_vaccinations rows
         row c_id editRow];
    (split; [reflexivity|]); (split; [exact Hnew|]); (split; [exact Hother|]).
  - split; [right; reflexivity|]. split; [apply Hkeep|].
    split; [apply Hrest|]. split; reflexivity.
  - split; [left; reflexivity|]. split; [reflexivity|].
    split; [auto|]. split; [reflexivity | discriminate].
  - split; [right; reflexivity|]. split; [apply Hkeep|].
    split; [apply Hrest|]. split; [reflexivity | discriminate].
Qed.

Lemma edit_keeps_identity_witness :
  fst (saveEditedChild 0 (mkEditForm " Ama M. " "2024-01-15" "Female" "Tema" "")
                       (sampleApp []))
  = Caught
  /\ map name (rows (t_children (db (snd (saveEditedChild
                                            0 (mkEditForm " Ama M. " "2024-01-15"
                                                          "Female" "Tema" "")
                                            (sampleApp []))))))
     = ["Ama M."].
Proof.
  pose proof (edit_keeps_identity
                0 (mkEditForm " Ama M. " "2024-01-15" "Female" "Tema" "")
                (sampleApp []) (mkChild sampleRow [sampleDose]) eq_refl)
    as (Hcaught & _ & _ & _ & _ & _ & _ & Hedited).
  split; [exact Hcaught|].
  cbv zeta in Hedited. rewrite (Hedited eq_refl). reflexivity.
Defined.

Lemma prefix_nil (s : string) : prefix "" s = true.
Proof. destruct s; reflexivity. Qed.

Lemma prefix_refl (s : string) : prefix s s = true.
Proof.
  induction s as [|a s IH]; simpl; [reflexivity|].
  destruct (ascii_dec a a) as [_ | H]; [exact IH | now elim H].
Qed.

Lemma strIncludes_nil (s : string) : strIncludes s "" = true.
Proof. destruct s; reflexivity. Qed.

Lemma strIncludes_refl (s : string) : strIncludes s s = true.
Proof.
  destruct s as [|a s]; [reflexivity|].
  cbn [strIncludes]. now rewrite prefix_refl.
Qed.

(** X19: the search shows a sub-list of the array in its order; an empty
    search box shows every child; typing the name of a child in any letter
    case shows that child; typing its registration number shows it whenever
    the number has no capital letter. *)
Theorem search_finds_children (search : string) (cs : list Child) :
  (forall c, In c (filterChildren search cs) -> In c cs)
  /\ (exists keep, filterChildren search cs = filter keep cs)
  /\ filterChildren "" cs = cs
  /\ (forall c, In c cs ->
        toLowerCase search = toLowerCase (name (row c)) ->
        In c (filterChildren search cs))
  /\ (forall c, In c cs ->
        search = regNo (row c) -> toLowerCase (regNo (row c)) = regNo (row c) ->
        In c (filterChildren search cs)).
Proof.
  unfold filterChildren. split; [|split; [|split; [|split]]].
  - intros c Hc. apply filter_In in Hc. tauto.
  - eexists. reflexivity.
  - simpl. induction cs as [|c cs IH]; simpl; [reflexivity|].
    rewrite strIncludes_nil. simpl. now f_equal.
  - intros c Hc E. apply filter_In. split; [exact Hc|].
    rewrite E, strIncludes_refl. reflexivity.
  - intros c Hc -> E. apply filter_In. split; [exact Hc|].
    rewrite E, strIncludes_refl. apply orb_true_r.
Qed.

Lemma search_finds_children_witness :
  In (mkChild sampleRow [sampleDose])
     (filterChildren "AMA MENSAH" (children (sampleApp []))).
Proof.
  apply (proj1 (proj2 (proj2 (proj2
           (search_finds_children "AMA MENSAH" (children (sampleApp []))))))).
  - left. reflexivity.
  - reflexivity.
Defined.

(* ------------------------------------------------------------------ *)
(** ** Passwords ([App.js]) *)
(* ------------------------------------------------------------------ *)

(** An update of the password of key [k] keeps every facility in place with
    its key, code and security questions; the facilities with key [k] get
    the password, the others keep theirs. *)
Lemma updatePassword_spec (k : Z) (p : string) (st : MultiFacility.Store) :
  let st' := MultiFacility.updatePassword k p st in
  map (fun s => Recovery.id (MultiFacility.facility s)) (MultiFacility.facilities st')
  = map (fun s => Recovery.id (MultiFacility.facility s)) (MultiFacility.facilities st)
  /\ map (fun s => Recovery.code (MultiFacility.facility s)) (MultiFacility.facilities st')
     = map (fun s => Recovery.code (MultiFacility.facility s)) (MultiFacility.facilities st)
  /\ map (fun s => Recovery.securityQuestions (MultiFacility.facility s))
         (MultiFacility.facilities st')
     = map (fun s => Recovery.securityQuestions (MultiFacility.facility s))
           (MultiFacility.facilities st)
  /\ (forall s', In s' (MultiFacility.facilities st') ->
        (Recovery.id (MultiFacility.facility s') = k ->
         Recovery.password (MultiFacility.facility s') = p)
        /\ (Recovery.id (MultiFacility.facility s') <> k ->
            In s' (MultiFacility.facilities st)))
  /\ MultiFacility.sessions st' = MultiFacility.sessions st.
Proof.
  intro st'. subst st'. unfold MultiFacility.updatePassword. simpl.
  rewrite !map_map.
  split; [apply map_ext; intro s;
          destruct (Recovery.id (MultiFacility.facility s) =? k); reflexivity|].
  split; [apply map_ext; intro s;
          destruct (Recovery.id (MultiFacility.facility s) =? k); reflexivity|].
  split; [apply map_ext; intro s;
          destruct (Recovery.id (MultiFacility.facility s) =? k); reflexivity|].
  split; [|reflexivity].
  intros s' Hs'. apply in_map_iff in Hs' as (s & <- & Hs).
  destruct (Recovery.id (MultiFacility.facility s) =? k) eqn:E; simpl.
  - split; [reflexivity|]. apply Z.eqb_eq in E. intro H. contradiction.
  - apply Z.eqb_neq in E. split; [intro H; contradiction | intros _; exact Hs].
Qed.



(** X21: [resetPassword] asks for no current password: it succeeds as soon
    as the new password has at least 4 characters and equals its
    confirmation, a facility is under recovery and the request is served.
    It then changes the password of that facility alone and keeps keys,
    codes and security questions; otherwise the table is untouched.  It
    never changes [currentFacility] or the recovery step. *)
Theorem resetPassword_guards (newPassword confirmPassword : string)
    (cl : MultiFacility.Client) :
  let result := MultiFacility.resetPassword newPassword confirmPassword cl in
  (fst result = Done <->
   newPassword = confirmPassword
   /\ (4 <= String.length newPassword)%nat
   /\ MultiFacility.recoveryFacility cl <> None
   /\ fst (MultiFacility.nextFault (MultiFacility.faults cl)) = false)
  /\ (fst result = Done ->
      exists s,
        MultiFacility.recoveryFacility cl = Some s
        /\ MultiFacility.store (snd result)
           = MultiFacility.updatePassword (Recovery.id (MultiFacility.facility s))
                                          newPassword (MultiFacility.store cl)
        /\ forall s', In s' (MultiFacility.facilities (MultiFacility.store (snd result))) ->
             Recovery.id (MultiFacility.facility s')
             <> Recovery.id (MultiFacility.facility s) ->
             In s' (MultiFacility.facilities (MultiFacility.store cl)))
  /\ (fst result <> Done ->
      MultiFacility.store (snd result) = MultiFacility.store cl)
  /\ MultiFacility.currentFacility (snd result) = MultiFacility.currentFacility cl
  /\ MultiFacility.recoveryStep (snd result) = MultiFacility.recoveryStep cl.
Proof.
  intro result. subst result. unfold MultiFacility.resetPassword.
  destruct newPassword as [|a np].
  { simpl. split; [split; [discriminate | intros (_ & H & _); simpl in H; lia]|].
    split; [discriminate | auto]. }
  destruct confirmPassword as [|b cp].
  { simpl. split; [split; [discriminate | intros (H & _); discriminate]|].
    split; [discriminate | auto]. }
  cbn [truthy negb orb].
  destruct (String.length (String a np) <? 4)%nat eqn:El.
  { apply Nat.ltb_lt in El.
    split; [split; [discriminate | intros (_ & H & _); lia]|].
    split; [discriminate | auto]. }
  apply Nat.ltb_ge in El.
  destruct (String a np =? String b cp)%string eqn:Ec; cbn [negb].
  2:{ apply String.eqb_neq in Ec.
      split; [split; [discriminate | intros (H & _); contradiction]|].
      split; [discriminate | auto]. }
  apply String.eqb_eq in Ec.
  destruct (MultiFacility.recoveryFacility cl) as [s|] eqn:Hs.
  2:{ split; [split; [discriminate | intros (_ & _ & H & _); now elim H]|].
      split; [discriminate | auto]. }
  destruct (MultiFacility.faults cl) as [|[|] fl]; simpl.
  - split; [split; [intros _; repeat split; auto; discriminate | reflexivity]|].
    split; [|split; [intro H; now elim H | auto]].
    intros _. exists s. repeat split.
    intros s' Hs' Hne.
    exact (proj2 (proj1 (proj2 (proj2 (proj2
             (updatePassword_spec _ (String a np) (MultiFacility.store cl)))))
             s' Hs') Hne).
  - split; [split; [discriminate | intros (_ & _ & _ & H); discriminate]|].
    split; [discriminate | auto].
  - split; [split; [intros _; repeat split; auto; discriminate | reflexivity]|].
    split; [|split; [intro H; now elim H | auto]].
    intros _. exists s. repeat split.
    intros s' Hs' Hne.
    exact (proj2 (proj1 (proj2 (proj2 (proj2
             (updatePassword_spec _ (String a np) (MultiFacility.store cl)))))
             s' Hs') Hne).
Qed.

Lemma resetPassword_guards_witness :
  let f := Recovery.mkFacility 1 "DEMO001" "Demo Health Center" "demo123"
             "Greater Accra" "Accra Metro"
             (Some [Recovery.mkSecurityQuestion "What is your favorite color?" "blue"]) in
  let cl := MultiFacility.mkClient
              (MultiFacility.mkStore [MultiFacility.mkStored f 0] 1 [] 0)
              None (Some (MultiFacility.mkStored f 0)) 3 [] in
  fst (MultiFacility.resetPassword "s3cret" "s3cret" cl) = Done.
Proof.
  intros f cl.
  apply (proj2 (proj1 (resetPassword_guards "s3cret" "s3cret" cl))).
  repeat split; try reflexivity.
  - simpl. lia.
  - discriminate.
Defined.

(** X22: the strength text is "Strong" exactly for a password of at least
    8 characters with a lower-case letter, a capital letter, a digit and
    another character; it is empty exactly when none of the four criteria
    holds, which a non-empty password can do (short, letters of one case
    only); every other password is "Weak" or "Medium". *)
Theorem strength_text_cases (password : string) :
  let long := (8 <=? String.length password)%nat in
  let mixed := hasChar isLower password && hasChar isUpper password in
  let digit := hasChar isDigit password in
  let other := hasChar (fun c => negb (isLower c || isUpper c || isDigit c)) password in
  (checkPasswordStrength password <= 4)%nat
  /\ (strengthText password = "Strong"
      <-> long = true /\ mixed = true /\ digit = true /\ other = true)
  /\ (strengthText password = ""
      <-> long = false /\ mixed = false /\ digit = false /\ other = false)
  /\ (strengthText password = "" \/ strengthText password = "Weak"
      \/ strengthText password = "Medium" \/ strengthText password = "Strong")
  /\ strengthText "abcdefg" = "".
Proof.
  intros long mixed digit other.
  unfold strengthText, checkPasswordStrength.
  fold long. fold mixed. fold digit. fold other.
  destruct long, mixed, digit, other; simpl;
    repeat split; intros; try lia; try reflexivity; try discriminate;
    try tauto;
    repeat match goal with H : _ /\ _ |- _ => destruct H end;
    try discriminate; auto.
Qed.

(* ------------------------------------------------------------------ *)
(** ** Registering a facility, recovering its password ([App.js]) *)
(* ------------------------------------------------------------------ *)

Lemma find_app_none {A} (f : A -> bool) (l : list A) (x : A) :
  find f l = None -> f x = true -> find f (l ++ [x]) = Some x.
Proof.
  induction l as [|a l IH]; simpl; intros Hn Hx.
  - now rewrite Hx.
  - destruct (f a); [discriminate|]. now apply IH.
Qed.

Lemma find_none_forall {A} (f : A -> bool) (l : list A) :
  find f l = None -> forall x, In x l -> f x = false.
Proof.
  induction l as [|a l IH]; simpl; intros Hn x Hx; [destruct Hx|].
  destruct (f a) eqn:E; [discriminate|].
  destruct Hx as [<- | Hx]; [exact E | now apply IH].
Qed.

(** The ways [registerFacility] can end. *)
Lemma registerFacility_cases (f : MultiFacility.FacilityForm)
    (createdNow loggedNow : Z) (cl : MultiFacility.Client) :
  let result := MultiFacility.registerFacility f createdNow loggedNow cl in
  let st := MultiFacility.store cl in
  let k := MultiFacility.facilitiesKey st + 1 in
  let new := MultiFacility.mkStored (MultiFacility.facilityOfForm f k) createdNow in
  (fst result <> Done
   /\ MultiFacility.facilities (MultiFacility.store (snd result))
      = MultiFacility.facilities st)
  \/ (MultiFacility.in_password f = MultiFacility.in_confirmPassword f
      /\ (4 <= String.length (MultiFacility.in_password f))%nat
      /\ trim (MultiFacility.in_answer1 f) <> ""
      /\ trim (MultiFacility.in_answer2 f) <> ""
      /\ MultiFacility.firstWithCode
           (toUpperCase (trim (MultiFacility.in_code f))) st = None
      /\ MultiFacility.facilities (MultiFacility.store (snd result))
         = (MultiFacility.facilities st ++ [new])%list
      /\ MultiFacility.facilitiesKey (MultiFacility.store (snd result)) = k
      /\ MultiFacility.recoveryFacility (snd result)
         = MultiFacility.recoveryFacility cl
      /\ MultiFacility.recoveryStep (snd result) = MultiFacility.recoveryStep cl
      /\ (fst result = Done ->
          exists cur,
            MultiFacility.getFacility k (MultiFacility.store (snd result)) = Some cur
            /\ MultiFacility.currentFacility (snd result) = Some cur
            /\ MultiFacility.sessions (MultiFacility.store (snd result))
               = (MultiFacility.sessions st
                  ++ [MultiFacility.mkSession
                        (MultiFacility.sessionsKey st + 1)
                        (Recovery.id (MultiFacility.facility cur)) loggedNow])%list
            /\ MultiFacility.faults (snd result)
               = skipn 4 (MultiFacility.faults cl))).
Proof.
  intros result st k new. subst result. unfold MultiFacility.registerFacility.
  destruct (MultiFacility.in_password f =? MultiFacility.in_confirmPassword f)%string
    eqn:Ep; simpl negb; cbv iota; [|left; split; [discriminate | reflexivity]].
  apply String.eqb_eq in Ep.
  destruct (String.length (MultiFacility.in_password f) <? 4)%nat eqn:El;
    [left; split; [discriminate | reflexivity]|].
  apply Nat.ltb_ge in El.
  destruct (truthy (MultiFacility.in_question1 f)); simpl;
    [|left; split; [discriminate | reflexivity]].
  destruct (truthy (trim (MultiFacility.in_answer1 f))) eqn:Ea1; simpl;
    [|left; split; [discriminate | reflexivity]].
  destruct (truthy (MultiFacility.in_question2 f)); simpl;
    [|left; split; [discriminate | reflexivity]].
  destruct (truthy (trim (MultiFacility.in_answer2 f))) eqn:Ea2; simpl;
    [|left; split; [discriminate | reflexivity]].
  apply truthy_true_iff in Ea1. apply truthy_true_iff in Ea2.
  fold st. fold k. fold new.
  destruct (MultiFacility.firstWithCode _ st) eqn:Ef.
  { destruct (MultiFacility.faults cl) as [|[|] fl1]; simpl;
      left; split; [discriminate | reflexivity | discriminate | reflexivity
                   | discriminate | reflexivity]. }
  destruct (MultiFacility.getFacility k _) as [cur|] eqn:Eg;
    destruct (MultiFacility.faults cl) as [|[|] [|[|] [|[|] [|[|] fl4]]]];
    simpl;
    first [ left; split; [discriminate | reflexivity]
          | right;
            (split; [exact Ep|]); (split; [exact El|]);
            (split; [exact Ea1|]); (split; [exact Ea2|]);
            (split; [reflexivity|]); (split; [reflexivity|]);
            (split; [reflexivity|]); (split; [reflexivity|]);
            (split; [reflexivity|]);
            first [ discriminate
                  | intros _; exists cur; repeat split; exact Eg ] ].
Qed.

(** X23: registering a facility never creates a second facility with a
    code already in the table: when the codes were pairwise distinct they
    still are afterwards, however the requests are settled.  A facility is
    added only when the passwords match and have at least 4 characters and
    both answers are non-empty after trimming; it is stored with its code
    trimmed and upper-cased and with exactly two security questions whose
    answers are the trimmed inputs. *)
Theorem facility_registration_keeps_codes_distinct
    (f : MultiFacility.FacilityForm) (createdNow loggedNow : Z)
    (cl : MultiFacility.Client)
    (Hnd : NoDup (map (fun s => Recovery.code (MultiFacility.facility s))
                      (MultiFacility.facilities (MultiFacility.store cl)))) :
  let result := MultiFacility.registerFacility f createdNow loggedNow cl in
  let after := MultiFacility.facilities (MultiFacility.store (snd result)) in
  NoDup (map (fun s => Recovery.code (MultiFacility.facility s)) after)
  /\ (after = MultiFacility.facilities (MultiFacility.store cl)
      \/ exists new,
           after = (MultiFacility.facilities (MultiFacility.store cl) ++ [new])%list
           /\ Recovery.code (MultiFacility.facility new)
              = toUpperCase (trim (MultiFacility.in_code f))
           /\ Recovery.password (MultiFacility.facility new)
              = MultiFacility.in_password f
           /\ MultiFacility.in_password f = MultiFacility.in_confirmPassword f
           /\ (4 <= String.length (MultiFacility.in_password f))%nat
           /\ Recovery.securityQuestions (MultiFacility.facility new)
              = Some [Recovery.mkSecurityQuestion (MultiFacility.in_question1 f)
                                                  (trim (MultiFacility.in_answer1 f));
                      Recovery.mkSecurityQuestion (MultiFacility.in_question2 f)
                                                  (trim (MultiFacility.in_answer2 f))]
           /\ trim (MultiFacility.in_answer1 f) <> ""
           /\ trim (MultiFacility.in_answer2 f) <> "")
  /\ (fst result = Done ->
      after <> MultiFacility.facilities (MultiFacility.store cl)).
Proof.
  intros result after. subst result after.
  destruct (registerFacility_cases f createdNow loggedNow cl)
    as [[Hnot ->] | (Hp & Hl & Ha1 & Ha2 & Hfree & -> & _)].
  - split; [exact Hnd|]. split; [now left|]. intro H. contradiction.
  - split; [|split].
    + rewrite map_app. simpl.
      rewrite <- (rev_involutive (map _ _ ++ [_])).
      apply NoDup_rev. rewrite rev_app_distr. simpl. constructor.
      * intro Hin. apply in_rev in Hin. apply in_map_iff in Hin as (s & Hc & Hs).
        unfold MultiFacility.firstWithCode in Hfree.
        pose proof (find_none_forall _ _ Hfree s Hs) as Hne. simpl in Hne.
        rewrite Hc, String.eqb_refl in Hne. discriminate.
      * apply NoDup_rev. exact Hnd.
    + right. eexists. split; [reflexivity|]. simpl. repeat split; auto.
    + intros _ H. apply (f_equal (@List.length _)) in H.
      rewrite length_app in H. simpl in H. lia.
Qed.

Lemma facility_registration_keeps_codes_distinct_witness :
  let form := MultiFacility.mkFacilityForm
                " Korle Bu Annex " " kb01 " "s3cret" "s3cret" "Greater Accra"
                "Accra Metro" "What is your favorite color?" " Blue "
                "What is your favorite food?" "Rice" in
  let existing := MultiFacility.mkStored
                    (Recovery.mkFacility 1 "KB01" "Korle Bu Clinic" "0ldpass"
                       "Greater Accra" "Accra Metro"
                       (Some [Recovery.mkSecurityQuestion
                                "What is your favorite color?" "Green"]))
                    1715000000000 in
  let cl := MultiFacility.mkClient (MultiFacility.mkStore [existing] 1 [] 0)
                                   None None 1 [] in
  let result := MultiFacility.registerFacility form 1715342400000 1715342400001 cl in
  NoDup (map (fun s => Recovery.code (MultiFacility.facility s))
             (MultiFacility.facilities (MultiFacility.store (snd result))))
  /\ fst result = Refused
  /\ MultiFacility.facilities (MultiFacility.store (snd result)) = [existing].
Proof.
  intros form existing cl result.
  assert (NoDup (map (fun s => Recovery.code (MultiFacility.facility s))
                     (MultiFacility.facilities (MultiFacility.store cl)))) as Hnd.
  { simpl. constructor; [intros [] | constructor]. }
  split; [|split; reflexivity].
  exact (proj1 (facility_registration_keeps_codes_distinct
                  form 1715342400000 1715342400001 cl Hnd)).
Defined.

(** X24: recovery starts only for an existing facility with at least one
    security question.  [verifyFacilityForRecovery] never changes the
    tables; it is done exactly when no fault hits its request and the first
    facility whose code is the trimmed, upper-cased input has a non-empty
    list of questions, and it then puts that facility under recovery at
    step 2; otherwise the facility under recovery and the step are as
    before. *)
Theorem recovery_starts_only_with_questions (input : string)
    (cl : MultiFacility.Client) :
  let result := MultiFacility.verifyFacilityForRecovery input cl in
  MultiFacility.store (snd result) = MultiFacility.store cl
  /\ MultiFacility.currentFacility (snd result) = MultiFacility.currentFacility cl
  /\ (fst result = Done <->
      toUpperCase (trim input) <> ""
      /\ fst (MultiFacility.nextFault (MultiFacility.faults cl)) = false
      /\ exists s q qs,
           MultiFacility.firstWithCode (toUpperCase (trim input))
                                       (MultiFacility.store cl) = Some s
           /\ Recovery.securityQuestions (MultiFacility.facility s) = Some (q :: qs))
  /\ (fst result = Done ->
      MultiFacility.recoveryStep (snd result) = 2%nat
      /\ MultiFacility.recoveryFacility (snd result)
         = MultiFacility.firstWithCode (toUpperCase (trim input))
                                       (MultiFacility.store cl))
  /\ (fst result <> Done ->
      MultiFacility.recoveryStep (snd result) = MultiFacility.recoveryStep cl
      /\ MultiFacility.recoveryFacility (snd result)
         = MultiFacility.recoveryFacility cl).
Proof.
  intro result. subst result. unfold MultiFacility.verifyFacilityForRecovery.
  assert (truthy (toUpperCase (trim input)) = true
          <-> toUpperCase (trim input) <> "") as Htr by apply truthy_true_iff.
  destruct (truthy (toUpperCase (trim input))) eqn:Et; simpl negb; cbv iota;
    [destruct (MultiFacility.firstWithCode _ _) as [s|] eqn:Ef;
     [destruct (Recovery.securityQuestions (MultiFacility.facility s))
        as [[|q qs]|] eqn:Eq|];
     destruct (MultiFacility.faults cl) as [|[|] fl]; simpl|];
    (split; [reflexivity|]); (split; [reflexivity|]);
    first
      [ (* done *)
        split;
        [split;
         [intros _; split; [now apply Htr|]; split; [reflexivity|];
          exists s, q, qs; split; [reflexivity | exact Eq]
         |reflexivity]
        |split; [intros _; split; reflexivity | intro H; now elim H]]
      | (* not done *)
        split;
        [split;
         [discriminate
         |intros (Hne & Hfault & s' & q' & qs' & Hs' & Hq');
          first [ apply Htr in Hne; discriminate
                | discriminate
                | congruence ]]
        |split; [discriminate | intros _; split; reflexivity]] ].
Qed.

Lemma find_updated_none (l : list MultiFacility.Stored) (c : string) (k : Z)
    (p : string) :
  find (fun s => (Recovery.code (MultiFacility.facility s) =? c)%string) l = None ->
  (forall s, In s l -> Recovery.id (MultiFacility.facility s) <> k) ->
  find (fun s => (Recovery.code (MultiFacility.facility s) =? c)%string)
       (map (fun s => if Recovery.id (MultiFacility.facility s) =? k
                      then MultiFacility.mkStored
                             (MultiFacility.withPassword (MultiFacility.facility s) p)
                             (MultiFacility.createdAt s)
                      else s) l)
  = None.
Proof.
  induction l as [|s l IH]; simpl; intros Hn Hk; [reflexivity|].
  destruct (Recovery.code (MultiFacility.facility s) =? c)%string eqn:Ec;
    [discriminate|].
  assert ((Recovery.id (MultiFacility.facility s) =? k) = false) as ->
    by (apply Z.eqb_neq; apply Hk; now left).
  rewrite Ec. apply IH; [exact Hn|]. intros x Hx. apply Hk. now right.
Qed.

(** X25: a facility that has just been registered can recover its
    password.  With no request rejected afterwards, entering its code in
    any letter case, then the two answers given at registration in any
    letter case and with any surrounding white space, then a new password
    of at least 4 characters twice, goes through the three steps and leaves
    the facility found under that code with the new password.  The code
    must not be empty after trimming: a facility registered with an empty
    code cannot start the recovery. *)
Theorem registered_facility_can_recover
    (f : MultiFacility.FacilityForm) (createdNow loggedNow : Z)
    (cl cl1 : MultiFacility.Client) (codeInput : string)
    (value : nat -> string) (newPassword : string)
    (Hreg : MultiFacility.registerFacility f createdNow loggedNow cl = (Done, cl1))
    (Hfaults : MultiFacility.faults cl1 = [])
    (Hkeys : forall s, In s (MultiFacility.facilities (MultiFacility.store cl)) ->
               Recovery.id (MultiFacility.facility s)
               <= MultiFacility.facilitiesKey (MultiFacility.store cl))
    (Hnonempty : toUpperCase (trim (MultiFacility.in_code f)) <> "")
    (Hcode : toUpperCase (trim codeInput)
             = toUpperCase (trim (MultiFacility.in_code f)))
    (Hans1 : toLowerCase (trim (value 0%nat))
             = toLowerCase (trim (MultiFacility.in_answer1 f)))
    (Hans2 : toLowerCase (trim (value 1%nat))
             = toLowerCase (trim (MultiFacility.in_answer2 f)))
    (Hlen : (4 <= String.length newPassword)%nat) :
  exists cl2 cl3 cl4 s,
    MultiFacility.verifyFacilityForRecovery codeInput cl1 = (Done, cl2)
    /\ MultiFacility.recoveryStep cl2 = 2%nat
    /\ MultiFacility.verifyAnswers value cl2 = Some cl3
    /\ MultiFacility.recoveryStep cl3 = 3%nat
    /\ MultiFacility.resetPassword newPassword newPassword cl3 = (Done, cl4)
    /\ MultiFacility.firstWithCode (toUpperCase (trim (MultiFacility.in_code f)))
                                   (MultiFacility.store cl4) = Some s
    /\ Recovery.password (MultiFacility.facility s) = newPassword.
Proof.
  pose proof (registerFacility_cases f createdNow loggedNow cl) as Hcases.
  rewrite Hreg in Hcases. cbn [fst snd] in Hcases.
  destruct Hcases as [[Hnot _] | (_ & _ & Ha1 & Ha2 & Hfree & Hfac & _)];
    [now elim Hnot|].
  set (k := MultiFacility.facilitiesKey (MultiFacility.store cl) + 1) in *.
  set (new := MultiFacility.mkStored (MultiFacility.facilityOfForm f k) createdNow) in *.
  assert (MultiFacility.firstWithCode (toUpperCase (trim (MultiFacility.in_code f)))
                                      (MultiFacility.store cl1) = Some new) as Hfind.
  { unfold MultiFacility.firstWithCode in *. rewrite Hfac.
    apply find_app_none; [exact Hfree|]. simpl. apply String.eqb_refl. }
  (* step 1 *)
  assert (MultiFacility.verifyFacilityForRecovery codeInput cl1
          = (Done, MultiFacility.mkClient (MultiFacility.store cl1)
                     (MultiFacility.currentFacility cl1) (Some new) 2 [])) as H1.
  { unfold MultiFacility.verifyFacilityForRecovery. rewrite Hcode.
    apply truthy_true_iff in Hnonempty. rewrite Hnonempty, Hfaults. simpl.
    rewrite Hfind. reflexivity. }
  (* step 2 *)
  assert (MultiFacility.verifyAnswers value
            (MultiFacility.mkClient (MultiFacility.store cl1)
               (MultiFacility.currentFacility cl1) (Some new) 2 [])
          = Some (MultiFacility.mkClient (MultiFacility.store cl1)
                    (MultiFacility.currentFacility cl1) (Some new) 3 [])) as H2.
  { unfold MultiFacility.verifyAnswers, Recovery.verifySecurityAnswers.
    cbn [MultiFacility.recoveryFacility MultiFacility.facility new
         MultiFacility.facilityOfForm Recovery.securityQuestions
         Recovery.recoveryFacility Recovery.recoveryStep fold_left].
    unfold Recovery.visit at 2. unfold Recovery.answerMatches.
    cbn [Recovery.answer]. rewrite Hans1, String.eqb_refl. cbn [negb].
    unfold Recovery.visit. unfold Recovery.answerMatches.
    cbn [Recovery.answer]. rewrite Hans2, String.eqb_refl. reflexivity. }
  (* step 3 *)
  assert (truthy newPassword = true) as Htr
    by (destruct newPassword; [simpl in Hlen; lia | reflexivity]).
  assert ((String.length newPassword <? 4)%nat = false) as Hl4
    by (apply Nat.ltb_ge; exact Hlen).
  eexists. eexists. eexists. exists (MultiFacility.mkStored
    (MultiFacility.withPassword (MultiFacility.facility new) newPassword) createdNow).
  split; [exact H1|]. split; [reflexivity|]. split; [exact H2|].
  split; [reflexivity|].
  split.
  - unfold MultiFacility.resetPassword. rewrite Htr, Hl4, String.eqb_refl.
    simpl. reflexivity.
  - split; [|reflexivity].
    unfold MultiFacility.firstWithCode, MultiFacility.updatePassword.
    cbn [MultiFacility.store MultiFacility.facilities MultiFacility.recoveryFacility
         MultiFacility.facility].
    rewrite Hfac, map_app. cbn [map].
    assert ((Recovery.id (MultiFacility.facility new) =? k) = true) as ->
      by apply Z.eqb_refl.
    apply find_app_none.
    + apply find_updated_none; [exact Hfree|].
      intros x Hx. specialize (Hkeys x Hx). unfold k. lia.
    + apply String.eqb_refl.
Qed.

Lemma registered_facility_can_recover_witness :
  let form := MultiFacility.mkFacilityForm
                " Korle Bu Clinic " " kb01 " "s3cret" "s3cret" "Greater Accra"
                "Accra Metro" "What is your favorite color?" " Blue "
                "What is your favorite food?" "Rice" in
  let cl := MultiFacility.mkClient (MultiFacility.mkStore [] 0 [] 0) None None 1 [] in
  let cl1 := snd (MultiFacility.registerFacility form 1715342400000 1715342400001 cl) in
  let value := fun index : nat => match index with O => "BLUE" | _ => " rice " end in
  exists cl2 cl3 cl4 s,
    MultiFacility.verifyFacilityForRecovery "Kb01" cl1 = (Done, cl2)
    /\ MultiFacility.verifyAnswers value cl2 = Some cl3
    /\ MultiFacility.resetPassword "n3wpass" "n3wpass" cl3 = (Done, cl4)
    /\ MultiFacility.firstWithCode "KB01" (MultiFacility.store cl4) = Some s
    /\ Recovery.password (MultiFacility.facility s) = "n3wpass".
Proof.
  intros form cl cl1 value.
  assert (4 <= String.length "n3wpass")%nat as Hlen by (simpl; lia).
  assert (toUpperCase (trim (MultiFacility.in_code form)) <> "") as Hne
    by discriminate.
  destruct (registered_facility_can_recover
              form 1715342400000 1715342400001 cl cl1 "Kb01" value "n3wpass"
              eq_refl eq_refl (fun s (H : In s []) => match H with end)
              Hne eq_refl eq_refl eq_refl Hlen)
    as (cl2 & cl3 & cl4 & s & H1 & _ & H2 & _ & H3 & H4 & H5).
  exists cl2, cl3, cl4, s. auto.
Defined.

(* ------------------------------------------------------------------ *)
(** ** Resuming a session ([App.js]) *)
(* ------------------------------------------------------------------ *)

Lemma fold_latest_spec (ss : list MultiFacility.Session) :
  forall best,
    let pick := fun best s =>
                  match best with
                  | None => Some s
                  | Some b => if MultiFacility.loggedInAt b <=? MultiFacility.loggedInAt s
                              then Some s else Some b
                  end in
    match fold_left pick ss best with
    | None => ss = [] /\ best = None
    | Some r =>
        (In r ss \/ best = Some r)
        /\ (forall x, In x ss ->
              MultiFacility.loggedInAt x <= MultiFacility.loggedInAt r)
        /\ (forall b, best = Some b ->
              MultiFacility.loggedInAt b <= MultiFacility.loggedInAt r)
    end.
Proof.
  induction ss as [|s ss IH]; intros best pick; simpl.
  - destruct best as [b|]; [|auto].
    split; [now right|]. split; [intros x []|].
    intros b' H. injection H as ->. lia.
  - specialize (IH (pick best s)). simpl in IH. fold pick in IH.
    destruct (fold_left pick ss (pick best s)) as [r|].
    + destruct IH as (Hin & Hall & Hbest). split; [|split].
      * destruct Hin as [Hin | Hin]; [left; now right|].
        subst pick. destruct best as [b|]; simpl in Hin.
        -- destruct (MultiFacility.loggedInAt b <=? MultiFacility.loggedInAt s);
             injection Hin as <-; [left; now left | now right].
        -- injection Hin as <-. left. now left.
      * intros x [<- | Hx]; [|now apply Hall].
        subst pick. destruct best as [b|]; simpl in Hbest.
        -- destruct (MultiFacility.loggedInAt b <=? MultiFacility.loggedInAt s) eqn:E.
           ++ exact (Hbest _ eq_refl).
           ++ apply Z.leb_gt in E. specialize (Hbest _ eq_refl). lia.
        -- exact (Hbest _ eq_refl).
      * intros b ->. subst pick. simpl in Hbest.
        destruct (MultiFacility.loggedInAt b <=? MultiFacility.loggedInAt s) eqn:E.
        -- apply Z.leb_le in E. specialize (Hbest _ eq_refl). lia.
        -- exact (Hbest _ eq_refl).
    + destruct IH as [_ H]. subst pick. destruct best as [b|]; simpl in H;
        [destruct (MultiFacility.loggedInAt b <=? MultiFacility.loggedInAt s)|];
        discriminate.
Qed.

Lemma latestSession_snoc (st : MultiFacility.Store) (ss : list MultiFacility.Session)
    (s : MultiFacility.Session) :
  MultiFacility.sessions st = (ss ++ [s])%list ->
  (forall x, In x ss -> MultiFacility.loggedInAt x <= MultiFacility.loggedInAt s) ->
  MultiFacility.latestSession st = Some s.
Proof.
  intros Hs Hall. unfold MultiFacility.latestSession. rewrite Hs, fold_left_app.
  simpl. pose proof (fold_latest_spec ss None) as H. simpl in H.
  destruct (fold_left _ ss None) as [b|]; [|reflexivity].
  destruct H as ([Hin | Hin] & _ & _); [|discriminate].
  assert ((MultiFacility.loggedInAt b <=? MultiFacility.loggedInAt s) = true) as ->
    by (apply Z.leb_le; now apply Hall).
  reflexivity.
Qed.

(** X26: the session resumed at start-up is one with the greatest login
    time.  After a successful registration whose login time is not before
    any earlier session, a restart with every request served opens the main
    application for the facility just registered; and when the facility of
    the latest session is no longer in the table, the login screen is shown
    and no facility is current, even if older sessions point to existing
    facilities. *)
Theorem latest_session_is_resumed
    (f : MultiFacility.FacilityForm) (createdNow loggedNow : Z)
    (cl cl1 : MultiFacility.Client)
    (Hreg : MultiFacility.registerFacility f createdNow loggedNow cl = (Done, cl1))
    (Hkeys : forall s, In s (MultiFacility.facilities (MultiFacility.store cl)) ->
               Recovery.id (MultiFacility.facility s)
               <= MultiFacility.facilitiesKey (MultiFacility.store cl))
    (Hlatest : forall x, In x (MultiFacility.sessions (MultiFacility.store cl)) ->
                 MultiFacility.loggedInAt x <= loggedNow) :
  (exists cur,
     MultiFacility.currentFacility cl1 = Some cur
     /\ Recovery.code (MultiFacility.facility cur)
        = toUpperCase (trim (MultiFacility.in_code f))
     /\ forall cur0 rec step,
          MultiFacility.initApp
            (MultiFacility.mkClient (MultiFacility.store cl1) cur0 rec step [])
          = (Done, MultiFacility.mkClient (MultiFacility.store cl1) (Some cur)
                                          rec step []))
  /\ (forall c s,
        MultiFacility.faults c = [] ->
        MultiFacility.latestSession (MultiFacility.store c) = Some s ->
        (In s (MultiFacility.sessions (MultiFacility.store c))
         /\ forall x, In x (MultiFacility.sessions (MultiFacility.store c)) ->
              MultiFacility.loggedInAt x <= MultiFacility.loggedInAt s)
        /\ (MultiFacility.getFacility (MultiFacility.facilityId s)
                                      (MultiFacility.store c) = None ->
            fst (MultiFacility.initApp c) = Refused
            /\ MultiFacility.currentFacility (snd (MultiFacility.initApp c)) = None)).
Proof.
  split.
  - pose proof (registerFacility_cases f createdNow loggedNow cl) as Hcases.
    rewrite Hreg in Hcases. cbn [fst snd] in Hcases.
    destruct Hcases as [[Hnot _] | (_ & _ & _ & _ & Hfree & Hfac & _ & _ & _ & Hdone)];
      [now elim Hnot|].
    destruct (Hdone eq_refl) as (cur & Hget & Hcur & Hsess & _).
    assert (Recovery.id (MultiFacility.facility cur)
            = MultiFacility.facilitiesKey (MultiFacility.store cl) + 1) as Hid.
    { unfold MultiFacility.getFacility in Hget. apply find_some in Hget as [_ H].
      now apply Z.eqb_eq in H. }
    assert (Recovery.code (MultiFacility.facility cur)
            = toUpperCase (trim (MultiFacility.in_code f))) as Hcode.
    { unfold MultiFacility.getFacility in Hget. rewrite Hfac in Hget.
      apply find_some in Hget as [Hin _].
      apply in_app_or in Hin as [Hin | [<- | []]]; [|reflexivity].
      specialize (Hkeys cur Hin). lia. }
    exists cur. split; [exact Hcur|]. split; [exact Hcode|].
    intros cur0 rec step. unfold MultiFacility.initApp. simpl.
    rewrite (latestSession_snoc _ _ _ Hsess Hlatest). simpl.
    rewrite Hid, Hget. reflexivity.
  - intros c s Hf Hs. split.
    + unfold MultiFacility.latestSession in Hs.
      pose proof (fold_latest_spec (MultiFacility.sessions (MultiFacility.store c)) None)
        as H. simpl in H. rewrite Hs in H.
      destruct H as ([Hin | Hin] & Hall & _); [|discriminate]. auto.
    + intro Hnone. unfold MultiFacility.initApp. rewrite Hf. simpl.
      rewrite Hs, Hnone. split; reflexivity.
Qed.

Lemma latest_session_is_resumed_witness :
  let form := MultiFacility.mkFacilityForm
                " Korle Bu Clinic " " kb01 " "s3cret" "s3cret" "Greater Accra"
                "Accra Metro" "What is your favorite color?" " Blue "
                "What is your favorite food?" "Rice" in
  let cl := MultiFacility.mkClient (MultiFacility.mkStore [] 0 [] 0) None None 1 [] in
  let cl1 := snd (MultiFacility.registerFacility form 1715342400000 1715342400001 cl) in
  exists cur,
    MultiFacility.currentFacility cl1 = Some cur
    /\ Recovery.code (MultiFacility.facility cur) = "KB01".
Proof.
  intros form cl cl1.
  destruct (proj1 (latest_session_is_resumed
                     form 1715342400000 1715342400001 cl cl1 eq_refl
                     (fun s (H : In s []) => match H with end)
                     (fun x (H : In x []) => match H with end)))
    as (cur & Hc & Hcode & _).
  exists cur. split; [exact Hc | exact Hcode].
Defined.

(* ------------------------------------------------------------------ *)
(** ** Dates on screen *)
(* ------------------------------------------------------------------ *)

Lemma zrange_In (n : nat) (start k : Z) :
  start <= k < start + Z.of_nat n -> In k (zrange start n).
Proof.
  revert start. induction n as [|n IH]; intros start H; [lia|].
  cbn [zrange]. destruct (Z.eq_dec start k) as [->|Hne]; [now left|].
  right. apply IH. lia.
Qed.

Lemma daysTo2100_In (n : Z) : 0 <= n < 47482 -> In n daysTo2100.
Proof.
  intro H. unfold daysTo2100. apply zrange_In. lia.
Qed.

Lemma getFullYear_yearOfDay (t : Z) : getFullYear t = yearOfDay (t / msPerDay).
Proof. reflexivity. Qed.

(** Day by day from 1970 to 2099: the year, month and day computed from a
    day number form a date of the calendar, and that date is the day. *)
Lemma civil_round_trip_days (n : Z) :
  0 <= n < 47482 ->
  let y := yearOfDay n in
  let m := fst (monthAndDay n) in
  let d := snd (monthAndDay n) in
  1970 <= y <= 2099 /\ 1 <= m <= 12 /\ 1 <= d <= daysInMonth y m
  /\ daysFromCivil y m d = n.
Proof.
  intro H.
  assert (forallb (fun k =>
                     let y := yearOfDay k in
                     let m := fst (monthAndDay k) in
                     let d := snd (monthAndDay k) in
                     (1970 <=? y) && (y <=? 2099) && (1 <=? m) && (m <=? 12)
                     && (1 <=? d) && (d <=? daysInMonth y m)
                     && (daysFromCivil y m d =? k))
                  daysTo2100 = true) as Hall
    by (vm_compute; reflexivity).
  rewrite forallb_forall in Hall. specialize (Hall n (daysTo2100_In n H)).
  cbv zeta in Hall. rewrite !andb_true_iff in Hall.
  destruct Hall as [[[[[[H1 H2] H3] H4] H5] H6] H7].
  cbv zeta. lia.
Qed.

Lemma civil_round_trip (n : Z) :
  0 <= n < 47482 ->
  let y := getFullYear (n * msPerDay) in
  let m := getMonth (n * msPerDay) + 1 in
  let d := getDate (n * msPerDay) in
  1970 <= y <= 2099 /\ 1 <= m <= 12 /\ 1 <= d <= daysInMonth y m
  /\ daysFromCivil y m d = n.
Proof.
  intro H. cbv zeta. rewrite getFullYear_yearOfDay. unfold getMonth, getDate.
  rewrite Z.div_mul by discriminate.
  replace (fst (monthAndDay n) - 1 + 1) with (fst (monthAndDay n)) by lia.
  exact (civil_round_trip_days n H).
Qed.

Lemma daysInMonth_le_31 (y m : Z) : daysInMonth y m <= 31.
Proof.
  unfold daysInMonth.
  destruct (m =? 2); [destruct (isLeap y); lia|].
  destruct ((m =? 4) || (m =? 6) || (m =? 9) || (m =? 11)); lia.
Qed.

(** A year from 1970 to 2099 prints as four digits. *)
Lemma year_digits (y : Z) :
  1970 <= y <= 2099 ->
  let s := padStart (String_of_Z y) 4 "0" in
  s = String_of_Z y /\ String.length s = 4%nat /\ allDigits s = true
  /\ digitsVal 0 s = y.
Proof.
  intro H.
  assert (forallb (fun k =>
                     let s := padStart (String_of_Z k) 4 "0" in
                     (s =? String_of_Z k)%string && (String.length s =? 4)%nat
                     && allDigits s && (digitsVal 0 s =? k))
                  (zrange 1970 130) = true) as Hall
    by (vm_compute; reflexivity).
  rewrite forallb_forall in Hall.
  assert (In y (zrange 1970 130)) as Hin.
  { apply zrange_In. lia. }
  specialize (Hall y Hin). cbv zeta in Hall. rewrite !andb_true_iff in Hall.
  destruct Hall as [[[H1 H2] H3] H4]. cbv zeta.
  apply String.eqb_eq in H1. apply Nat.eqb_eq in H2. apply Z.eqb_eq in H4.
  auto.
Qed.

(** A month or a day of the month prints as two digits. *)
Lemma pad2_digits (k : Z) :
  1 <= k <= 31 ->
  String.length (pad2 k) = 2%nat /\ allDigits (pad2 k) = true
  /\ digitsVal 0 (pad2 k) = k.
Proof.
  intro H.
  assert (forallb (fun j =>
                     (String.length (pad2 j) =? 2)%nat && allDigits (pad2 j)
                     && (digitsVal 0 (pad2 j) =? j))
                  (zrange 1 31) = true) as Hall
    by (vm_compute; reflexivity).
  rewrite forallb_forall in Hall.
  assert (In k (zrange 1 31)) as Hin.
  { apply zrange_In. lia. }
  specialize (Hall k Hin). rewrite !andb_true_iff in Hall.
  destruct Hall as [[H1 H2] H3].
  apply Nat.eqb_eq in H1. apply Z.eqb_eq in H3. auto.
Qed.

(** How [new Date(s)] and [substring] see a string of the form
    [a-b-c] with four, two and two characters. *)
Lemma Date_parse_parts (a b c : string) :
  String.length a = 4%nat -> String.length b = 2%nat -> String.length c = 2%nat ->
  let s := a ++ "-" ++ b ++ "-" ++ c in
  substring 0 4 s = a /\ substring 5 2 s = b /\ substring 8 2 s = c
  /\ Date_parse s
     = if allDigits a && allDigits b && allDigits c
       then
         let y := digitsVal 0 a in
         let m := digitsVal 0 b in
         let d := digitsVal 0 c in
         if (1 <=? m) && (m <=? 12) && (1 <=? d) && (d <=? daysInMonth y m)
         then Some (daysFromCivil y m d * msPerDay)
         else None
       else None.
Proof.
  intros Ha Hb Hc.
  destruct a as [|a1 [|a2 [|a3 [|a4 [|? ?]]]]]; try discriminate Ha.
  destruct b as [|b1 [|b2 [|? ?]]]; try discriminate Hb.
  destruct c as [|c1 [|c2 [|? ?]]]; try discriminate Hc.
  cbv zeta. split; [reflexivity|]. split; [reflexivity|]. split; [reflexivity|].
  unfold Date_parse.
  cbn [append String.length Nat.eqb substring String.eqb Ascii.eqb Bool.eqb andb].
  rewrite !andb_true_r. reflexivity.
Qed.

(** Printing a day as [YYYY-MM-DD] and reading it back gives midnight of
    that day. *)
Lemma parse_toISODate_days (n : Z) :
  0 <= n < 47482 -> Date_parse (toISODate (n * msPerDay)) = Some (n * msPerDay).
Proof.
  intro H. destruct (civil_round_trip n H) as (Hy & Hm & Hd & Hn).
  pose proof (daysInMonth_le_31 (getFullYear (n * msPerDay))
                                (getMonth (n * msPerDay) + 1)) as H31.
  destruct (year_digits _ Hy) as (_ & Hy1 & Hy2 & Hy3).
  destruct (pad2_digits (getMonth (n * msPerDay) + 1)) as (Hm1 & Hm2 & Hm3); [lia|].
  destruct (pad2_digits (getDate (n * msPerDay))) as (Hd1 & Hd2 & Hd3); [lia|].
  unfold toISODate.
  destruct (Date_parse_parts _ _ _ Hy1 Hm1 Hd1) as (_ & _ & _ & Hp).
  cbv zeta in Hp. rewrite Hp, Hy2, Hm2, Hd2, Hy3, Hm3, Hd3. cbn [andb].
  replace ((1 <=? getMonth (n * msPerDay) + 1)
           && (getMonth (n * msPerDay) + 1 <=? 12)
           && (1 <=? getDate (n * msPerDay))
           && (getDate (n * msPerDay)
               <=? daysInMonth (getFullYear (n * msPerDay))
                               (getMonth (n * msPerDay) + 1))) with true.
  - now rewrite Hn.
  - symmetry. rewrite !andb_true_iff. repeat split; apply Z.leb_le; lia.
Qed.

Lemma toISODate_day (t : Z) : toISODate t = toISODate (t / msPerDay * msPerDay).
Proof.
  unfold toISODate, getFullYear, getMonth, getDate.
  rewrite Z.div_mul by discriminate. reflexivity.
Qed.

(** The local date printed for an instant of day [d]. *)
Lemma dayMonthYear_of_day (d local : Z) :
  0 <= d < 47482 -> local / msPerDay = d ->
  pad2 (getDate local) ++ "/" ++ pad2 (getMonth local + 1) ++ "/"
  ++ String_of_Z (getFullYear local)
  = dayMonthYear (toISODate (d * msPerDay)).
Proof.
  intros H Hd. destruct (civil_round_trip d H) as (Hy & Hm & Hday & _).
  pose proof (daysInMonth_le_31 (getFullYear (d * msPerDay))
                                (getMonth (d * msPerDay) + 1)) as H31.
  destruct (year_digits _ Hy) as (Hy0 & Hy1 & _).
  destruct (pad2_digits (getMonth (d * msPerDay) + 1)) as (Hm1 & _); [lia|].
  destruct (pad2_digits (getDate (d * msPerDay))) as (Hd1 & _); [lia|].
  assert (getDate local = getDate (d * msPerDay)) as ->
    by (unfold getDate; rewrite Hd, Z.div_mul by discriminate; reflexivity).
  assert (getMonth local = getMonth (d * msPerDay)) as ->
    by (unfold getMonth; rewrite Hd, Z.div_mul by discriminate; reflexivity).
  assert (getFullYear local = getFullYear (d * msPerDay)) as ->
    by (rewrite !getFullYear_yearOfDay, Hd, Z.div_mul by discriminate;
        reflexivity).
  unfold dayMonthYear, toISODate.
  destruct (Date_parse_parts _ _ _ Hy1 Hm1 Hd1) as (Ha & Hb & Hc & _).
  cbv zeta in Ha, Hb, Hc. rewrite Ha, Hb, Hc, Hy0. reflexivity.
Qed.

Lemma toISODate_truthy (t : Z) : truthy (toISODate t) = true.
Proof.
  apply truthy_true_iff. unfold toISODate.
  destruct (padStart (String_of_Z (getFullYear t)) 4 "0"); discriminate.
Qed.

(** X27: for the date string [YYYY-MM-DD] of a day from 1970 to 2099, which
    [new Date] reads as midnight UTC of that day, [formatDate] prints
    [DD/MM/YYYY] with the same day, month and year where local time is UTC
    or ahead of it; where local time is behind UTC it prints the day
    before.  An empty string stays empty. *)
Theorem formatDate_reorders_the_date
    (newDate : string -> JSDate) (offset n : Z)
    (Hnew : forall s t, Date_parse s = Some t -> newDate s = Some t)
    (Hrange : 0 <= n < 47482) :
  let s := toISODate (n * msPerDay) in
  newDate s = Some (n * msPerDay)
  /\ (0 <= offset < msPerDay -> formatDate newDate offset s = dayMonthYear s)
  /\ (- msPerDay <= offset < 0 -> 1 <= n ->
      formatDate newDate offset s
      = dayMonthYear (toISODate ((n - 1) * msPerDay)))
  /\ formatDate newDate offset "" = "".
Proof.
  intro s. subst s.
  pose proof (Hnew _ _ (parse_toISODate_days n Hrange)) as Hp.
  split; [exact Hp|].
  assert (msPerDay = 86400000) as HD by reflexivity.
  split; [|split; [|reflexivity]].
  - intro Hoff. unfold formatDate. rewrite toISODate_truthy, Hp. cbn [negb].
    cbv zeta. apply dayMonthYear_of_day; [exact Hrange|].
    rewrite Z.add_comm, Z.div_add by discriminate.
    rewrite Z.div_small by exact Hoff. apply Z.add_0_l.
  - intros Hoff Hn. unfold formatDate. rewrite toISODate_truthy, Hp. cbn [negb].
    cbv zeta. apply dayMonthYear_of_day; [lia|].
    replace (n * msPerDay + offset)
      with ((offset + msPerDay) + (n - 1) * msPerDay) by lia.
    rewrite Z.div_add by discriminate.
    rewrite Z.div_small by lia. apply Z.add_0_l.
Qed.

Lemma formatDate_reorders_the_date_witness :
  formatDate Date_parse 19800000 "2024-05-10" = "10/05/2024"
  /\ formatDate Date_parse (-18000000) "2024-05-10" = "09/05/2024".
Proof.
  assert (0 <= 19853 < 47482) as Hrange by lia.
  pose proof (formatDate_reorders_the_date
                Date_parse 19800000 19853 (fun s t H => H) Hrange)
    as (_ & Hahead & _).
  pose proof (formatDate_reorders_the_date
                Date_parse (-18000000) 19853 (fun s t H => H) Hrange)
    as (_ & _ & Hbehind & _).
  split.
  - apply Hahead. unfold msPerDay. lia.
  - apply Hbehind; [unfold msPerDay; lia | lia].
Defined.

(** X28: between 1970 and 2099, a booked dose that [showTodayAppointments]
    lists, with a next visit written as a plain date, has its next visit at
    midnight UTC of the current day: its [daysUntil] is 0, it is in neither
    the due-soon nor the upcoming table, and unless the clock reads midnight
    exactly it is counted as missed, with 0 days overdue. *)
Theorem todays_appointment_is_already_overdue
    (now : Z) (c : Child) (v : Vaccination)
    (Hrange : 0 <= now < 4102444800000)
    (Hin : In v (todayVaccinations now c))
    (Hplain : beforeT (nextVisit v) = nextVisit v)
    (Hgiven : dateGiven v = "") :
  In v (vaccinations c)
  /\ nextVisit v = toISODate now
  /\ Date_parse (nextVisit v) = Some (now / msPerDay * msPerDay)
  /\ daysUntilOf now v = Some 0
  /\ isDueSoon now v = false
  /\ isUpcoming now v = false
  /\ (now mod msPerDay <> 0 ->
      isMissed now v = true /\ daysOverdueOf now v = Some 0)
  /\ (now mod msPerDay = 0 -> isMissed now v = false).
Proof.
  unfold todayVaccinations in Hin. apply filter_In in Hin as [Hv Hf].
  apply andb_true_iff in Hf as [Hn He]. apply String.eqb_eq in He.
  rewrite Hplain in He.
  assert (0 <= now / msPerDay < 47482) as Hday.
  { split; [apply Z.div_pos; [lia | reflexivity]|].
    apply Z.div_lt_upper_bound; [reflexivity|]. unfold msPerDay. lia. }
  assert (Date_parse (nextVisit v) = Some (now / msPerDay * msPerDay)) as Hp.
  { rewrite He, (toISODate_day now). now apply parse_toISODate_days. }
  assert (booked v = true) as Hb
    by (unfold booked; rewrite Hn, Hgiven; reflexivity).
  pose proof (Z.div_mod now msPerDay) as Hdm.
  pose proof (Z.mod_pos_bound now msPerDay msPerDay_pos) as Hmod.
  assert (msPerDay <> 0) as HD by discriminate. specialize (Hdm HD).
  assert (now - now / msPerDay * msPerDay = now mod msPerDay) as Hdiff by lia.
  assert ((now mod msPerDay) / msPerDay = 0) as Hq by (apply Z.div_small; lia).
  split; [exact Hv|]. split; [exact He|]. split; [exact Hp|].
  unfold daysUntilOf, daysOverdueOf, isDueSoon, isUpcoming, isMissed.
  rewrite Hb, Hp. cbn [ceilDays floorDays date_lt num_gt num_le].
  rewrite Hdiff, Hq. cbn.
  split; [reflexivity|]. split; [reflexivity|]. split; [reflexivity|].
  split.
  - intro Hnz. split; [|reflexivity]. apply Z.ltb_lt. clear - Hnz.
    pose proof (Z.div_mod now 86400000).
    pose proof (Z.mod_pos_bound now 86400000). lia.
  - intro Hz. apply Z.ltb_ge. clear - Hz.
    pose proof (Z.div_mod now 86400000). lia.
Qed.

Lemma todays_appointment_is_already_overdue_witness :
  let v := bookedDose 1 "OPV1 at 6 weeks" "2024-05-10" in
  isMissed noon_2024_05_10 v = true /\ daysOverdueOf noon_2024_05_10 v = Some 0.
Proof.
  intro v.
  assert (0 <= noon_2024_05_10 < 4102444800000) as H by (unfold noon_2024_05_10; lia).
  assert (In v (todayVaccinations noon_2024_05_10 (mkChild sampleRow [v]))) as Hin
    by (vm_compute; left; reflexivity).
  apply (proj1 (proj2 (proj2 (proj2 (proj2 (proj2 (proj2
           (todays_appointment_is_already_overdue
              noon_2024_05_10 (mkChild sampleRow [v]) v H Hin eq_refl eq_refl)))))))).
  vm_compute. discriminate.
Defined.
